(** * measurements: units, dimensions, quantities and uncertain quantities

    A shallow embedding of the header-only C++ library
    (src/units/bitwidth.hpp, base.hpp, prefix.hpp, unit.hpp, types.hpp,
    src/measurement.hpp, src/umeasurement.hpp, src/measurement_types.hpp)
    and the properties of its unit algebra, of the two quantity classes and
    of the measurements of one dimension.

    Conventions of the embedding:
    - [scalar] is C++ [double]: Rocq's primitive binary64 floats, whose
      operations are the IEEE 754 ones ([std::sqrt] and [std::fabs] are
      [PrimFloat.sqrt] and [PrimFloat.abs]);
    - [int] values are [Z]; where the source computes on [int] the embedding
      says what happens out of range;
    - the exponents of [unit_base] are signed bit-fields: a store keeps the
      low bits (two's complement);
    - a call ends in an [outcome]: a value, a C++ exception, [std::terminate]
      (an exception leaving a [noexcept] function) or undefined behaviour;
      a function whose body can do none of the last three is a plain
      function;
    - the functions of <cmath> that are outside the IEEE basic operations
      ([std::pow], [std::sin], ...) are parameters of the definitions that
      call them, and so is [std::stoi];
    - a [std::string] is a [String.string], a position a [nat], [npos] and
      a call of [at] or [substr] that throws are [None]. *)

From Stdlib Require Import ZArith Lia Bool Ascii List Floats.
From Stdlib Require Uint63 String.

Set Warnings "-inexact-float".

Local Open Scope Z_scope.

(* ================================================================== *)
(** * Outcomes of a call *)

Inductive exn : Set :=
| invalid_argument   (* std::invalid_argument *)
| runtime_error.     (* std::runtime_error *)

Inductive outcome (A : Type) : Type :=
| Ok (a : A)
| Throw (e : exn)
| Terminate
| Undefined.

Arguments Ok {A} a.
Arguments Throw {A} e.
Arguments Terminate {A}.
Arguments Undefined {A}.

Definition bind {A B : Type} (c : outcome A) (k : A -> outcome B) : outcome B :=
  match c with
  | Ok a => k a
  | Throw e => Throw e
  | Terminate => Terminate
  | Undefined => Undefined
  end.

Notation "x <- c ;; k" := (bind c (fun x => k))
  (at level 61, c at next level, right associativity).

(** The body of a function declared [noexcept]: an exception that would
    leave it calls [std::terminate]. *)
Definition noexcept {A : Type} (c : outcome A) : outcome A :=
  match c with
  | Throw _ => Terminate
  | other => other
  end.

Definition scalar : Set := float.

(** [|x - y| <= tol], the comparison of two scalars up to a tolerance. *)
Definition within (tol x y : scalar) : bool := (abs (x - y) <=? tol)%float.

(* ================================================================== *)
(** * C++ [int] and signed bit-fields *)

Definition int_min : Z := - 2 ^ 31.
Definition int_max : Z := 2 ^ 31 - 1.

Definition in_int (z : Z) : bool := (int_min <=? z) && (z <=? int_max).

(** [a * b] on [int]: signed overflow is undefined behaviour. *)
Definition int_mul (a b : Z) : outcome Z :=
  if in_int (a * b) then Ok (a * b) else Undefined.

(** Storing an [int] into [signed int f : w]: the value modulo [2^w], read
    as a two's complement number of [w] bits. *)
Definition store_bits (w : Z) (z : Z) : Z :=
  (z + 2 ^ (w - 1)) mod 2 ^ w - 2 ^ (w - 1).

Definition in_bits (w : Z) (z : Z) : Prop :=
  - 2 ^ (w - 1) <= z < 2 ^ (w - 1).

(** The conversion of an [int] to [double] (exact for every [int]). *)
Definition double_of_int (z : Z) : scalar :=
  if z <? 0 then PrimFloat.opp (PrimFloat.of_uint63 (Uint63.of_Z (- z)))
  else PrimFloat.of_uint63 (Uint63.of_Z z).

(* ================================================================== *)
(** * units/bitwidth.hpp *)

Module bitwidth.

Definition sizeof_uint32_t : Z := 4.

Definition base_size : Z := if sizeof_uint32_t =? 8 then 8 else 4.

Definition metre : Z := if base_size =? 8 then 8 else 4.

Definition second : Z := if base_size =? 8 then 8 else 4.

Definition kilogram : Z := if base_size =? 8 then 6 else 3.

Definition ampere : Z := if base_size =? 8 then 6 else 3.

Definition candela : Z := if base_size =? 8 then 4 else 2.

Definition kelvin : Z := if base_size =? 8 then 6 else 3.

Definition mole : Z := if base_size =? 8 then 4 else 2.

End bitwidth.

(* ================================================================== *)
(** * units/base.hpp: [struct unit_base] *)

Module unit_base.

Record t : Set := mk {
  metre_ : Z;
  second_ : Z;
  kilogram_ : Z;
  ampere_ : Z;
  kelvin_ : Z;
  mole_ : Z;
  candela_ : Z
}.

(** What the bit-field members can hold. *)
Definition wf (d : t) : Prop :=
  in_bits bitwidth.metre (metre_ d) /\
  in_bits bitwidth.second (second_ d) /\
  in_bits bitwidth.kilogram (kilogram_ d) /\
  in_bits bitwidth.ampere (ampere_ d) /\
  in_bits bitwidth.kelvin (kelvin_ d) /\
  in_bits bitwidth.mole (mole_ d) /\
  in_bits bitwidth.candela (candela_ d).

(** [unit_base(int metres, int seconds, int kilograms, int amperes,
    int kelvins, int moles, int candelas)]: each member is initialised from
    an [int]. *)
Definition make (metres seconds kilograms amperes kelvins moles candelas : Z) : t :=
  mk (store_bits bitwidth.metre metres)
     (store_bits bitwidth.second seconds)
     (store_bits bitwidth.kilogram kilograms)
     (store_bits bitwidth.ampere amperes)
     (store_bits bitwidth.kelvin kelvins)
     (store_bits bitwidth.mole moles)
     (store_bits bitwidth.candela candelas).

(** [unit_base()] *)
Definition default : t := mk 0 0 0 0 0 0 0.

(** [operator*] *)
Definition op_mul (this other : t) : t :=
  make (metre_ this + metre_ other)
       (second_ this + second_ other)
       (kilogram_ this + kilogram_ other)
       (ampere_ this + ampere_ other)
       (kelvin_ this + kelvin_ other)
       (mole_ this + mole_ other)
       (candela_ this + candela_ other).

(** [operator/] *)
Definition op_div (this other : t) : t :=
  make (metre_ this - metre_ other)
       (second_ this - second_ other)
       (kilogram_ this - kilogram_ other)
       (ampere_ this - ampere_ other)
       (kelvin_ this - kelvin_ other)
       (mole_ this - mole_ other)
       (candela_ this - candela_ other).

(** [operator*=]: the result is the new state of [*this]; each [+=]
    stores the [int] sum into the bit-field. *)
Definition op_mul_assign (this other : t) : t :=
  mk (store_bits bitwidth.metre (metre_ this + metre_ other))
     (store_bits bitwidth.second (second_ this + second_ other))
     (store_bits bitwidth.kilogram (kilogram_ this + kilogram_ other))
     (store_bits bitwidth.ampere (ampere_ this + ampere_ other))
     (store_bits bitwidth.kelvin (kelvin_ this + kelvin_ other))
     (store_bits bitwidth.mole (mole_ this + mole_ other))
     (store_bits bitwidth.candela (candela_ this + candela_ other)).

(** [operator/=] *)
Definition op_div_assign (this other : t) : t :=
  mk (store_bits bitwidth.metre (metre_ this - metre_ other))
     (store_bits bitwidth.second (second_ this - second_ other))
     (store_bits bitwidth.kilogram (kilogram_ this - kilogram_ other))
     (store_bits bitwidth.ampere (ampere_ this - ampere_ other))
     (store_bits bitwidth.kelvin (kelvin_ this - kelvin_ other))
     (store_bits bitwidth.mole (mole_ this - mole_ other))
     (store_bits bitwidth.candela (candela_ this - candela_ other)).

(** [operator==] *)
Definition op_eq (this other : t) : bool :=
  (metre_ this =? metre_ other) &&
  (second_ this =? second_ other) &&
  (kilogram_ this =? kilogram_ other) &&
  (ampere_ this =? ampere_ other) &&
  (candela_ this =? candela_ other) &&
  (kelvin_ this =? kelvin_ other) &&
  (mole_ this =? mole_ other).

(** [operator!=] *)
Definition op_ne (this other : t) : bool :=
  negb (metre_ this =? metre_ other) ||
  negb (second_ this =? second_ other) ||
  negb (kilogram_ this =? kilogram_ other) ||
  negb (ampere_ this =? ampere_ other) ||
  negb (candela_ this =? candela_ other) ||
  negb (kelvin_ this =? kelvin_ other) ||
  negb (mole_ this =? mole_ other).

(** [inv] *)
Definition inv (this : t) : t :=
  make (- metre_ this) (- second_ this) (- kilogram_ this) (- ampere_ this)
       (- kelvin_ this) (- mole_ this) (- candela_ this).

(** [pow]: the seven products are computed on [int]. *)
Definition pow (this : t) (power : Z) : outcome t :=
  m <- int_mul (metre_ this) power ;;
  s <- int_mul (second_ this) power ;;
  kg <- int_mul (kilogram_ this) power ;;
  a <- int_mul (ampere_ this) power ;;
  k <- int_mul (kelvin_ this) power ;;
  mol <- int_mul (mole_ this) power ;;
  cd <- int_mul (candela_ this) power ;;
  Ok (make m s kg a k mol cd).

(** [square] *)
Definition square (this : t) : t :=
  make (metre_ this * 2) (second_ this * 2) (kilogram_ this * 2) (ampere_ this * 2)
       (kelvin_ this * 2) (mole_ this * 2) (candela_ this * 2).

(** [cube] *)
Definition cube (this : t) : t :=
  make (metre_ this * 3) (second_ this * 3) (kilogram_ this * 3) (ampere_ this * 3)
       (kelvin_ this * 3) (mole_ this * 3) (candela_ this * 3).

(** [has_valid_root]: [%] is the remainder of the truncating division; a zero
    right operand is undefined behaviour. *)
Definition has_valid_root (this : t) (power : Z) : outcome bool :=
  if power =? 0 then Undefined
  else Ok ((Z.rem (metre_ this) power =? 0) &&
           (Z.rem (second_ this) power =? 0) &&
           (Z.rem (kilogram_ this) power =? 0) &&
           (Z.rem (ampere_ this) power =? 0) &&
           (Z.rem (candela_ this) power =? 0) &&
           (Z.rem (kelvin_ this) power =? 0) &&
           (Z.rem (mole_ this) power =? 0)).

(** [root]: [/] is the truncating division. *)
Definition root (this : t) (power : Z) : outcome t :=
  valid <- has_valid_root this power ;;
  if valid : bool then
    Ok (make (Z.quot (metre_ this) power)
             (Z.quot (second_ this) power)
             (Z.quot (kilogram_ this) power)
             (Z.quot (ampere_ this) power)
             (Z.quot (kelvin_ this) power)
             (Z.quot (mole_ this) power)
             (Z.quot (candela_ this) power))
  else Throw invalid_argument.

(** [sqrt] *)
Definition sqrt (this : t) : outcome t := root this 2.

(** [cbrt] *)
Definition cbrt (this : t) : outcome t := root this 3.

(** The exponents of [this] as a list, in the order of the members. *)
Definition exponents (this : t) : list Z :=
  metre_ this :: second_ this :: kilogram_ this :: ampere_ this ::
  kelvin_ this :: mole_ this :: candela_ this :: nil.

(** The widths of the members, in the same order ([bits]). *)
Definition bits : list Z :=
  bitwidth.metre :: bitwidth.second :: bitwidth.kilogram :: bitwidth.ampere ::
  bitwidth.kelvin :: bitwidth.mole :: bitwidth.candela :: nil.

(** No product [exponent * n] leaves the bit-field of its exponent. *)
Definition pow_fits (A : t) (n : Z) : Prop :=
  in_bits bitwidth.metre (metre_ A * n) /\
  in_bits bitwidth.second (second_ A * n) /\
  in_bits bitwidth.kilogram (kilogram_ A * n) /\
  in_bits bitwidth.ampere (ampere_ A * n) /\
  in_bits bitwidth.kelvin (kelvin_ A * n) /\
  in_bits bitwidth.mole (mole_ A * n) /\
  in_bits bitwidth.candela (candela_ A * n).

(** Some exponent of [d] is the least value of its bit-field. *)
Definition least_exponent (d : t) : Prop :=
  Exists (fun we => snd we = - 2 ^ (fst we - 1)) (combine bits (exponents d)).

End unit_base.

(* ================================================================== *)
(** * units/prefix.hpp: [struct unit_prefix] *)

Module unit_prefix.

Record t : Set := mk {
  multiplier_ : scalar;
  symbol_ : ascii
}.

(** [unit_prefix()]: the default member initialisers, [1.0] and ['\0']. *)
Definition default : t := mk 1%float Ascii.zero.

(** [unit_prefix(const scalar& mult, const char& symbol)] *)
Definition make (mult : scalar) (symbol : ascii) : outcome t :=
  if (mult <=? 0)%float then Throw invalid_argument
  else Ok (mk mult symbol).

(** [operator*] *)
Definition op_mul (this other : t) : outcome t :=
  noexcept (make (multiplier_ this * multiplier_ other)%float (symbol_ this)).

(** [operator/] *)
Definition op_div (this other : t) : outcome t :=
  noexcept (make (multiplier_ this / multiplier_ other)%float (symbol_ this)).

(** [operator*=]: the result is the new state of [*this]; no constructor
    is called. *)
Definition op_mul_assign (this other : t) : t :=
  mk (multiplier_ this * multiplier_ other)%float (symbol_ this).

(** [operator/=] *)
Definition op_div_assign (this other : t) : t :=
  mk (multiplier_ this / multiplier_ other)%float (symbol_ this).

(** [operator==] *)
Definition op_eq (this other : t) : bool :=
  (multiplier_ this =? multiplier_ other)%float &&
  Ascii.eqb (symbol_ this) (symbol_ other).

(** [operator!=] *)
Definition op_ne (this other : t) : bool :=
  negb (multiplier_ this =? multiplier_ other)%float ||
  negb (Ascii.eqb (symbol_ this) (symbol_ other)).

(** [inv] *)
Definition inv (this : t) : outcome t :=
  noexcept (make (1 / multiplier_ this)%float (symbol_ this)).

Section cmath.

(** [std::pow(double, double)]; an [int] exponent is converted to [double]. *)
Variable std_pow : scalar -> scalar -> scalar.

(** [pow] *)
Definition pow (this : t) (power : Z) : outcome t :=
  noexcept (make (std_pow (multiplier_ this) (double_of_int power)) (symbol_ this)).

(** [square] *)
Definition square (this : t) : outcome t :=
  noexcept (make (std_pow (multiplier_ this) (double_of_int 2)) (symbol_ this)).

(** [cube] *)
Definition cube (this : t) : outcome t :=
  noexcept (make (std_pow (multiplier_ this) (double_of_int 3)) (symbol_ this)).

(** [root] *)
Definition root (this : t) (power : Z) : outcome t :=
  noexcept (make (std_pow (multiplier_ this) (double_of_int power)) (symbol_ this)).

(** [sqrt] *)
Definition sqrt (this : t) : outcome t :=
  noexcept (make (std_pow (multiplier_ this) (1 / 2)%float) (symbol_ this)).

(** [cbrt] *)
Definition cbrt (this : t) : outcome t :=
  noexcept (make (std_pow (multiplier_ this) (1 / 3)%float) (symbol_ this)).

End cmath.

End unit_prefix.

(* ================================================================== *)
(** * units/unit.hpp: [struct unit] *)

Module unit.

Record t : Set := mk {
  base_ : unit_base.t;
  prefix_ : unit_prefix.t
}.

(** [unit()] *)
Definition default : t := mk unit_base.default unit_prefix.default.

(** [unit(const unit_prefix& prefix, const unit_base& base)] *)
Definition make (prefix : unit_prefix.t) (base : unit_base.t) : t :=
  mk base prefix.

(** [operator*] *)
Definition op_mul (this other : t) : outcome t :=
  noexcept (p <- unit_prefix.op_mul (prefix_ this) (prefix_ other) ;;
            Ok (make p (unit_base.op_mul (base_ this) (base_ other)))).

(** [operator/] *)
Definition op_div (this other : t) : outcome t :=
  noexcept (p <- unit_prefix.op_div (prefix_ this) (prefix_ other) ;;
            Ok (make p (unit_base.op_div (base_ this) (base_ other)))).

(** [operator*=]: the result is the new state of [*this]. *)
Definition op_mul_assign (this other : t) : t :=
  let this := mk (unit_base.op_mul_assign (base_ this) (base_ other)) (prefix_ this) in
  mk (base_ this) (unit_prefix.op_mul_assign (prefix_ this) (prefix_ other)).

(** [operator/=] *)
Definition op_div_assign (this other : t) : t :=
  let this := mk (unit_base.op_div_assign (base_ this) (base_ other)) (prefix_ this) in
  mk (base_ this) (unit_prefix.op_div_assign (prefix_ this) (prefix_ other)).

(** [operator==] *)
Definition op_eq (this other : t) : bool :=
  if unit_base.op_ne (base_ this) (base_ other) then false
  else unit_prefix.op_eq (prefix_ this) (prefix_ other).

(** [operator!=] *)
Definition op_ne (this other : t) : bool :=
  if unit_base.op_eq (base_ this) (base_ other)
  then unit_prefix.op_eq (prefix_ this) (prefix_ other)
  else true.

(** [inv] *)
Definition inv (this : t) : outcome t :=
  noexcept (p <- unit_prefix.inv (prefix_ this) ;;
            Ok (make p (unit_base.inv (base_ this)))).

Section cmath.

Variable std_pow : scalar -> scalar -> scalar.

(** [pow] *)
Definition pow (this : t) (power : Z) : outcome t :=
  noexcept (p <- unit_prefix.pow std_pow (prefix_ this) power ;;
            b <- unit_base.pow (base_ this) power ;;
            Ok (make p b)).

(** [root] *)
Definition root (this : t) (power : Z) : outcome t :=
  p <- unit_prefix.root std_pow (prefix_ this) power ;;
  b <- unit_base.root (base_ this) power ;;
  Ok (make p b).

End cmath.

Section cmath_powers.

Variable std_pow : scalar -> scalar -> scalar.

(** [square] *)
Definition square (this : t) : outcome t :=
  noexcept (p <- unit_prefix.square std_pow (prefix_ this) ;;
            Ok (make p (unit_base.square (base_ this)))).

(** [cube] *)
Definition cube (this : t) : outcome t :=
  noexcept (p <- unit_prefix.cube std_pow (prefix_ this) ;;
            Ok (make p (unit_base.cube (base_ this)))).

(** [sqrt] *)
Definition sqrt (this : t) : outcome t :=
  p <- unit_prefix.sqrt std_pow (prefix_ this) ;;
  b <- unit_base.sqrt (base_ this) ;;
  Ok (make p b).

(** [cbrt] *)
Definition cbrt (this : t) : outcome t :=
  p <- unit_prefix.cbrt std_pow (prefix_ this) ;;
  b <- unit_base.cbrt (base_ this) ;;
  Ok (make p b).

End cmath_powers.

(** [convertion_factor]; the quiet and the signaling NaN are one value of
    [float]. *)
Definition convertion_factor (this other : t) : scalar :=
  if unit_base.op_eq (base_ this) (base_ other)
  then (unit_prefix.multiplier_ (prefix_ this) / unit_prefix.multiplier_ (prefix_ other))%float
  else nan.

(** [convert] *)
Definition convert (this : t) (value : scalar) (other : t) : scalar :=
  (value * convertion_factor this other)%float.

End unit.

(* ================================================================== *)
(** * units/types.hpp: the constants of [namespace SI] used below *)

Module SI.

Module basis.

Definition default_type : unit_base.t := unit_base.make 0 0 0 0 0 0 0.

Definition metre : unit_base.t := unit_base.make 1 0 0 0 0 0 0.

Definition second : unit_base.t := unit_base.make 0 1 0 0 0 0 0.

Definition kilogram : unit_base.t := unit_base.make 0 0 1 0 0 0 0.

End basis.

Module prefixes.

Definition default_type : unit_prefix.t := unit_prefix.mk 1%float Ascii.zero.

Definition milli : unit_prefix.t := unit_prefix.mk 1e-3%float "m"%char.

Definition kilo : unit_prefix.t := unit_prefix.mk 1e3%float "k"%char.

End prefixes.

Definition unitless : unit.t := unit.make prefixes.default_type basis.default_type.

Definition m : unit.t := unit.make prefixes.default_type basis.metre.

Definition s : unit.t := unit.make prefixes.default_type basis.second.

Definition kg : unit.t := unit.make prefixes.default_type basis.kilogram.

Definition mm : unit.t := unit.make prefixes.milli basis.metre.

Definition km : unit.t := unit.make prefixes.kilo basis.metre.

(** [constexpr radians rad]: [struct radians : public unit] whose
    constructor is [unit()]. *)
Definition rad : unit.t := unit.default.

End SI.

(* ================================================================== *)
(** * measurement.hpp: [class measurement] *)

Module measurement.

Record t : Set := mk {
  value_ : scalar;
  units_ : unit.t
}.

(** [value_as] *)
Definition value_as (this : t) (desired_units : unit.t) : scalar :=
  if unit.op_eq (units_ this) desired_units then value_ this
  else unit.convert (units_ this) (value_ this) desired_units.

(** [convert_to] *)
Definition convert_to (this : t) (desired_units : unit.t) : t :=
  mk (unit.convert (units_ this) (value_ this) desired_units) desired_units.

(** [operator+=]: the result is the new state of [*this]. *)
Definition op_add_assign (this other : t) : outcome t :=
  if unit_base.op_ne (unit.base_ (units_ this)) (unit.base_ (units_ other))
  then Throw invalid_argument
  else if unit.op_ne (units_ this) SI.unitless
  then Ok (mk (value_ this + value_as other (units_ this))%float (units_ this))
  else Ok (mk (value_ this + value_ other)%float (units_ other)).

(** [operator-=] *)
Definition op_sub_assign (this other : t) : outcome t :=
  if unit_base.op_ne (unit.base_ (units_ this)) (unit.base_ (units_ other))
  then Throw invalid_argument
  else if unit.op_ne (units_ this) SI.unitless
  then Ok (mk (value_ this - value_as other (units_ this))%float (units_ this))
  else Ok (mk (value_ this - value_ other)%float (units_ other)).

(** [operator/=(const scalar&)] *)
Definition op_div_assign_scalar (this : t) (scal : scalar) : outcome t :=
  if (scal =? 0)%float then Throw runtime_error
  else Ok (mk (value_ this / scal)%float (units_ this)).

(** [operator+] *)
Definition op_add (this other : t) : outcome t :=
  if unit_base.op_ne (unit.base_ (units_ this)) (unit.base_ (units_ other))
  then Throw invalid_argument
  else Ok (mk (value_ this + value_as other (units_ this))%float (units_ this)).

(** [operator-] *)
Definition op_sub (this other : t) : outcome t :=
  if unit_base.op_ne (unit.base_ (units_ this)) (unit.base_ (units_ other))
  then Throw invalid_argument
  else Ok (mk (value_ this - value_as other (units_ this))%float (units_ this)).

(** [operator*(const measurement&)] *)
Definition op_mul (this other : t) : outcome t :=
  noexcept (u <- unit.op_mul (units_ this) (units_ other) ;;
            Ok (mk (value_ this * value_ other)%float u)).

(** [operator/(const measurement&)] *)
Definition op_div (this other : t) : outcome t :=
  if (value_ other =? 0)%float then Throw runtime_error
  else u <- unit.op_div (units_ this) (units_ other) ;;
       Ok (mk (value_ this / value_ other)%float u).

(** [operator*(const scalar&)] *)
Definition op_mul_scalar (this : t) (scal : scalar) : t :=
  mk (value_ this * scal)%float (units_ this).

(** [operator/(const scalar&)] *)
Definition op_div_scalar (this : t) (scal : scalar) : outcome t :=
  if (value_ this =? 0)%float then Throw runtime_error
  else Ok (mk (value_ this / scal)%float (units_ this)).

(** [operator-()] *)
Definition op_neg (this : t) : t :=
  mk (- value_ this)%float (units_ this).

(** [operator==(const measurement&)] *)
Definition op_eq (this other : t) : bool :=
  (value_ this =? value_as other (units_ this))%float.

(** [operator!=(const measurement&)] *)
Definition op_ne (this other : t) : bool :=
  negb (value_ this =? value_as other (units_ this))%float.

(** [operator>(const measurement&)] *)
Definition op_gt (this other : t) : bool :=
  (value_as other (units_ this) <? value_ this)%float.

(** [operator<(const measurement&)] *)
Definition op_lt (this other : t) : bool :=
  (value_ this <? value_as other (units_ this))%float.

(** [operator>=(const measurement&)] *)
Definition op_ge (this other : t) : bool :=
  if (value_as other (units_ this) <? value_ this)%float then true
  else (value_ this =? value_as other (units_ this))%float.

(** [operator<=(const measurement&)] *)
Definition op_le (this other : t) : bool :=
  if (value_ this <? value_as other (units_ this))%float then true
  else (value_ this =? value_as other (units_ this))%float.

Section cmath.

Variables std_sin std_cos std_tan std_sinh std_cosh std_tanh : scalar -> scalar.

(** [sin] *)
Definition sin (meas : t) : outcome t :=
  if unit.op_ne (units_ meas) SI.rad then Throw runtime_error
  else Ok (mk (std_sin (value_ meas)) SI.unitless).

(** [cos] *)
Definition cos (meas : t) : outcome t :=
  if unit.op_ne (units_ meas) SI.rad then Throw runtime_error
  else Ok (mk (std_cos (value_ meas)) SI.unitless).

(** [tan] *)
Definition tan (meas : t) : outcome t :=
  if unit.op_ne (units_ meas) SI.rad then Throw runtime_error
  else Ok (mk (std_tan (value_ meas)) SI.unitless).

(** [sinh] *)
Definition sinh (meas : t) : outcome t :=
  if unit.op_ne (units_ meas) SI.rad then Throw runtime_error
  else Ok (mk (std_sinh (value_ meas)) SI.unitless).

(** [cosh] *)
Definition cosh (meas : t) : outcome t :=
  if unit.op_ne (units_ meas) SI.rad then Throw runtime_error
  else Ok (mk (std_cosh (value_ meas)) SI.unitless).

(** [tanh] *)
Definition tanh (meas : t) : outcome t :=
  if unit.op_ne (units_ meas) SI.rad then Throw runtime_error
  else Ok (mk (std_tanh (value_ meas)) SI.unitless).

End cmath.

(** [operator*(const scalar&, const measurement&)] *)
Definition scalar_mul (scal : scalar) (meas : t) : t :=
  mk (scal * value_ meas)%float (units_ meas).

(** [operator/(const scalar&, const measurement&)] *)
Definition scalar_div (scal : scalar) (meas : t) : outcome t :=
  if (value_ meas =? 0)%float then Throw runtime_error
  else u <- unit.inv (units_ meas) ;;
       Ok (mk (scal / value_ meas)%float u).

(** [inv] *)
Definition inv (this : t) : outcome t :=
  if (value_ this =? 0)%float then Throw runtime_error
  else u <- unit.inv (units_ this) ;;
       Ok (mk (1 / value_ this)%float u).

(** [abs] *)
Definition abs (meas : t) : t :=
  if (value_ meas <? 0)%float then op_neg meas else meas.

(** [sign]; the result is an [int32_t]. *)
Definition sign (this : t) : Z :=
  if (value_ this =? 0)%float then 0
  else if (0 <? value_ this)%float then 1 else -1.

(** [operator*=(const scalar&)] *)
Definition op_mul_assign_scalar (this : t) (scal : scalar) : t :=
  mk (value_ this * scal)%float (units_ this).

(** [operator*=(const measurement&)]: the result is the new state of
    [*this]. *)
Definition op_mul_assign (this other : t) : t :=
  let this := mk (value_ this * value_ other)%float (units_ this) in
  mk (value_ this) (unit.op_mul_assign (units_ this) (units_ other)).

(** [operator/=(const measurement&)] *)
Definition op_div_assign (this other : t) : outcome t :=
  if (value_ other =? 0)%float then Throw runtime_error
  else
    let this := mk (value_ this / value_ other)%float (units_ this) in
    Ok (mk (value_ this) (unit.op_div_assign (units_ this) (units_ other))).

Section cmath_powers.

Variable std_pow : scalar -> scalar -> scalar.
Variable std_cbrt : scalar -> scalar.

(** [pow] *)
Definition pow (meas : t) (power : Z) : outcome t :=
  noexcept (u <- unit.pow std_pow (units_ meas) power ;;
            Ok (mk (std_pow (value_ meas) (double_of_int power)) u)).

(** [root] *)
Definition root (meas : t) (power : Z) : outcome t :=
  u <- unit.root std_pow (units_ meas) power ;;
  Ok (mk (std_pow (value_ meas) (1 / double_of_int power)%float) u).

(** [square] *)
Definition square (meas : t) : outcome t :=
  noexcept (u <- unit.square std_pow (units_ meas) ;;
            Ok (mk (std_pow (value_ meas) (double_of_int 2)) u)).

(** [cube] *)
Definition cube (meas : t) : outcome t :=
  noexcept (u <- unit.cube std_pow (units_ meas) ;;
            Ok (mk (std_pow (value_ meas) (double_of_int 3)) u)).

(** [sqrt] *)
Definition sqrt (meas : t) : outcome t :=
  if (value_ meas <? 0)%float then Throw runtime_error
  else u <- unit.sqrt std_pow (units_ meas) ;;
       Ok (mk (PrimFloat.sqrt (value_ meas)) u).

(** [cbrt] *)
Definition cbrt (meas : t) : outcome t :=
  u <- unit.cbrt std_pow (units_ meas) ;;
  Ok (mk (std_cbrt (value_ meas)) u).

(** [exp10] *)
Definition exp10 (meas : t) : outcome t :=
  if unit.op_ne (units_ meas) SI.unitless then Throw runtime_error
  else Ok (mk (std_pow (double_of_int 10) (value_ meas)) SI.unitless).

End cmath_powers.

Section cmath_unitless.

Variables std_exp std_log std_log10 : scalar -> scalar.
Variables std_asin std_acos std_atan std_asinh std_acosh std_atanh : scalar -> scalar.

(** [exp] *)
Definition exp (meas : t) : outcome t :=
  if unit.op_ne (units_ meas) SI.unitless then Throw runtime_error
  else Ok (mk (std_exp (value_ meas)) SI.unitless).

(** [log] *)
Definition log (meas : t) : outcome t :=
  if unit.op_ne (units_ meas) SI.unitless then Throw runtime_error
  else Ok (mk (std_log (value_ meas)) SI.unitless).

(** [log10] *)
Definition log10 (meas : t) : outcome t :=
  if unit.op_ne (units_ meas) SI.unitless then Throw runtime_error
  else Ok (mk (std_log10 (value_ meas)) SI.unitless).

(** [asin] *)
Definition asin (meas : t) : outcome t :=
  if unit.op_ne (units_ meas) SI.unitless then Throw runtime_error
  else Ok (mk (std_asin (value_ meas)) SI.rad).

(** [acos] *)
Definition acos (meas : t) : outcome t :=
  if unit.op_ne (units_ meas) SI.unitless then Throw runtime_error
  else Ok (mk (std_acos (value_ meas)) SI.rad).

(** [atan] *)
Definition atan (meas : t) : outcome t :=
  if unit.op_ne (units_ meas) SI.unitless then Throw runtime_error
  else Ok (mk (std_atan (value_ meas)) SI.rad).

(** [asinh] *)
Definition asinh (meas : t) : outcome t :=
  if unit.op_ne (units_ meas) SI.unitless then Throw runtime_error
  else Ok (mk (std_asinh (value_ meas)) SI.rad).

(** [acosh] *)
Definition acosh (meas : t) : outcome t :=
  if unit.op_ne (units_ meas) SI.unitless then Throw runtime_error
  else Ok (mk (std_acosh (value_ meas)) SI.rad).

(** [atanh] *)
Definition atanh (meas : t) : outcome t :=
  if unit.op_ne (units_ meas) SI.unitless then Throw runtime_error
  else Ok (mk (std_atanh (value_ meas)) SI.rad).

End cmath_unitless.

End measurement.

(* ================================================================== *)
(** * umeasurement.hpp: [class umeasurement] *)

Module umeasurement.

Record t : Set := mk {
  value_ : scalar;
  uncertainty_ : scalar;
  units_ : unit.t
}.

(** [umeasurement(const scalar& value, const scalar& uncertainty,
    const unit& units)] *)
Definition make (value uncertainty : scalar) (units : unit.t) : outcome t :=
  if (uncertainty <? 0)%float then Throw invalid_argument
  else Ok (mk value uncertainty units).

Section cmath.

Variable std_pow : scalar -> scalar -> scalar.

(** [operator*(const umeasurement&)] *)
Definition op_mul (this other : t) : outcome t :=
  let tval1 := (uncertainty_ this / value_ this)%float in
  let tval2 := (uncertainty_ other / value_ other)%float in
  let nunc := PrimFloat.sqrt (std_pow tval1 (double_of_int 2) +
                              std_pow tval2 (double_of_int 2))%float in
  let nval := (value_ this * value_ other)%float in
  noexcept (u <- unit.op_mul (units_ this) (units_ other) ;;
            make nval (abs nval * nunc)%float u).

End cmath.

(** [simple_product] *)
Definition simple_product (this other : t) : outcome t :=
  let ntol := (uncertainty_ this / abs (value_ this) +
               uncertainty_ other / abs (value_ other))%float in
  let nval := (value_ this * value_ other)%float in
  noexcept (u <- unit.op_mul (units_ this) (units_ other) ;;
            make nval (abs nval * ntol)%float u).

(** [simple_add] *)
Definition simple_add (this other : t) : outcome t :=
  if unit_base.op_ne (unit.base_ (units_ this)) (unit.base_ (units_ other))
  then Throw invalid_argument
  else
    let cval := unit.convertion_factor (units_ other) (units_ this) in
    let ntol := (uncertainty_ this + uncertainty_ other * cval)%float in
    make (value_ this + cval * value_ other)%float ntol (units_ this).

(** [simple_subtract] *)
Definition simple_subtract (this other : t) : outcome t :=
  if unit_base.op_ne (unit.base_ (units_ this)) (unit.base_ (units_ other))
  then Throw invalid_argument
  else
    let cval := unit.convertion_factor (units_ other) (units_ this) in
    let ntol := (uncertainty_ this + uncertainty_ other * cval)%float in
    make (value_ this - cval * value_ other)%float ntol (units_ this).

(** [operator==(const measurement&)] *)
Definition op_eq_measurement (this : t) (other : measurement.t) : bool :=
  if (uncertainty_ this =? 0)%float
  then (value_ this =? measurement.value_as other (units_ this))%float
  else (value_ this - uncertainty_ this <=? measurement.value_as other (units_ this))%float &&
       (measurement.value_as other (units_ this) <=? value_ this + uncertainty_ this)%float.

(** [operator==(const umeasurement&)] *)
Definition op_eq (this other : t) : outcome bool :=
  noexcept (d <- simple_subtract this other ;;
            Ok (op_eq_measurement d (measurement.mk 0%float (units_ this)))).

(** [umeasurement(const measurement& other, const scalar& uncertainty = 0.0)] *)
Definition of_measurement (other : measurement.t) (uncertainty : scalar) : outcome t :=
  if (uncertainty <? 0)%float then Throw invalid_argument
  else Ok (mk (measurement.value_ other) uncertainty (measurement.units_ other)).

(** [umeasurement(const measurement& value, const measurement& uncertainty)] *)
Definition of_measurements (value uncertainty : measurement.t) : outcome t :=
  if unit_base.op_ne (unit.base_ (measurement.units_ value))
                     (unit.base_ (measurement.units_ uncertainty))
  then Throw invalid_argument
  else if (measurement.value_ uncertainty <? 0)%float then Throw invalid_argument
  else Ok (mk (measurement.value_ value)
              (measurement.value_as uncertainty (measurement.units_ value))
              (measurement.units_ value)).

(** [value_as] *)
Definition value_as (this : t) (desired_units : unit.t) : scalar :=
  if unit.op_eq (units_ this) desired_units then value_ this
  else unit.convert (units_ this) (value_ this) desired_units.

(** [uncertainty_as] *)
Definition uncertainty_as (this : t) (desired_units : unit.t) : scalar :=
  if unit.op_eq (units_ this) desired_units then uncertainty_ this
  else unit.convert (units_ this) (uncertainty_ this) desired_units.

(** [as_measurement] *)
Definition as_measurement (this : t) : measurement.t :=
  measurement.mk (value_ this) (units_ this).

(** [uncertainty_as_measurement] *)
Definition uncertainty_as_measurement (this : t) : measurement.t :=
  measurement.mk (uncertainty_ this) (units_ this).

(** [relative_uncertainty] *)
Definition relative_uncertainty (this : t) : scalar :=
  (uncertainty_ this / value_ this)%float.

(** [convert_to] *)
Definition convert_to (this : t) (newUnits : unit.t) : outcome t :=
  let cval := unit.convertion_factor (units_ this) newUnits in
  noexcept (make (cval * value_ this)%float (uncertainty_ this * cval)%float newUnits).

(** [operator*(const measurement&)] *)
Definition op_mul_measurement (this : t) (other : measurement.t) : outcome t :=
  noexcept (u <- unit.op_mul (units_ this) (measurement.units_ other) ;;
            make (value_ this * measurement.value_ other)%float
                 (abs (measurement.value_ other) * uncertainty_ this)%float u).

(** [operator*(const scalar&)] *)
Definition op_mul_scalar (this : t) (val : scalar) : outcome t :=
  noexcept (make (val * value_ this)%float (abs val * uncertainty_ this)%float (units_ this)).

(** [simple_divide] *)
Definition simple_divide (this other : t) : outcome t :=
  if (value_ other =? 0)%float then Throw invalid_argument
  else
    let ntol := (uncertainty_ this / abs (value_ this) +
                 uncertainty_ other / abs (value_ other))%float in
    let nval := (value_ this / value_ other)%float in
    u <- unit.op_div (units_ this) (units_ other) ;;
    make nval (abs nval * ntol)%float u.

(** [operator/(const measurement&)] *)
Definition op_div_measurement (this : t) (other : measurement.t) : outcome t :=
  if (measurement.value_ other =? 0)%float then Throw invalid_argument
  else
    u <- unit.op_div (units_ this) (measurement.units_ other) ;;
    make (value_ this / measurement.value_ other)%float
         (uncertainty_ this / abs (measurement.value_ other))%float u.

(** [operator/(const scalar&)] *)
Definition op_div_scalar (this : t) (val : scalar) : outcome t :=
  if (val =? 0)%float then Throw invalid_argument
  else make (value_ this / val)%float (uncertainty_ this / abs val)%float (units_ this).

(** [operator+(const measurement&)] *)
Definition op_add_measurement (this : t) (other : measurement.t) : outcome t :=
  if unit_base.op_ne (unit.base_ (units_ this)) (unit.base_ (measurement.units_ other))
  then Throw invalid_argument
  else make (value_ this + measurement.value_as other (units_ this))%float
            (uncertainty_ this) (units_ this).

(** [operator-(const measurement&)] *)
Definition op_sub_measurement (this : t) (other : measurement.t) : outcome t :=
  if unit_base.op_ne (unit.base_ (units_ this)) (unit.base_ (measurement.units_ other))
  then Throw invalid_argument
  else make (value_ this - measurement.value_as other (units_ this))%float
            (uncertainty_ this) (units_ this).

(** [operator-()] *)
Definition op_neg (this : t) : outcome t :=
  noexcept (make (- value_ this)%float (uncertainty_ this) (units_ this)).

(** [operator!=(const measurement&)] *)
Definition op_ne_measurement (this : t) (other : measurement.t) : bool :=
  negb (op_eq_measurement this other).

(** [operator!=(const umeasurement&)] *)
Definition op_ne (this other : t) : outcome bool :=
  noexcept (b <- op_eq this other ;; Ok (negb b)).

(** [operator>(const umeasurement&)] *)
Definition op_gt (this other : t) : bool :=
  (value_as other (units_ this) <? value_ this)%float.

(** [operator<(const umeasurement&)] *)
Definition op_lt (this other : t) : bool :=
  (value_ this <? value_as other (units_ this))%float.

(** [operator>=(const umeasurement&)] *)
Definition op_ge (this other : t) : outcome bool :=
  noexcept (d <- simple_subtract this other ;; Ok (0 <=? value_ d)%float).

(** [operator<=(const umeasurement&)] *)
Definition op_le (this other : t) : outcome bool :=
  noexcept (d <- simple_subtract this other ;; Ok (value_ d <=? 0)%float).

(** [operator>(const measurement&)] *)
Definition op_gt_measurement (this : t) (other : measurement.t) : bool :=
  (measurement.value_as other (units_ this) <? value_ this)%float.

(** [operator<(const measurement&)] *)
Definition op_lt_measurement (this : t) (other : measurement.t) : bool :=
  (value_ this <? measurement.value_as other (units_ this))%float.

(** [operator>=(const measurement&)] *)
Definition op_ge_measurement (this : t) (other : measurement.t) : bool :=
  (measurement.value_as other (units_ this) <=? value_ this)%float.

(** [operator<=(const measurement&)] *)
Definition op_le_measurement (this : t) (other : measurement.t) : bool :=
  (value_ this <=? measurement.value_as other (units_ this))%float.

(** [operator/(const measurement&, const umeasurement&)] *)
Definition measurement_div (meas : measurement.t) (umeas : t) : outcome t :=
  if (value_ umeas =? 0)%float then Throw runtime_error
  else
    let ntol := (uncertainty_ umeas / value_ umeas)%float in
    let nval := (measurement.value_ meas / value_ umeas)%float in
    u <- unit.op_div (measurement.units_ meas) (units_ umeas) ;;
    make nval (abs (nval * ntol))%float u.

(** [operator/(const scalar&, const umeasurement&)] *)
Definition scalar_div (v1 : scalar) (umeas : t) : outcome t :=
  if (value_ umeas =? 0)%float then Throw runtime_error
  else
    let ntol := (uncertainty_ umeas / value_ umeas)%float in
    let nval := (v1 / value_ umeas)%float in
    u <- unit.inv (units_ umeas) ;;
    make nval (abs (nval * ntol))%float u.

(** [operator+(const measurement&, const umeasurement&)] *)
Definition measurement_add (meas : measurement.t) (umeas : t) : outcome t :=
  if unit_base.op_ne (unit.base_ (measurement.units_ meas)) (unit.base_ (units_ umeas))
  then Throw invalid_argument
  else
    let cval := unit.convertion_factor (units_ umeas) (measurement.units_ meas) in
    let ntol := (uncertainty_ umeas * cval)%float in
    make (measurement.value_ meas + cval * value_ umeas)%float ntol (measurement.units_ meas).

(** [operator-(const measurement&, const umeasurement&)] *)
Definition measurement_sub (meas : measurement.t) (umeas : t) : outcome t :=
  if unit_base.op_ne (unit.base_ (measurement.units_ meas)) (unit.base_ (units_ umeas))
  then Throw invalid_argument
  else
    let cval := unit.convertion_factor (units_ umeas) (measurement.units_ meas) in
    let ntol := (uncertainty_ umeas * cval)%float in
    make (measurement.value_ meas - cval * value_ umeas)%float ntol (measurement.units_ meas).

Section cmath_rss.

Variable std_pow : scalar -> scalar -> scalar.

(** [operator/(const umeasurement&)] *)
Definition op_div (this other : t) : outcome t :=
  if (value_ other =? 0)%float then Throw invalid_argument
  else
    let tval1 := (uncertainty_ this / value_ this)%float in
    let tval2 := (uncertainty_ other / value_ other)%float in
    let ntol := PrimFloat.sqrt (std_pow tval1 (double_of_int 2) +
                                std_pow tval2 (double_of_int 2))%float in
    let nval := (value_ this / value_ other)%float in
    u <- unit.op_div (units_ this) (units_ other) ;;
    make nval (abs nval * ntol)%float u.

(** [operator+(const umeasurement&)] *)
Definition op_add (this other : t) : outcome t :=
  if unit_base.op_ne (unit.base_ (units_ this)) (unit.base_ (units_ other))
  then Throw invalid_argument
  else
    let cval := unit.convertion_factor (units_ other) (units_ this) in
    let ntol := PrimFloat.sqrt (std_pow (uncertainty_ this) (double_of_int 2) +
                                std_pow (cval * uncertainty_ other) (double_of_int 2))%float in
    make (value_ this + cval * value_ other)%float ntol (units_ this).

(** [operator-(const umeasurement&)] *)
Definition op_sub (this other : t) : outcome t :=
  if unit_base.op_ne (unit.base_ (units_ this)) (unit.base_ (units_ other))
  then Throw invalid_argument
  else
    let cval := unit.convertion_factor (units_ other) (units_ this) in
    let ntol := PrimFloat.sqrt (std_pow (uncertainty_ this) (double_of_int 2) +
                                std_pow (cval * uncertainty_ other) (double_of_int 2))%float in
    make (value_ this - cval * value_ other)%float ntol (units_ this).

(** [inv] *)
Definition inv (this : t) : outcome t :=
  if (value_ this =? 0)%float then Throw runtime_error
  else
    u <- unit.inv (units_ this) ;;
    make (1 / value_ this)%float
         (uncertainty_ this / std_pow (value_ this) (double_of_int 2))%float u.

(** [add_uncertainty]: the result is the new state of [*this]. *)
Definition add_uncertainty (this : t) (new_uncertainty : scalar) : t :=
  mk (value_ this)
     (PrimFloat.sqrt (std_pow (uncertainty_ this) (double_of_int 2) +
                      std_pow new_uncertainty (double_of_int 2))%float)
     (units_ this).

(** [weight] *)
Definition weight (this : t) : outcome measurement.t :=
  i <- measurement.inv (uncertainty_as_measurement this) ;;
  measurement.square std_pow i.

End cmath_rss.

Section cmath_trig.

Variable std_pow : scalar -> scalar -> scalar.
Variables std_sin std_cos std_tan std_asin std_acos std_atan : scalar -> scalar.
Variables std_sinh std_cosh std_tanh std_asinh std_acosh std_atanh : scalar -> scalar.

(** [sin] *)
Definition sin (umeas : t) : outcome t :=
  if unit.op_ne (units_ umeas) SI.rad then Throw runtime_error
  else make (std_sin (value_ umeas))
            (abs (std_cos (value_ umeas)) * uncertainty_ umeas)%float SI.unitless.

(** [cos] *)
Definition cos (umeas : t) : outcome t :=
  if unit.op_ne (units_ umeas) SI.rad then Throw runtime_error
  else make (std_cos (value_ umeas))
            (abs (- std_sin (value_ umeas)) * uncertainty_ umeas)%float SI.unitless.

(** [tan] *)
Definition tan (meas : t) : outcome t :=
  if unit.op_ne (units_ meas) SI.rad then Throw runtime_error
  else make (std_tan (value_ meas))
            ((1 + std_pow (value_ meas) (double_of_int 2)) * uncertainty_ meas)%float
            SI.unitless.

(** [asin] *)
Definition asin (umeas : t) : outcome t :=
  if unit.op_ne (units_ umeas) SI.unitless then Throw runtime_error
  else make (std_asin (value_ umeas))
            (uncertainty_ umeas /
             PrimFloat.sqrt (1 - std_pow (value_ umeas) (double_of_int 2)))%float SI.rad.

(** [acos] *)
Definition acos (umeas : t) : outcome t :=
  if unit.op_ne (units_ umeas) SI.unitless then Throw runtime_error
  else make (std_acos (value_ umeas))
            (uncertainty_ umeas /
             PrimFloat.sqrt (1 - std_pow (value_ umeas) (double_of_int 2)))%float SI.rad.

(** [atan] *)
Definition atan (umeas : t) : outcome t :=
  if unit.op_ne (units_ umeas) SI.unitless then Throw runtime_error
  else make (std_atan (value_ umeas))
            (uncertainty_ umeas / (1 + std_pow (value_ umeas) (double_of_int 2)))%float SI.rad.

(** [sinh] *)
Definition sinh (umeas : t) : outcome t :=
  if unit.op_ne (units_ umeas) SI.rad then Throw runtime_error
  else make (std_sinh (value_ umeas))
            (std_cosh (value_ umeas) * uncertainty_ umeas)%float SI.unitless.

(** [cosh] *)
Definition cosh (umeas : t) : outcome t :=
  if unit.op_ne (units_ umeas) SI.rad then Throw runtime_error
  else make (std_cosh (value_ umeas))
            (abs (std_sinh (value_ umeas)) * uncertainty_ umeas)%float SI.unitless.

(** [tanh] *)
Definition tanh (umeas : t) : outcome t :=
  if unit.op_ne (units_ umeas) SI.rad then Throw runtime_error
  else make (std_tanh (value_ umeas))
            (abs (1 - std_pow (value_ umeas) (double_of_int 2)) * uncertainty_ umeas)%float
            SI.unitless.

(** [asinh] *)
Definition asinh (umeas : t) : outcome t :=
  if unit.op_ne (units_ umeas) SI.unitless then Throw runtime_error
  else make (std_asinh (value_ umeas))
            (uncertainty_ umeas /
             PrimFloat.sqrt (std_pow (value_ umeas) (double_of_int 2) + 1))%float SI.rad.

(** [acosh] *)
Definition acosh (umeas : t) : outcome t :=
  if unit.op_ne (units_ umeas) SI.unitless then Throw runtime_error
  else make (std_acosh (value_ umeas))
            (uncertainty_ umeas /
             abs (PrimFloat.sqrt (std_pow (value_ umeas) (double_of_int 2) - 1)))%float SI.rad.

(** [atanh] *)
Definition atanh (umeas : t) : outcome t :=
  if unit.op_ne (units_ umeas) SI.unitless then Throw runtime_error
  else make (std_atanh (value_ umeas))
            (uncertainty_ umeas /
             abs (PrimFloat.sqrt (1 - std_pow (value_ umeas) (double_of_int 2))))%float SI.rad.

End cmath_trig.

(** [abs] *)
Definition abs (umeas : t) : outcome t :=
  noexcept (if (value_ umeas <? 0)%float then op_neg umeas else Ok umeas).

End umeasurement.

(* ================================================================== *)
(** * measurement_types.hpp: measurements of one dimension *)

(** Each struct derives from [measurement] and adds no member: an object is
    a [measurement.t].  A constructor with no member initializer builds the
    base-class subobject with [measurement()] and then assigns to it; the
    assignments are written as they are in the source.  Building the message
    of an exception with [to_string] is taken not to fail. *)

Module length_measurement.

(** [length_measurement()] *)
Definition default : measurement.t := measurement.mk 0%float SI.m.

(** [length_measurement(const scalar&, const unit& = m)] *)
Definition make (value : scalar) (length_units : unit.t) : outcome measurement.t :=
  let this := measurement.mk 0%float unit.default in
  if unit_base.op_ne (unit.base_ length_units) SI.basis.metre
  then Throw invalid_argument
  else
    let this := measurement.mk value (measurement.units_ this) in
    let this := measurement.mk (measurement.value_ this) length_units in
    Ok this.

(** [length_measurement(const measurement&)] *)
Definition of_measurement (other : measurement.t) : outcome measurement.t :=
  let this := measurement.mk 0%float unit.default in
  if unit_base.op_ne (unit.base_ (measurement.units_ other)) SI.basis.metre
  then Throw invalid_argument
  else
    let this := measurement.mk (measurement.value_ other) (measurement.units_ this) in
    let this := measurement.mk (measurement.value_ this) (measurement.units_ other) in
    Ok this.

End length_measurement.

Module time_measurement.

(** [time_measurement()] *)
Definition default : measurement.t := measurement.mk 0%float SI.s.

(** [time_measurement(const scalar&, const unit& = s)] *)
Definition make (value : scalar) (length_units : unit.t) : outcome measurement.t :=
  let this := measurement.mk 0%float unit.default in
  if (value <? 0)%float then Throw invalid_argument
  else if unit_base.op_ne (unit.base_ length_units) SI.basis.second
  then Throw invalid_argument
  else
    let this := measurement.mk value (measurement.units_ this) in
    let this := measurement.mk (measurement.value_ this) length_units in
    Ok this.

(** [time_measurement(const measurement&)] *)
Definition of_measurement (other : measurement.t) : outcome measurement.t :=
  let this := measurement.mk 0%float unit.default in
  if (measurement.value_ other <? 0)%float then Throw invalid_argument
  else if unit_base.op_ne (unit.base_ (measurement.units_ other)) SI.basis.second
  then Throw invalid_argument
  else
    let this := measurement.mk (measurement.value_ other) (measurement.units_ this) in
    let this := measurement.mk (measurement.value_ this) (measurement.units_ other) in
    Ok this.

End time_measurement.

Module speed_measurement.

(** [basis::metre / basis::second] *)
Definition base : unit_base.t := unit_base.op_div SI.basis.metre SI.basis.second.

(** [speed_measurement(const scalar&, const unit& = m_s)] *)
Definition make (value : scalar) (length_units : unit.t) : outcome measurement.t :=
  let this := measurement.mk 0%float unit.default in
  if unit_base.op_ne (unit.base_ length_units) base
  then Throw invalid_argument
  else
    let this := measurement.mk value (measurement.units_ this) in
    let this := measurement.mk (measurement.value_ this) length_units in
    Ok this.

(** [speed_measurement(const measurement&)] *)
Definition of_measurement (other : measurement.t) : outcome measurement.t :=
  let this := measurement.mk 0%float unit.default in
  if unit_base.op_ne (unit.base_ (measurement.units_ other)) base
  then Throw invalid_argument
  else
    let this := measurement.mk (measurement.value_ other) (measurement.units_ this) in
    let this := measurement.mk (measurement.value_ this) (measurement.units_ other) in
    Ok this.

End speed_measurement.

Module acceleration_measurement.

(** [basis::metre / basis::second.square()] *)
Definition base : unit_base.t :=
  unit_base.op_div SI.basis.metre (unit_base.square SI.basis.second).

(** [acceleration_measurement(const scalar&, const unit& = m_ss)] *)
Definition make (value : scalar) (length_units : unit.t) : outcome measurement.t :=
  let this := measurement.mk 0%float unit.default in
  if unit_base.op_ne (unit.base_ length_units) base
  then Throw invalid_argument
  else
    let this := measurement.mk value (measurement.units_ this) in
    let this := measurement.mk (measurement.value_ this) length_units in
    Ok this.

(** [acceleration_measurement(const measurement&)] *)
Definition of_measurement (other : measurement.t) : outcome measurement.t :=
  let this := measurement.mk 0%float unit.default in
  if unit_base.op_ne (unit.base_ (measurement.units_ other)) base
  then Throw invalid_argument
  else
    let this := measurement.mk (measurement.value_ other) (measurement.units_ this) in
    let this := measurement.mk (measurement.value_ this) (measurement.units_ other) in
    Ok this.

End acceleration_measurement.

Module mass_measurement.

(** [mass_measurement()] *)
Definition default : measurement.t := measurement.mk 0%float SI.kg.

(** [mass_measurement(const scalar&, const unit& = kg)]: the first
    assignment is [this->value_ = value_]. *)
Definition make (value : scalar) (length_units : unit.t) : outcome measurement.t :=
  let this := measurement.mk 0%float unit.default in
  if (value <? 0)%float then Throw invalid_argument
  else if unit_base.op_ne (unit.base_ length_units) SI.basis.kilogram
  then Throw invalid_argument
  else
    let this := measurement.mk (measurement.value_ this) (measurement.units_ this) in
    let this := measurement.mk (measurement.value_ this) length_units in
    Ok this.

(** [mass_measurement(const measurement&)] *)
Definition of_measurement (other : measurement.t) : outcome measurement.t :=
  let this := measurement.mk 0%float unit.default in
  if (measurement.value_ other <? 0)%float then Throw invalid_argument
  else if unit_base.op_ne (unit.base_ (measurement.units_ other)) SI.basis.kilogram
  then Throw invalid_argument
  else
    let this := measurement.mk (measurement.value_ other) (measurement.units_ this) in
    let this := measurement.mk (measurement.value_ this) (measurement.units_ other) in
    Ok this.

End mass_measurement.

Module force_measurement.

(** [basis::kilogram * basis::metre / basis::second.square()] *)
Definition base : unit_base.t :=
  unit_base.op_div (unit_base.op_mul SI.basis.kilogram SI.basis.metre)
                   (unit_base.square SI.basis.second).

(** [force_measurement(const scalar&, const unit& = N)] *)
Definition make (value : scalar) (force_units : unit.t) : outcome measurement.t :=
  let this := measurement.mk 0%float unit.default in
  if unit_base.op_ne (unit.base_ force_units) base
  then Throw invalid_argument
  else
    let this := measurement.mk value (measurement.units_ this) in
    let this := measurement.mk (measurement.value_ this) force_units in
    Ok this.

(** [force_measurement(const measurement&)] *)
Definition of_measurement (other : measurement.t) : outcome measurement.t :=
  let this := measurement.mk 0%float unit.default in
  if unit_base.op_ne (unit.base_ (measurement.units_ other)) base
  then Throw invalid_argument
  else
    let this := measurement.mk (measurement.value_ other) (measurement.units_ this) in
    let this := measurement.mk (measurement.value_ this) (measurement.units_ other) in
    Ok this.

End force_measurement.

Module angle_measurement.

(** [M_PI] of <cmath> *)
Definition M_PI : scalar := 3.14159265358979323846%float.

(** [degrees()] and [radians()]: the constructors of both structs of
    types.hpp are [unit()]. *)
Definition degrees : unit.t := unit.default.

Definition radians : unit.t := unit.default.

(** [angle_measurement()] *)
Definition default : measurement.t := measurement.mk 0%float SI.rad.

(** [angle_measurement(const scalar&, const unit& = rad)] *)
Definition make (value : scalar) (angle_units : unit.t) : outcome measurement.t :=
  let this := measurement.mk 0%float unit.default in
  if unit.op_ne angle_units SI.unitless
  then Throw invalid_argument
  else
    let this := measurement.mk value (measurement.units_ this) in
    let this := measurement.mk (measurement.value_ this) angle_units in
    Ok this.

(** [angle_measurement(const measurement&)] and
    [angle_measurement(measurement&&)] *)
Definition of_measurement (other : measurement.t) : outcome measurement.t :=
  let this := measurement.mk 0%float unit.default in
  if unit.op_ne (measurement.units_ other) SI.unitless
  then Throw invalid_argument
  else
    let this := measurement.mk (measurement.value_ other) (measurement.units_ this) in
    let this := measurement.mk (measurement.value_ this) (measurement.units_ other) in
    Ok this.

(** [convert_to]: the [measurement] of a [return] is converted to the
    return type by [angle_measurement(measurement&&)]. *)
Definition convert_to (this : measurement.t) (desired_units : unit.t)
  : outcome measurement.t :=
  if unit.op_eq desired_units degrees
  then of_measurement
         (measurement.mk (measurement.value_ this * 180 / M_PI)%float desired_units)
  else if unit.op_eq desired_units radians
  then of_measurement
         (measurement.mk (measurement.value_ this * M_PI / 180)%float desired_units)
  else Throw invalid_argument.

End angle_measurement.

(* ================================================================== *)
(** * base.hpp: a dimension read from a string *)

Module unit_base_string.

Import String.

(** [std::string::find], of a string or (as a string of length one) of a
    character, from position 0: the index of the first occurrence, [None]
    for [npos]. *)
Fixpoint find (pattern unit_string : string) : option nat :=
  if prefix pattern unit_string then Some 0%nat
  else match unit_string with
       | EmptyString => None
       | String _ rest => option_map S (find pattern rest)
       end.

(** [std::string::at]: [None] where it throws [std::out_of_range]. *)
Definition at_ (unit_string : string) (pos : nat) : option ascii :=
  get pos unit_string.

(** [std::string::substr(pos)]: [None] where it throws
    [std::out_of_range], that is for [pos > size()]. *)
Fixpoint substr (unit_string : string) (pos : nat) : option string :=
  match pos with
  | O => Some unit_string
  | S pos' =>
      match unit_string with
      | EmptyString => None
      | String _ rest => substr rest pos'
      end
  end.

Section stoi.

(** [std::stoi] on a string; [None] where it throws
    ([std::invalid_argument] or [std::out_of_range]). *)
Variable std_stoi : string -> option Z.

(** [std::stoi(unit_string.substr(pos))] inside the constructor, which is
    [noexcept]: an exception ends the program. *)
Definition stoi_from (unit_string : string) (pos : nat) : outcome Z :=
  match substr unit_string pos with
  | None => Terminate
  | Some tail =>
      match std_stoi tail with
      | None => Terminate
      | Some n => Ok n
      end
  end.

(** The block that follows [finder = unit_string.find(...)], the same for
    the seven members: [member] is the member so far and [w] its width; the
    result is the member afterwards.  [-=] subtracts as [int]. *)
Definition read (unit_string : string) (finder : option nat) (w member : Z) : outcome Z :=
  match finder with
  | None => Ok member
  | Some finder =>
      if (finder =? length unit_string - 1)%nat then Ok (store_bits w 1)
      else
        match at_ unit_string (finder + 1) with
        | None => Terminate
        | Some c1 =>
            if negb (Ascii.eqb c1 "^") then Ok (store_bits w 1)
            else
              match at_ unit_string (finder + 2) with
              | None => Terminate
              | Some c2 =>
                  if Ascii.eqb c2 "-"
                  then n <- stoi_from unit_string (finder + 3) ;;
                       if in_int (member - n) then Ok (store_bits w (member - n))
                       else Undefined
                  else n <- stoi_from unit_string (finder + 2) ;;
                       Ok (store_bits w n)
              end
        end
  end.

(** [unit_base(const std::string& unit_string)] *)
Definition of_string (unit_string : string) : outcome unit_base.t :=
  if (length unit_string =? 0)%nat then Ok (unit_base.mk 0 0 0 0 0 0 0)
  else
    metre <- read unit_string (find "m" unit_string) bitwidth.metre 0 ;;
    second <- read unit_string (find "s" unit_string) bitwidth.second 0 ;;
    kilogram <- read unit_string (find "kg" unit_string) bitwidth.kilogram 0 ;;
    ampere <- read unit_string (find "A" unit_string) bitwidth.ampere 0 ;;
    kelvin <- read unit_string (find "K" unit_string) bitwidth.kelvin 0 ;;
    mole <- read unit_string (find "mol" unit_string) bitwidth.mole 0 ;;
    candela <- read unit_string (find "cd" unit_string) bitwidth.candela 0 ;;
    Ok (unit_base.mk metre second kilogram ampere kelvin mole candela).

End stoi.

End unit_base_string.

(* ================================================================== *)
(** * Predicates of the statements *)

(** A returned umeasurement passed the test of the constructors: its
    uncertainty is not negative. *)
Definition returns_checked (c : outcome umeasurement.t) : Prop :=
  forall r, c = Ok r -> (umeasurement.uncertainty_ r <? 0)%float = false.

(** Classes of binary64 values, on the specification of the primitive
    floats. *)
Definition inf_or_nan (x : spec_float) : Prop :=
  match x with S754_infinity _ | S754_nan => True | _ => False end.

Definition zero_or_nan (x : spec_float) : Prop :=
  match x with S754_zero _ | S754_nan => True | _ => False end.

(** Not below zero: a zero of either sign, NaN, or a number or an infinity
    whose sign bit is clear. *)
Definition sign_clear (x : spec_float) : Prop :=
  match x with
  | S754_infinity s | S754_finite s _ _ => s = false
  | _ => True
  end.

(** The sign bit is clear, also on a zero: a magnitude, or a positive
    number.  (A quotient by [-0.0] has the sign of [-0.0].) *)
Definition no_sign (x : spec_float) : Prop :=
  match x with
  | S754_zero s | S754_infinity s | S754_finite s _ _ => s = false
  | S754_nan => True
  end.

(* ================================================================== *)
(** * Tactics *)

(** A width of [bitwidth] is positive; a range hypothesis is at hand. *)
Ltac width_pos := first [assumption | reflexivity].

(** Ranges of concrete exponents. *)
Ltac solve_ranges :=
  cbv; repeat split; solve [reflexivity | discriminate | intros ?; discriminate].

(** Divisibility of the exponents of a concrete dimension. *)
Ltac solve_divides :=
  unfold unit_base.exponents; simpl;
  repeat (apply Forall_cons; [apply Z.rem_divide; [discriminate | reflexivity] |]);
  apply Forall_nil.

(* ================================================================== *)
(** * Signed bit-fields *)

Section BitFields.

Variable w : Z.
Hypothesis w_pos : 0 < w.

Lemma half_pos : 0 < 2 ^ (w - 1).
Proof. apply Z.pow_pos_nonneg; lia. Qed.

Lemma modulus_double : 2 ^ w = 2 * 2 ^ (w - 1).
Proof. rewrite <- Z.pow_succ_r by lia. f_equal. lia. Qed.

Lemma store_bits_in_bits (z : Z) : in_bits w (store_bits w z).
Proof.
  pose proof half_pos. pose proof modulus_double.
  unfold in_bits, store_bits.
  assert (0 <= (z + 2 ^ (w - 1)) mod 2 ^ w < 2 ^ w) by (apply Z.mod_pos_bound; lia).
  lia.
Qed.

Lemma store_bits_small (z : Z) : in_bits w z -> store_bits w z = z.
Proof.
  pose proof modulus_double.
  unfold in_bits, store_bits. intros Hz.
  rewrite Z.mod_small by lia. lia.
Qed.

Lemma store_bits_periodic (z k : Z) : store_bits w (z + k * 2 ^ w) = store_bits w z.
Proof.
  unfold store_bits.
  replace (z + k * 2 ^ w + 2 ^ (w - 1)) with (z + 2 ^ (w - 1) + k * 2 ^ w) by lia.
  rewrite Z_mod_plus_full. reflexivity.
Qed.

Lemma store_bits_decompose (z : Z) : exists k, store_bits w z = z + k * 2 ^ w.
Proof.
  exists (- ((z + 2 ^ (w - 1)) / 2 ^ w)). unfold store_bits.
  pose proof half_pos. pose proof modulus_double.
  pose proof (Z.div_mod (z + 2 ^ (w - 1)) (2 ^ w)) as E.
  lia.
Qed.

(** A sum stored, then the same amount subtracted and stored again. *)
Lemma store_add_sub (a b : Z) :
  in_bits w a -> store_bits w (store_bits w (a + b) - b) = a.
Proof.
  intros Ha. destruct (store_bits_decompose (a + b)) as [k ->].
  replace (a + b + k * 2 ^ w - b) with (a + k * 2 ^ w) by lia.
  rewrite store_bits_periodic. apply store_bits_small, Ha.
Qed.

(** A negation stored, negated and stored again. *)
Lemma store_opp_opp (a : Z) :
  in_bits w a -> store_bits w (- store_bits w (- a)) = a.
Proof.
  intros Ha. destruct (store_bits_decompose (- a)) as [k ->].
  replace (- (- a + k * 2 ^ w)) with (a + (- k) * 2 ^ w) by lia.
  rewrite store_bits_periodic. apply store_bits_small, Ha.
Qed.

(** An exact quotient fits the field of its dividend, unless the dividend
    is the least value of the field and the divisor is [-1]. *)
Lemma quot_in_bits (a n : Z) :
  in_bits w a -> (n | a) -> n <> 0 -> n <> -1 \/ a <> - 2 ^ (w - 1) ->
  in_bits w (Z.quot a n).
Proof.
  pose proof half_pos.
  unfold in_bits. intros Ha [q Hq] Hn Hcorner. subst a.
  rewrite Z.quot_mul by assumption.
  nia.
Qed.

(** Such a quotient is stored as it is, and it is exact. *)
Lemma store_quot_exact (a n : Z) :
  in_bits w a -> (n | a) -> n <> 0 -> n <> -1 \/ a <> - 2 ^ (w - 1) ->
  a = n * store_bits w (Z.quot a n).
Proof.
  intros Ha Hd Hn Hcorner.
  rewrite store_bits_small by (apply quot_in_bits; assumption).
  apply Z.quot_exact; [assumption|]. apply Z.rem_divide; assumption.
Qed.

End BitFields.

(* ================================================================== *)
(** * The algebra of [unit_base] *)

Module unit_base_facts.

Import unit_base.

Lemma widths_pos : Forall (fun w => 0 < w) bits.
Proof. repeat constructor. Qed.

Lemma make_wf (m s kg a k mol cd : Z) : wf (make m s kg a k mol cd).
Proof.
  unfold wf, make; simpl. repeat split; apply store_bits_in_bits; width_pos.
Qed.

Lemma make_id (d : t) :
  wf d ->
  make (metre_ d) (second_ d) (kilogram_ d) (ampere_ d) (kelvin_ d) (mole_ d) (candela_ d) = d.
Proof.
  destruct d; unfold wf, make; simpl. intros (H1 & H2 & H3 & H4 & H5 & H6 & H7).
  f_equal; apply store_bits_small; width_pos.
Qed.

Lemma op_eq_refl (d : t) : op_eq d d = true.
Proof. unfold op_eq. rewrite !Z.eqb_refl. reflexivity. Qed.

Lemma op_eq_true_iff (a b : t) : op_eq a b = true <-> a = b.
Proof.
  split; [|intros ->; apply op_eq_refl].
  destruct a, b; unfold op_eq; simpl.
  rewrite !andb_true_iff, !Z.eqb_eq. intuition congruence.
Qed.

Lemma op_ne_negb (a b : t) : op_ne a b = negb (op_eq a b).
Proof. unfold op_ne, op_eq. rewrite !negb_andb. reflexivity. Qed.

Lemma op_mul_div_cancel (A B : t) : wf A -> op_div (op_mul A B) B = A.
Proof.
  destruct A, B; unfold wf, op_div, op_mul, make; simpl.
  intros (H1 & H2 & H3 & H4 & H5 & H6 & H7).
  f_equal; apply store_add_sub; width_pos.
Qed.

Lemma inv_involutive (A : t) : wf A -> inv (inv A) = A.
Proof.
  destruct A; unfold wf, inv, make; simpl.
  intros (H1 & H2 & H3 & H4 & H5 & H6 & H7).
  f_equal; apply store_opp_opp; width_pos.
Qed.

Lemma int_mul_in_bits (w a n : Z) :
  0 < w <= 32 -> in_bits w (a * n) -> int_mul a n = Ok (a * n).
Proof.
  unfold in_bits, int_mul, in_int, int_min, int_max. intros Hw Hz.
  assert (2 ^ (w - 1) <= 2 ^ 31) by (apply Z.pow_le_mono_r; lia).
  replace ((- 2 ^ 31 <=? a * n) && (a * n <=? 2 ^ 31 - 1)) with true; [reflexivity|].
  symmetry. apply andb_true_iff. split; apply Z.leb_le; lia.
Qed.

Lemma pow_ok (A : t) (n : Z) :
  pow_fits A n ->
  pow A n = Ok (mk (metre_ A * n) (second_ A * n) (kilogram_ A * n) (ampere_ A * n)
                   (kelvin_ A * n) (mole_ A * n) (candela_ A * n)).
Proof.
  intros (H1 & H2 & H3 & H4 & H5 & H6 & H7). unfold pow.
  rewrite (int_mul_in_bits bitwidth.metre), (int_mul_in_bits bitwidth.second),
    (int_mul_in_bits bitwidth.kilogram), (int_mul_in_bits bitwidth.ampere),
    (int_mul_in_bits bitwidth.kelvin), (int_mul_in_bits bitwidth.mole),
    (int_mul_in_bits bitwidth.candela) by (assumption || (cbv; intuition discriminate)).
  simpl. unfold make. f_equal. f_equal; apply store_bits_small; width_pos.
Qed.

Lemma rem_eqb_divide (a n : Z) : n <> 0 -> (Z.rem a n =? 0) = true <-> (n | a).
Proof. intros Hn. rewrite Z.eqb_eq. apply Z.rem_divide, Hn. Qed.

Lemma divide_dec (n a : Z) : (n | a) \/ ~ (n | a).
Proof.
  destruct (Z.eq_dec n 0) as [-> | Hn].
  - destruct (Z.eq_dec a 0) as [-> | Ha]; [left; apply Z.divide_0_r|].
    right. intros H. apply Z.divide_0_l in H. contradiction.
  - rewrite <- (Z.rem_divide a n Hn).
    destruct (Z.eq_dec (Z.rem a n) 0); [left | right]; assumption.
Qed.

(** [has_valid_root] with a nonzero [power] decides the divisibility of
    every exponent. *)
Lemma has_valid_root_spec (d : t) (n : Z) :
  n <> 0 ->
  exists b, has_valid_root d n = Ok b /\ (b = true <-> Forall (Z.divide n) (exponents d)).
Proof.
  intros Hn. unfold has_valid_root.
  rewrite (proj2 (Z.eqb_neq n 0) Hn). eexists; split; [reflexivity|].
  rewrite !andb_true_iff, !rem_eqb_divide by assumption.
  unfold exponents. rewrite !Forall_cons_iff. pose proof (Forall_nil (Z.divide n)). tauto.
Qed.

Lemma root_ok (d : t) (n : Z) :
  n <> 0 -> Forall (Z.divide n) (exponents d) ->
  root d n = Ok (make (Z.quot (metre_ d) n) (Z.quot (second_ d) n) (Z.quot (kilogram_ d) n)
                      (Z.quot (ampere_ d) n) (Z.quot (kelvin_ d) n) (Z.quot (mole_ d) n)
                      (Z.quot (candela_ d) n)).
Proof.
  intros Hn Hd. unfold root.
  destruct (has_valid_root_spec d n Hn) as (b & -> & Hb).
  apply Hb in Hd. subst b. reflexivity.
Qed.

Lemma root_throws (d : t) (n : Z) :
  n <> 0 -> ~ Forall (Z.divide n) (exponents d) -> root d n = Throw invalid_argument.
Proof.
  intros Hn Hd. unfold root.
  destruct (has_valid_root_spec d n Hn) as (b & -> & Hb).
  destruct b; [exfalso; apply Hd, Hb; reflexivity | reflexivity].
Qed.

Lemma pow_root (A : t) (n : Z) :
  wf A -> n <> 0 -> pow_fits A n -> (P <- pow A n ;; root P n) = Ok A.
Proof.
  intros HA Hn Hfit. rewrite (pow_ok A n Hfit). simpl.
  rewrite root_ok; [simpl | assumption |].
  - rewrite !Z.quot_mul by assumption. f_equal. apply make_id, HA.
  - unfold exponents; simpl. repeat constructor; apply Z.divide_factor_r.
Qed.

End unit_base_facts.

(* ================================================================== *)
(** * Dimension roots and the closure of the dimension algebra *)

Lemma root_exact (d : unit_base.t) (n : Z) :
  unit_base.wf d -> n <> 0 ->
  Forall (Z.divide n) (unit_base.exponents d) ->
  ~ (n = -1 /\ unit_base.least_exponent d) ->
  exists r, unit_base.root d n = Ok r /\
            Forall2 (fun e q => e = n * q) (unit_base.exponents d) (unit_base.exponents r).
Proof.
  intros Hwf Hn Hdiv Hcorner.
  rewrite (unit_base_facts.root_ok d n Hn Hdiv). eexists; split; [reflexivity|].
  assert (Hq : Forall (fun we => n <> -1 \/ snd we <> - 2 ^ (fst we - 1))
                 (combine unit_base.bits (unit_base.exponents d))).
  { apply Forall_forall. intros we Hin.
    destruct (Z.eq_dec n (-1)) as [-> | Hn1]; [right | left; assumption].
    intros Hmin. apply Hcorner. split; [reflexivity|].
    apply Exists_exists. exists we. split; assumption. }
  destruct d as [m s kg a k mol cd]. unfold unit_base.wf in Hwf.
  unfold unit_base.exponents, unit_base.bits, unit_base.make in *; simpl in Hwf, Hdiv, Hq |- *.
  destruct Hwf as (H1 & H2 & H3 & H4 & H5 & H6 & H7).
  rewrite !Forall_cons_iff in Hdiv, Hq.
  destruct Hdiv as (D1 & D2 & D3 & D4 & D5 & D6 & D7 & _).
  destruct Hq as (Q1 & Q2 & Q3 & Q4 & Q5 & Q6 & Q7 & _).
  repeat constructor; apply store_quot_exact; solve [reflexivity | assumption].
Qed.




(** C9 (as amended).  For all dimensions [A] and [B], [(A*B)/B == A] and
    [A.inv().inv() == A] (the wrap-around of the bit-fields cancels); and
    [A.pow(n).root(n) == A] for every nonzero [n] for which no product
    [exponent * n] leaves the exponent's bit-field. *)
Theorem dimension_algebra_closure :
  (forall A B : unit_base.t,
     unit_base.wf A -> unit_base.wf B ->
     unit_base.op_eq (unit_base.op_div (unit_base.op_mul A B) B) A = true) /\
  (forall A : unit_base.t,
     unit_base.wf A -> unit_base.op_eq (unit_base.inv (unit_base.inv A)) A = true) /\
  (forall (A : unit_base.t) (n : Z),
     unit_base.wf A -> n <> 0 -> unit_base.pow_fits A n ->
     exists R, (P <- unit_base.pow A n ;; unit_base.root P n) = Ok R /\
               unit_base.op_eq R A = true).
Proof.
  split; [|split].
  - intros A B HA _. rewrite unit_base_facts.op_mul_div_cancel by assumption.
    apply unit_base_facts.op_eq_refl.
  - intros A HA. rewrite unit_base_facts.inv_involutive by assumption.
    apply unit_base_facts.op_eq_refl.
  - intros A n HA Hn Hfit. exists A. split.
    + apply unit_base_facts.pow_root; assumption.
    + apply unit_base_facts.op_eq_refl.
Qed.

(** The amended C9 at the newton [A = unit_base(1,-2,1,0,0,0,0)], the second
    [B = unit_base(0,1,0,0,0,0,0)] and [n = 2]. *)
Lemma dimension_algebra_closure_witness :
  let A := unit_base.make 1 (-2) 1 0 0 0 0 in
  let B := unit_base.make 0 1 0 0 0 0 0 in
  unit_base.wf A /\ unit_base.wf B /\ 2 <> 0 /\ unit_base.pow_fits A 2 /\
  unit_base.op_eq (unit_base.op_div (unit_base.op_mul A B) B) A = true /\
  unit_base.op_eq (unit_base.inv (unit_base.inv A)) A = true /\
  exists R, (P <- unit_base.pow A 2 ;; unit_base.root P 2) = Ok R /\
            unit_base.op_eq R A = true.
Proof.
  intros A B.
  assert (HA : unit_base.wf A) by apply unit_base_facts.make_wf.
  assert (HB : unit_base.wf B) by apply unit_base_facts.make_wf.
  assert (Hn : 2 <> 0) by discriminate.
  assert (Hfit : unit_base.pow_fits A 2) by solve_ranges.
  destruct dimension_algebra_closure as (Hmd & Hinv & Hpr).
  refine (conj HA (conj HB (conj Hn (conj Hfit (conj _ (conj _ _)))))).
  - apply Hmd; assumption.
  - apply Hinv; assumption.
  - apply Hpr; assumption.
Defined.

(** C9 as stated fails at [A = unit_base(4,0,0,0,0,0,0)] and [n = 2]: every
    exponent of [A] is divisible by 2, but [4 * 2] wraps to [-8] in the
    4-bit metre field, so [A.pow(2).root(2)] is [unit_base(-4,0,0,0,0,0,0)]. *)
Lemma pow_root_wraps :
  let A := unit_base.make 4 0 0 0 0 0 0 in
  unit_base.wf A /\ 2 <> 0 /\
  Forall (Z.divide 2) (unit_base.exponents A) /\
  exists R, (P <- unit_base.pow A 2 ;; unit_base.root P 2) = Ok R /\
            R = unit_base.make (-4) 0 0 0 0 0 0 /\
            unit_base.op_eq R A = false.
Proof.
  intros A. split; [apply unit_base_facts.make_wf|]. split; [discriminate|]. split.
  - solve_divides.
  - eexists. split; [reflexivity|]. split; reflexivity.
Qed.

(* ================================================================== *)
(** * IEEE 754 comparisons and NaN *)

Module float_facts.

Local Open Scope float_scope.

Lemma SFcompare_refl (x : spec_float) : x <> S754_nan -> SFcompare x x = Some Eq.
Proof.
  destruct x as [s | s | | s m e]; simpl; intros Hx.
  - reflexivity.
  - destruct s; reflexivity.
  - contradiction Hx; reflexivity.
  - rewrite Z.compare_refl, Pos.compare_cont_refl. destruct s; reflexivity.
Qed.

Lemma is_nan_Prim2SF (x : float) : is_nan x = true <-> Prim2SF x = S754_nan.
Proof.
  unfold is_nan. rewrite FloatAxioms.eqb_spec. unfold SFeqb. split.
  - intros H. destruct (Prim2SF x) eqn:E; try reflexivity;
      rewrite SFcompare_refl in H by discriminate; discriminate H.
  - intros ->. reflexivity.
Qed.

Lemma eqb_refl (x : float) : is_nan x = false -> (x =? x) = true.
Proof. unfold is_nan. destruct (x =? x); [reflexivity | discriminate]. Qed.

(** A positive number is not NaN. *)
Lemma ltb_0_not_nan (x : float) : (0 <? x) = true -> is_nan x = false.
Proof.
  intros H. destruct (is_nan x) eqn:E; [|reflexivity].
  apply is_nan_Prim2SF in E. rewrite FloatAxioms.ltb_spec, E in H. discriminate H.
Qed.

Lemma mul_nan_r (x y : float) : is_nan y = true -> is_nan (x * y) = true.
Proof.
  rewrite !is_nan_Prim2SF, FloatAxioms.mul_spec. intros ->.
  destruct (Prim2SF x); reflexivity.
Qed.

Lemma SFcompare_nan_r (x : spec_float) : SFcompare x S754_nan = None.
Proof. destruct x; reflexivity. Qed.

Lemma eqb_nan_r (x y : float) : is_nan y = true -> (x =? y) = false.
Proof.
  rewrite is_nan_Prim2SF, FloatAxioms.eqb_spec. intros ->.
  unfold SFeqb. rewrite SFcompare_nan_r. reflexivity.
Qed.

Lemma ltb_nan_r (x y : float) : is_nan y = true -> (x <? y) = false.
Proof.
  rewrite is_nan_Prim2SF, FloatAxioms.ltb_spec. intros ->.
  unfold SFltb. rewrite SFcompare_nan_r. reflexivity.
Qed.

Lemma ltb_nan_l (x y : float) : is_nan y = true -> (y <? x) = false.
Proof.
  rewrite is_nan_Prim2SF, FloatAxioms.ltb_spec. intros ->. reflexivity.
Qed.

End float_facts.

(* ================================================================== *)
(** * Units: equality, inequality and conversion *)

Module unit_facts.

Lemma prefix_op_eq_refl (p : unit_prefix.t) :
  (0 <? unit_prefix.multiplier_ p)%float = true -> unit_prefix.op_eq p p = true.
Proof.
  intros Hpos. unfold unit_prefix.op_eq.
  rewrite float_facts.eqb_refl by (apply float_facts.ltb_0_not_nan, Hpos).
  rewrite Ascii.eqb_refl. reflexivity.
Qed.

Lemma unit_op_eq_refl (u : unit.t) :
  (0 <? unit_prefix.multiplier_ (unit.prefix_ u))%float = true -> unit.op_eq u u = true.
Proof.
  intros Hpos. unfold unit.op_eq.
  rewrite unit_base_facts.op_ne_negb, unit_base_facts.op_eq_refl. simpl.
  apply prefix_op_eq_refl, Hpos.
Qed.

Lemma convertion_factor_nan (this other : unit.t) :
  unit_base.op_eq (unit.base_ this) (unit.base_ other) = false ->
  is_nan (unit.convertion_factor this other) = true.
Proof. unfold unit.convertion_factor. intros ->. reflexivity. Qed.

Lemma value_as_nan (meas : measurement.t) (desired_units : unit.t) :
  unit_base.op_eq (unit.base_ (measurement.units_ meas)) (unit.base_ desired_units) = false ->
  is_nan (measurement.value_as meas desired_units) = true.
Proof.
  intros Hne. unfold measurement.value_as, unit.op_eq.
  rewrite unit_base_facts.op_ne_negb, Hne. simpl.
  apply float_facts.mul_nan_r, convertion_factor_nan, Hne.
Qed.

End unit_facts.

(** C10.  [convertion_factor] is [noexcept] and nothing in its body can
    throw (it is a total function to [scalar]): between units of equal
    dimension it is the quotient of the two multipliers, and otherwise it is
    NaN; the NaN then goes through [convert] and through [value_as] into the
    comparisons of two measurements, which are all false but [!=]. *)
Theorem convertion_factor_ratio_or_nan (this other : unit.t) :
  (unit_base.op_eq (unit.base_ this) (unit.base_ other) = true ->
   unit.convertion_factor this other =
     (unit_prefix.multiplier_ (unit.prefix_ this) /
      unit_prefix.multiplier_ (unit.prefix_ other))%float) /\
  (unit_base.op_eq (unit.base_ this) (unit.base_ other) = false ->
   is_nan (unit.convertion_factor this other) = true /\
   (forall value : scalar, is_nan (unit.convert this value other) = true) /\
   (forall v w : scalar,
      let a := measurement.mk v other in
      let b := measurement.mk w this in
      measurement.op_eq a b = false /\ measurement.op_ne a b = true /\
      measurement.op_lt a b = false /\ measurement.op_gt a b = false /\
      measurement.op_le a b = false /\ measurement.op_ge a b = false)).
Proof.
  split.
  - unfold unit.convertion_factor. intros ->. reflexivity.
  - intros Hne. split; [apply unit_facts.convertion_factor_nan, Hne|]. split.
    + intros value. apply float_facts.mul_nan_r, unit_facts.convertion_factor_nan, Hne.
    + intros v w a b.
      assert (Hnan : is_nan (measurement.value_as b (measurement.units_ a)) = true)
        by (apply unit_facts.value_as_nan; exact Hne).
      unfold measurement.op_eq, measurement.op_ne, measurement.op_lt,
        measurement.op_gt, measurement.op_le, measurement.op_ge.
      rewrite (float_facts.eqb_nan_r _ _ Hnan), (float_facts.ltb_nan_r _ _ Hnan),
        (float_facts.ltb_nan_l _ _ Hnan).
      repeat split; reflexivity.
Qed.

(** C10 at km and m (equal dimensions: the factor is 1000) and at km and s
    (different dimensions: NaN, and 1 km == 1 s is false). *)
Lemma convertion_factor_ratio_or_nan_witness :
  unit.convertion_factor SI.km SI.m = 1000%float /\
  is_nan (unit.convertion_factor SI.km SI.s) = true /\
  measurement.op_eq (measurement.mk 1%float SI.s) (measurement.mk 1%float SI.km) = false.
Proof.
  split; [|split].
  - rewrite (proj1 (convertion_factor_ratio_or_nan SI.km SI.m) eq_refl). reflexivity.
  - apply (proj2 (convertion_factor_ratio_or_nan SI.km SI.s) eq_refl).
  - apply (proj2 (proj2 (proj2 (convertion_factor_ratio_or_nan SI.km SI.s) eq_refl))
             1%float 1%float).
Defined.

(** C2.  [unit::operator!=] is not the negation of [unit::operator==]:
    between units of equal dimension it returns whether the prefixes are
    equal (so it agrees with [==] there), and between units of different
    dimension it returns true.  Hence [u != u] is true for every unit [u]
    of positive multiplier, and in general exactly for the units whose
    multiplier is not NaN ([u != u] and [u == u] are both false on a NaN
    multiplier); two units of one dimension and different prefixes are not
    unequal, and the guards [units != unitless] and [units != rad], which
    are the same guard, hold of [unitless] and [rad] themselves: where it
    holds, [sin] throws and [operator+=] converts. *)
Theorem unit_ne_returns_prefix_equality :
  (forall u v : unit.t,
     unit.op_ne u v =
       if unit_base.op_eq (unit.base_ u) (unit.base_ v)
       then unit_prefix.op_eq (unit.prefix_ u) (unit.prefix_ v)
       else true) /\
  (forall u v : unit.t,
     unit_base.op_eq (unit.base_ u) (unit.base_ v) = true ->
     unit.op_ne u v = unit.op_eq u v) /\
  (forall u : unit.t,
     (0 <? unit_prefix.multiplier_ (unit.prefix_ u))%float = true ->
     unit.op_ne u u = true /\ unit.op_eq u u = true) /\
  (forall u v : unit.t,
     unit_base.op_eq (unit.base_ u) (unit.base_ v) = true ->
     unit_prefix.op_eq (unit.prefix_ u) (unit.prefix_ v) = false ->
     unit.op_ne u v = false) /\
  (forall u : unit.t, unit.op_ne u SI.rad = unit.op_ne u SI.unitless) /\
  unit.op_ne SI.unitless SI.unitless = true /\
  unit.op_ne SI.rad SI.rad = true /\
  (forall (std_sin : scalar -> scalar) (meas : measurement.t),
     unit.op_ne (measurement.units_ meas) SI.rad = true ->
     measurement.sin std_sin meas = Throw runtime_error) /\
  (forall this other : measurement.t,
     unit_base.op_eq (unit.base_ (measurement.units_ this))
                     (unit.base_ (measurement.units_ other)) = true ->
     unit.op_ne (measurement.units_ this) SI.unitless = true ->
     measurement.op_add_assign this other =
       Ok (measurement.mk
             (measurement.value_ this +
              measurement.value_as other (measurement.units_ this))%float
             (measurement.units_ this))) /\
  (forall u : unit.t,
     unit.op_ne u u = negb (is_nan (unit_prefix.multiplier_ (unit.prefix_ u))) /\
     unit.op_eq u u = negb (is_nan (unit_prefix.multiplier_ (unit.prefix_ u)))).
Proof.
  split; [reflexivity|].
  split; [|split; [|split; [|split; [reflexivity|split; [reflexivity|split;
    [reflexivity|split; [|split]]]]]]].
  - intros u v Hb. unfold unit.op_ne, unit.op_eq.
    rewrite unit_base_facts.op_ne_negb, Hb. reflexivity.
  - intros u Hpos. unfold unit.op_ne.
    rewrite unit_base_facts.op_eq_refl.
    split; [apply unit_facts.prefix_op_eq_refl | apply unit_facts.unit_op_eq_refl]; exact Hpos.
  - intros u v Hb Hp. unfold unit.op_ne. rewrite Hb. exact Hp.
  - intros std_sin meas Hg. unfold measurement.sin. rewrite Hg. reflexivity.
  - intros this other Hb Hg. unfold measurement.op_add_assign.
    rewrite unit_base_facts.op_ne_negb, Hb, Hg. reflexivity.
  - intros u. unfold unit.op_ne, unit.op_eq.
    rewrite unit_base_facts.op_ne_negb, unit_base_facts.op_eq_refl. simpl negb. cbv iota.
    unfold unit_prefix.op_eq, is_nan.
    rewrite Ascii.eqb_refl, andb_true_r, negb_involutive. split; reflexivity.
Qed.

(** C2 at the kilometre: [km != km] is true, and [km != m] is false. *)
Lemma unit_ne_returns_prefix_equality_witness :
  (0 <? unit_prefix.multiplier_ (unit.prefix_ SI.km))%float = true /\
  unit.op_ne SI.km SI.km = true /\ unit.op_eq SI.km SI.km = true /\
  unit_base.op_eq (unit.base_ SI.km) (unit.base_ SI.m) = true /\
  unit_prefix.op_eq (unit.prefix_ SI.km) (unit.prefix_ SI.m) = false /\
  unit.op_ne SI.km SI.m = false.
Proof.
  destruct unit_ne_returns_prefix_equality as (_ & _ & Hrefl & Hdiff & _).
  refine (conj eq_refl (conj _ (conj _ (conj eq_refl (conj eq_refl _))))).
  - apply (Hrefl SI.km eq_refl).
  - apply (Hrefl SI.km eq_refl).
  - apply (Hdiff SI.km SI.m); reflexivity.
Defined.

(** C2, the exception: a NaN multiplier passes the test [mult <= 0] of the
    constructor, and the checked [operator*] and [operator/] reach it from
    [unit_prefix(1e200, 'x')] (the product is infinite, and the quotient of
    the product by itself is NaN); on the unit of that prefix [u != u] is
    false, and so is [u == u]. *)
Lemma nan_unit_is_not_unequal_to_itself :
  let p := unit_prefix.mk 1e200%float "x"%char in
  let q := unit_prefix.mk nan "x"%char in
  let u := unit.make q unit_base.default in
  unit_prefix.make 1e200%float "x"%char = Ok p /\
  unit_prefix.make nan "x"%char = Ok q /\
  (exists pp, unit_prefix.op_mul p p = Ok pp /\ unit_prefix.op_div pp pp = Ok q) /\
  unit.op_ne u u = false /\
  unit.op_eq u u = false.
Proof.
  intros p q u.
  refine (conj eq_refl (conj eq_refl (conj _ (conj eq_refl eq_refl)))).
  exists (unit_prefix.mk infinity "x"%char). split; reflexivity.
Qed.

(** C1 (the code at the claim's inputs).  [rad] is the default unit, the
    guard of the six functions is [meas.units_ != rad], and [rad != rad] is
    true: the sine of a measurement in radians throws, like the sine of a
    measurement in metres; so do the other five.  The guard lets through the
    units of dimension zero whose prefix is not the default one. *)
Theorem sin_of_radians_throws
  (std_sin std_cos std_tan std_sinh std_cosh std_tanh : scalar -> scalar) :
  measurement.sin std_sin (measurement.mk 1%float SI.rad) = Throw runtime_error /\
  measurement.sin std_sin (measurement.mk 1%float SI.m) = Throw runtime_error /\
  (forall v : scalar,
     measurement.sin std_sin (measurement.mk v SI.rad) = Throw runtime_error /\
     measurement.cos std_cos (measurement.mk v SI.rad) = Throw runtime_error /\
     measurement.tan std_tan (measurement.mk v SI.rad) = Throw runtime_error /\
     measurement.sinh std_sinh (measurement.mk v SI.rad) = Throw runtime_error /\
     measurement.cosh std_cosh (measurement.mk v SI.rad) = Throw runtime_error /\
     measurement.tanh std_tanh (measurement.mk v SI.rad) = Throw runtime_error) /\
  (forall v : scalar,
     measurement.sin std_sin
       (measurement.mk v (unit.make SI.prefixes.milli SI.basis.default_type)) =
     Ok (measurement.mk (std_sin v) SI.unitless)).
Proof.
  repeat split; reflexivity.
Qed.

(** C3 (as amended).  [operator+], [operator-], [operator+=] and
    [operator-=] throw [std::invalid_argument] when the two dimensions
    differ, whatever the left operand is; when the dimensions are equal,
    [operator+] and [operator-] convert the right operand into the unit of
    the left one and keep that unit, also when the left operand is
    unitless. *)
Theorem add_checks_dimension_then_converts (this other : measurement.t) :
  (unit_base.op_eq (unit.base_ (measurement.units_ this))
                   (unit.base_ (measurement.units_ other)) = false ->
   measurement.op_add this other = Throw invalid_argument /\
   measurement.op_sub this other = Throw invalid_argument /\
   measurement.op_add_assign this other = Throw invalid_argument /\
   measurement.op_sub_assign this other = Throw invalid_argument) /\
  (unit_base.op_eq (unit.base_ (measurement.units_ this))
                   (unit.base_ (measurement.units_ other)) = true ->
   measurement.op_add this other =
     Ok (measurement.mk
           (measurement.value_ this +
            measurement.value_as other (measurement.units_ this))%float
           (measurement.units_ this)) /\
   measurement.op_sub this other =
     Ok (measurement.mk
           (measurement.value_ this -
            measurement.value_as other (measurement.units_ this))%float
           (measurement.units_ this))).
Proof.
  unfold measurement.op_add, measurement.op_sub, measurement.op_add_assign,
    measurement.op_sub_assign.
  rewrite unit_base_facts.op_ne_negb.
  split; intros ->; repeat split; reflexivity.
Qed.

(** The amended C3 at [0 + 5 km] (different dimensions) and at 0 plus 5
    thousandths, both of dimension zero: the sum is [0 + 5 * (1e-3 / 1)] in
    the unit of the left operand. *)
Lemma add_checks_dimension_then_converts_witness :
  let zero := measurement.mk 0%float SI.unitless in
  let permille := unit.make SI.prefixes.milli SI.basis.default_type in
  measurement.op_add zero (measurement.mk 5%float SI.km) = Throw invalid_argument /\
  measurement.op_add zero (measurement.mk 5%float permille) =
    Ok (measurement.mk (0 + 5 * (1e-3 / 1))%float SI.unitless).
Proof.
  intros zero permille. split.
  - apply (proj1 (add_checks_dimension_then_converts zero (measurement.mk 5%float SI.km))
             eq_refl).
  - apply (proj2 (add_checks_dimension_then_converts zero (measurement.mk 5%float permille))
             eq_refl).
Defined.

(** C3 as stated fails: [measurement(0.0, unitless) + measurement(5.0, km)]
    throws [std::invalid_argument], and so does [+=]; the sum is not
    [measurement(5.0, km)]. *)
Lemma unitless_plus_km_throws :
  let zero := measurement.mk 0%float SI.unitless in
  let five_km := measurement.mk 5%float SI.km in
  measurement.op_add zero five_km = Throw invalid_argument /\
  measurement.op_add_assign zero five_km = Throw invalid_argument /\
  measurement.op_add zero five_km <> Ok five_km.
Proof.
  intros zero five_km. repeat split. intros H. discriminate H.
Qed.

(** C4 (the code at the claim's inputs).  [unit_prefix::root(power)] has the
    body of [unit_prefix::pow(power)]: it raises the multiplier to [power],
    not to [1 / power], whereas [sqrt] and [cbrt] raise it to [1/2] and
    [1/3].  With a [std::pow] that gives [1000^2 = 1e6], the square root of
    kilo has the multiplier [1e6]. *)
Theorem prefix_root_raises_to_power (std_pow : scalar -> scalar -> scalar) :
  (forall (p : unit_prefix.t) (n : Z),
     unit_prefix.root std_pow p n = unit_prefix.pow std_pow p n /\
     unit_prefix.root std_pow p n =
       noexcept (unit_prefix.make
                   (std_pow (unit_prefix.multiplier_ p) (double_of_int n))
                   (unit_prefix.symbol_ p))) /\
  (forall p : unit_prefix.t,
     unit_prefix.sqrt std_pow p =
       noexcept (unit_prefix.make
                   (std_pow (unit_prefix.multiplier_ p) 0.5%float)
                   (unit_prefix.symbol_ p))) /\
  (std_pow 1e3%float 2%float = 1e6%float ->
   unit_prefix.root std_pow SI.prefixes.kilo 2 = Ok (unit_prefix.mk 1e6%float "k"%char)).
Proof.
  split; [|split].
  - intros p n. split; reflexivity.
  - intros p. reflexivity.
  - intros Hpow. unfold unit_prefix.root. simpl unit_prefix.multiplier_.
    change (double_of_int 2) with 2%float. rewrite Hpow. reflexivity.
Qed.

(** C4's evaluation with a [std::pow] that squares when the exponent is 2. *)
Lemma prefix_root_raises_to_power_witness :
  let square_pow := fun x y : scalar => if (y =? 2)%float then (x * x)%float else nan in
  square_pow 1e3%float 2%float = 1e6%float /\
  unit_prefix.root square_pow SI.prefixes.kilo 2 = Ok (unit_prefix.mk 1e6%float "k"%char).
Proof.
  intros square_pow. split; [reflexivity|].
  apply (proj2 (proj2 (prefix_root_raises_to_power square_pow))). reflexivity.
Defined.

(** C5 (the code at the claim's inputs).  [operator/(const scalar&)] tests
    the value of the measurement, not the divisor: it throws exactly when
    that value is zero, so [measurement(0.0, m) / 2.0] throws and
    [measurement(5.0, m) / 0.0] returns an infinite value; the sibling
    [operator/=(const scalar&)] tests the divisor. *)
Theorem scalar_division_tests_the_dividend :
  (forall (this : measurement.t) (scal : scalar),
     measurement.op_div_scalar this scal = Throw runtime_error <->
     (measurement.value_ this =? 0)%float = true) /\
  (forall (this : measurement.t) (scal : scalar),
     measurement.op_div_assign_scalar this scal = Throw runtime_error <->
     (scal =? 0)%float = true) /\
  measurement.op_div_scalar (measurement.mk 0%float SI.m) 2%float = Throw runtime_error /\
  measurement.op_div_scalar (measurement.mk 5%float SI.m) 0%float =
    Ok (measurement.mk infinity SI.m) /\
  measurement.op_div_assign_scalar (measurement.mk 5%float SI.m) 0%float =
    Throw runtime_error /\
  measurement.op_div_assign_scalar (measurement.mk 0%float SI.m) 2%float =
    Ok (measurement.mk 0%float SI.m).
Proof.
  split; [|split; [|repeat split; reflexivity]].
  - intros this scal. unfold measurement.op_div_scalar.
    destruct (measurement.value_ this =? 0)%float; split; intros H;
      first [reflexivity | discriminate H].
  - intros this scal. unfold measurement.op_div_assign_scalar.
    destruct (scal =? 0)%float; split; intros H; first [reflexivity | discriminate H].
Qed.

(* ================================================================== *)
(** * Uncertain quantities: equality and the two products *)

(** C6 (as amended).  [a == b] on two umeasurements is an interval test on
    [d = a.simple_subtract(b)], whose value is [a.value - c * b.value] and
    whose uncertainty is the linear sum [a.uncertainty + b.uncertainty * c]
    ([c] the conversion factor): if that uncertainty is zero the test is
    [d.value == 0], and otherwise it is
    [d.value - d.uncertainty <= 0 <= d.value + d.uncertainty]. *)
Theorem umeasurement_eq_is_interval_test (this other d : umeasurement.t) :
  (0 <? unit_prefix.multiplier_ (unit.prefix_ (umeasurement.units_ this)))%float = true ->
  umeasurement.simple_subtract this other = Ok d ->
  let cval := unit.convertion_factor (umeasurement.units_ other) (umeasurement.units_ this) in
  umeasurement.value_ d =
    (umeasurement.value_ this - cval * umeasurement.value_ other)%float /\
  umeasurement.uncertainty_ d =
    (umeasurement.uncertainty_ this + umeasurement.uncertainty_ other * cval)%float /\
  umeasurement.op_eq this other =
    Ok (if (umeasurement.uncertainty_ d =? 0)%float
        then (umeasurement.value_ d =? 0)%float
        else (umeasurement.value_ d - umeasurement.uncertainty_ d <=? 0)%float &&
             (0 <=? umeasurement.value_ d + umeasurement.uncertainty_ d)%float).
Proof.
  intros Hpos Hsub cval. unfold umeasurement.op_eq. rewrite Hsub. simpl.
  unfold umeasurement.simple_subtract, umeasurement.make in Hsub.
  destruct (unit_base.op_ne _ _); [discriminate Hsub|].
  destruct (_ <? 0)%float; [discriminate Hsub|].
  injection Hsub as <-. simpl.
  unfold umeasurement.op_eq_measurement, measurement.value_as. simpl.
  rewrite (unit_facts.unit_op_eq_refl _ Hpos).
  repeat split; reflexivity.
Qed.

(** The amended C6 at [10 ± 1 m] and [10.5 ± 1 m]: the difference is
    [-0.5 ± 2], which contains 0, and the two compare equal. *)
Lemma umeasurement_eq_is_interval_test_witness :
  let a := umeasurement.mk 10%float 1%float SI.m in
  let b := umeasurement.mk 10.5%float 1%float SI.m in
  let d := umeasurement.mk (-0.5)%float 2%float SI.m in
  (0 <? unit_prefix.multiplier_ (unit.prefix_ (umeasurement.units_ a)))%float = true /\
  umeasurement.simple_subtract a b = Ok d /\
  umeasurement.op_eq a b = Ok true.
Proof.
  intros a b d.
  refine (conj eq_refl (conj eq_refl _)).
  apply (proj2 (proj2 (umeasurement_eq_is_interval_test a b d eq_refl eq_refl))).
Defined.

(** C6 as stated fails at [10 ± 1 m] and [10.5 ± 1 m]: the value of the
    simple subtraction is [-0.5], not zero, it is smaller in magnitude than
    the combined linear uncertainty [2], and [==] is true. *)
Lemma close_umeasurements_compare_equal :
  let a := umeasurement.mk 10%float 1%float SI.m in
  let b := umeasurement.mk 10.5%float 1%float SI.m in
  exists d, umeasurement.simple_subtract a b = Ok d /\
            (umeasurement.value_ d =? 0)%float = false /\
            (abs (umeasurement.value_ d) <? umeasurement.uncertainty_ d)%float = true /\
            umeasurement.op_eq a b = Ok true.
Proof.
  intros a b. eexists. split; [reflexivity|]. repeat split.
Qed.

(** C7 (as amended).  For [(10 ± 1 m) * (2 ± 0.1 m)], with a [std::pow]
    whose squares are the IEEE products [x * x]: [operator*] returns the
    value 20 with the uncertainty
    [|20| * sqrt((1/10)^2 + (0.1/2)^2) = 2.2360679774997898], about 2.236,
    and [simple_product] returns the value 20 with the uncertainty
    [|20| * (1/10 + 0.1/2) = 3.0000000000000004], about 3.0; both in m²,
    and the two uncertainties differ. *)
Theorem product_uncertainties (std_pow : scalar -> scalar -> scalar) :
  (forall x : scalar, std_pow x 2%float = (x * x)%float) ->
  let a := umeasurement.mk 10%float 1%float SI.m in
  let b := umeasurement.mk 2%float 0.1%float SI.m in
  exists rss lin : umeasurement.t,
    umeasurement.op_mul std_pow a b = Ok rss /\
    umeasurement.simple_product a b = Ok lin /\
    umeasurement.value_ rss = 20%float /\
    umeasurement.value_ lin = 20%float /\
    umeasurement.uncertainty_ rss =
      (abs 20 * sqrt ((1 / 10) * (1 / 10) + (0.1 / 2) * (0.1 / 2)))%float /\
    umeasurement.uncertainty_ rss = 2.2360679774997898%float /\
    within 1e-3%float (umeasurement.uncertainty_ rss) 2.236%float = true /\
    umeasurement.uncertainty_ lin = (abs 20 * (1 / 10 + 0.1 / 2))%float /\
    umeasurement.uncertainty_ lin = 3.0000000000000004%float /\
    within 1e-9%float (umeasurement.uncertainty_ lin) 3%float = true /\
    (umeasurement.uncertainty_ rss =? umeasurement.uncertainty_ lin)%float = false /\
    unit.op_eq (umeasurement.units_ rss)
               (unit.make SI.prefixes.default_type (unit_base.make 2 0 0 0 0 0 0)) = true /\
    umeasurement.units_ lin = umeasurement.units_ rss.
Proof.
  intros Hpow a b. unfold umeasurement.op_mul.
  change (double_of_int 2) with 2%float. rewrite !Hpow.
  eexists. eexists. split; [reflexivity|]. split; [reflexivity|].
  repeat split; reflexivity.
Qed.

(** The amended C7 with a [std::pow] that squares when the exponent is 2. *)
Lemma product_uncertainties_witness :
  let square_pow := fun x y : scalar => if (y =? 2)%float then (x * x)%float else nan in
  (forall x : scalar, square_pow x 2%float = (x * x)%float) /\
  exists rss : umeasurement.t,
    umeasurement.op_mul square_pow
      (umeasurement.mk 10%float 1%float SI.m) (umeasurement.mk 2%float 0.1%float SI.m) =
    Ok rss /\
    umeasurement.uncertainty_ rss = 2.2360679774997898%float.
Proof.
  intros square_pow.
  assert (Hpow : forall x : scalar, square_pow x 2%float = (x * x)%float)
    by (intros x; reflexivity).
  split; [exact Hpow|].
  destruct (product_uncertainties square_pow Hpow) as (rss & lin & Hrss & _ & _ & _ & _ & Hu & _).
  exists rss. split; assumption.
Defined.

(** C7 as stated fails: the uncertainty of
    [(10 ± 1 m).simple_product(2 ± 0.1 m)] is [3.0000000000000004], which is
    [|20| * (1/10 + 0.1/2)] and is not 2.1; and with a [std::pow] that
    squares, the uncertainty of [(10 ± 1 m) * (2 ± 0.1 m)] is not within 0.1
    of 2.06. *)
Lemma product_uncertainties_are_not_2_06_and_2_1 :
  let a := umeasurement.mk 10%float 1%float SI.m in
  let b := umeasurement.mk 2%float 0.1%float SI.m in
  (exists lin : umeasurement.t,
     umeasurement.simple_product a b = Ok lin /\
     umeasurement.value_ lin = 20%float /\
     umeasurement.uncertainty_ lin = (abs 20 * (1 / 10 + 0.1 / 2))%float /\
     umeasurement.uncertainty_ lin = 3.0000000000000004%float /\
     within 0.5%float (umeasurement.uncertainty_ lin) 2.1%float = false) /\
  (exists (std_pow : scalar -> scalar -> scalar) (rss : umeasurement.t),
     (forall x : scalar, std_pow x 2%float = (x * x)%float) /\
     umeasurement.op_mul std_pow a b = Ok rss /\
     within 0.1%float (umeasurement.uncertainty_ rss) 2.06%float = false).
Proof.
  intros a b. split.
  - eexists. split; [reflexivity|]. repeat split.
  - exists (fun x y : scalar => if (y =? 2)%float then (x * x)%float else nan).
    eexists. split; [intros x; reflexivity|]. split; reflexivity.
Qed.

(* ================================================================== *)
(** * Further properties of the dimension algebra *)

Section BitFieldSums.

Variable w : Z.
Hypothesis w_pos : 0 < w.

Lemma store_bits_absorb_l (x y : Z) :
  store_bits w (store_bits w x + y) = store_bits w (x + y).
Proof.
  destruct (store_bits_decompose w w_pos x) as [k ->].
  replace (x + k * 2 ^ w + y) with (x + y + k * 2 ^ w) by lia.
  apply store_bits_periodic.
Qed.

Lemma store_bits_absorb_r (x y : Z) :
  store_bits w (x + store_bits w y) = store_bits w (x + y).
Proof. rewrite Z.add_comm, store_bits_absorb_l. f_equal. lia. Qed.

Lemma store_bits_zero : store_bits w 0 = 0.
Proof.
  apply store_bits_small; [exact w_pos|].
  unfold in_bits. pose proof (half_pos w w_pos). lia.
Qed.

Lemma store_bits_opp_cancel (a : Z) : store_bits w (a + store_bits w (- a)) = 0.
Proof.
  rewrite store_bits_absorb_r. replace (a + - a) with 0 by lia. apply store_bits_zero.
Qed.

Lemma store_bits_sub_opp (a b : Z) :
  store_bits w (a - b) = store_bits w (a + store_bits w (- b)).
Proof. rewrite store_bits_absorb_r. f_equal. Qed.

(** The product of a stored exact quotient with its divisor is computed
    without overflow and stores back the dividend. *)
Lemma store_quot_mul (a n : Z) :
  w <= 16 -> in_bits w a -> (n | a) -> n <> 0 ->
  int_mul (store_bits w (Z.quot a n)) n = Ok (store_bits w (Z.quot a n) * n) /\
  store_bits w (store_bits w (Z.quot a n) * n) = a.
Proof.
  intros Hw Ha [q Hq] Hn. subst a. rewrite Z.quot_mul by assumption.
  pose proof (half_pos w w_pos) as Hhalf.
  assert (Hpow : 2 ^ (w - 1) <= 2 ^ 15) by (apply Z.pow_le_mono_r; lia).
  pose proof (store_bits_in_bits w w_pos q) as Hs.
  destruct (store_bits_decompose w w_pos q) as [k Hk].
  split.
  - unfold int_mul, in_int, int_min, int_max.
    replace ((- 2 ^ 31 <=? store_bits w q * n) && (store_bits w q * n <=? 2 ^ 31 - 1))
      with true; [reflexivity|].
    symmetry. apply andb_true_iff.
    unfold in_bits in Ha, Hs.
    destruct (Z.eq_dec q 0) as [-> | Hq0].
    + rewrite store_bits_zero. split; apply Z.leb_le; lia.
    + assert (Hnb : - 2 ^ 15 <= n <= 2 ^ 15) by nia.
      assert (Hsb : - 2 ^ 15 <= store_bits w q <= 2 ^ 15) by lia.
      change (2 ^ 15) with 32768 in *. change (2 ^ 31) with 2147483648.
      split; apply Z.leb_le; nia.
  - rewrite Hk. replace ((q + k * 2 ^ w) * n) with (q * n + (k * n) * 2 ^ w) by lia.
    rewrite store_bits_periodic. apply store_bits_small; assumption.
Qed.

End BitFieldSums.

Module dimension_laws.

Import unit_base.

Lemma wf_bounds (d : t) :
  wf d -> Forall (fun e => -8 <= e <= 8) (exponents d).
Proof.
  destruct d; unfold wf, in_bits, exponents; simpl.
  change (2 ^ (bitwidth.metre - 1)) with 8. change (2 ^ (bitwidth.second - 1)) with 8.
  change (2 ^ (bitwidth.kilogram - 1)) with 4. change (2 ^ (bitwidth.ampere - 1)) with 4.
  change (2 ^ (bitwidth.kelvin - 1)) with 4. change (2 ^ (bitwidth.mole - 1)) with 2.
  change (2 ^ (bitwidth.candela - 1)) with 2.
  intros (H1 & H2 & H3 & H4 & H5 & H6 & H7). repeat constructor; lia.
Qed.

Lemma int_mul_small (a n : Z) :
  -8 <= a <= 8 -> -8 <= n <= 8 -> int_mul a n = Ok (a * n).
Proof.
  intros Ha Hn. unfold int_mul, in_int, int_min, int_max.
  replace ((- 2 ^ 31 <=? a * n) && (a * n <=? 2 ^ 31 - 1)) with true; [reflexivity|].
  symmetry. apply andb_true_iff. change (2 ^ 31) with 2147483648.
  split; apply Z.leb_le; nia.
Qed.

Lemma pow_small (d : t) (n : Z) :
  wf d -> -8 <= n <= 8 ->
  pow d n = Ok (make (metre_ d * n) (second_ d * n) (kilogram_ d * n) (ampere_ d * n)
                     (kelvin_ d * n) (mole_ d * n) (candela_ d * n)).
Proof.
  intros Hwf Hn. apply wf_bounds in Hwf. destruct d. unfold exponents in Hwf; simpl in Hwf.
  rewrite !Forall_cons_iff in Hwf. destruct Hwf as (H1 & H2 & H3 & H4 & H5 & H6 & H7 & _).
  unfold pow; simpl. rewrite !int_mul_small by assumption. reflexivity.
Qed.

Lemma op_mul_comm (A B : t) : op_mul A B = op_mul B A.
Proof. unfold op_mul, make. f_equal; f_equal; apply Z.add_comm. Qed.

Lemma op_mul_assoc (A B C : t) : op_mul (op_mul A B) C = op_mul A (op_mul B C).
Proof.
  unfold op_mul, make; simpl.
  rewrite !store_bits_absorb_l, !store_bits_absorb_r by reflexivity.
  f_equal; f_equal; symmetry; apply Z.add_assoc.
Qed.

Lemma op_mul_default_r (A : t) : wf A -> op_mul A default = A.
Proof.
  intros HA. unfold op_mul, default; simpl. rewrite !Z.add_0_r.
  apply unit_base_facts.make_id, HA.
Qed.

Lemma op_mul_inv_r (A : t) : op_mul A (inv A) = default.
Proof.
  unfold op_mul, inv, make, default; simpl.
  rewrite !store_bits_opp_cancel by reflexivity. reflexivity.
Qed.

Lemma op_div_as_mul (A B : t) : op_div A B = op_mul A (inv B).
Proof.
  unfold op_div, op_mul, inv, make; simpl.
  f_equal; apply store_bits_sub_opp; reflexivity.
Qed.

End dimension_laws.

(** X1.  With [operator*] the dimensions form an abelian group, the
    wrap-around of the bit-fields included: the product is commutative and
    associative, [unit_base()] is neutral, [inv] gives the inverse, and
    [operator/] is the product with the inverse; the results are again
    within the bit-fields. *)
Theorem dimensions_form_abelian_group :
  (forall A B : unit_base.t, unit_base.op_mul A B = unit_base.op_mul B A) /\
  (forall A B C : unit_base.t,
     unit_base.op_mul (unit_base.op_mul A B) C = unit_base.op_mul A (unit_base.op_mul B C)) /\
  (forall A : unit_base.t,
     unit_base.wf A ->
     unit_base.op_mul A unit_base.default = A /\ unit_base.op_mul unit_base.default A = A) /\
  (forall A : unit_base.t,
     unit_base.op_mul A (unit_base.inv A) = unit_base.default /\
     unit_base.op_div A A = unit_base.default) /\
  (forall A B : unit_base.t,
     unit_base.op_div A B = unit_base.op_mul A (unit_base.inv B)) /\
  (forall A B : unit_base.t,
     unit_base.wf (unit_base.op_mul A B) /\ unit_base.wf (unit_base.op_div A B) /\
     unit_base.wf (unit_base.inv A)).
Proof.
  split; [exact dimension_laws.op_mul_comm|].
  split; [exact dimension_laws.op_mul_assoc|].
  split; [|split; [|split; [exact dimension_laws.op_div_as_mul|]]].
  - intros A HA. split.
    + apply dimension_laws.op_mul_default_r, HA.
    + rewrite dimension_laws.op_mul_comm. apply dimension_laws.op_mul_default_r, HA.
  - intros A. split; [apply dimension_laws.op_mul_inv_r|].
    rewrite dimension_laws.op_div_as_mul. apply dimension_laws.op_mul_inv_r.
  - intros A B. repeat split; apply unit_base_facts.make_wf.
Qed.

(** X1 at the newton [unit_base(1,-2,1,0,0,0,0)]. *)
Lemma dimensions_form_abelian_group_witness :
  let newton := unit_base.make 1 (-2) 1 0 0 0 0 in
  unit_base.wf newton /\
  unit_base.op_mul newton unit_base.default = newton /\
  unit_base.op_mul unit_base.default newton = newton.
Proof.
  intros newton.
  assert (Hwf : unit_base.wf newton) by apply unit_base_facts.make_wf.
  split; [exact Hwf|].
  apply (proj1 (proj2 (proj2 dimensions_form_abelian_group)) newton Hwf).
Defined.

(** X2.  [unit_base::operator==] holds exactly of equal exponent vectors,
    and [unit_base::operator!=] and [unit_prefix::operator!=] are the
    negations of the two [operator==]. *)
Theorem base_and_prefix_inequality_negate_equality :
  (forall a b : unit_base.t, unit_base.op_eq a b = true <-> a = b) /\
  (forall a b : unit_base.t, unit_base.op_ne a b = negb (unit_base.op_eq a b)) /\
  (forall p q : unit_prefix.t, unit_prefix.op_ne p q = negb (unit_prefix.op_eq p q)).
Proof.
  split; [exact unit_base_facts.op_eq_true_iff|].
  split; [exact unit_base_facts.op_ne_negb|].
  intros p q. unfold unit_prefix.op_ne, unit_prefix.op_eq.
  rewrite negb_andb. reflexivity.
Qed.

(** X3.  On a dimension, [square()] and [cube()] are [pow(2)] and [pow(3)],
    and they are the product of the dimension with itself, twice and three
    times. *)
Theorem square_and_cube_are_powers (d : unit_base.t) :
  unit_base.wf d ->
  unit_base.pow d 2 = Ok (unit_base.square d) /\
  unit_base.pow d 3 = Ok (unit_base.cube d) /\
  unit_base.square d = unit_base.op_mul d d /\
  unit_base.cube d = unit_base.op_mul (unit_base.op_mul d d) d.
Proof.
  intros Hwf. split; [|split; [|split]].
  - rewrite dimension_laws.pow_small by (assumption || lia). reflexivity.
  - rewrite dimension_laws.pow_small by (assumption || lia). reflexivity.
  - unfold unit_base.square, unit_base.op_mul, unit_base.make.
    f_equal; f_equal; lia.
  - unfold unit_base.cube, unit_base.op_mul, unit_base.make; simpl.
    rewrite !store_bits_absorb_l by reflexivity.
    f_equal; f_equal; lia.
Qed.

(** X3 at the metre per second, [unit_base(1,-1,0,0,0,0,0)]. *)
Lemma square_and_cube_are_powers_witness :
  let m_s := unit_base.make 1 (-1) 0 0 0 0 0 in
  unit_base.wf m_s /\
  unit_base.pow m_s 2 = Ok (unit_base.make 2 (-2) 0 0 0 0 0) /\
  unit_base.pow m_s 3 = Ok (unit_base.make 3 (-3) 0 0 0 0 0).
Proof.
  intros m_s.
  assert (Hwf : unit_base.wf m_s) by apply unit_base_facts.make_wf.
  destruct (square_and_cube_are_powers m_s Hwf) as (H2 & H3 & _).
  split; [exact Hwf|]. split; [exact H2 | exact H3].
Defined.

(** X4.  Whenever [root(n)] of a dimension succeeds, [pow(n)] of its result
    is the dimension again, for every nonzero [n]. *)
Theorem pow_undoes_root (d r : unit_base.t) (n : Z) :
  unit_base.wf d -> n <> 0 ->
  unit_base.root d n = Ok r -> unit_base.pow r n = Ok d.
Proof.
  intros Hwf Hn Hroot.
  destruct (unit_base_facts.has_valid_root_spec d n Hn) as (valid & Hvalid & Hiff).
  unfold unit_base.root in Hroot. rewrite Hvalid in Hroot. simpl in Hroot.
  destruct valid; [|discriminate Hroot].
  injection Hroot as <-.
  assert (Hdiv : Forall (Z.divide n) (unit_base.exponents d)) by (apply Hiff; reflexivity).
  destruct d as [m s kg a k mol cd]. unfold unit_base.wf in Hwf; simpl in Hwf.
  destruct Hwf as (H1 & H2 & H3 & H4 & H5 & H6 & H7).
  unfold unit_base.exponents in Hdiv; simpl in Hdiv.
  rewrite !Forall_cons_iff in Hdiv.
  destruct Hdiv as (D1 & D2 & D3 & D4 & D5 & D6 & D7 & _).
  destruct (store_quot_mul bitwidth.metre eq_refl m n) as [M1 S1];
    [discriminate | assumption..|].
  destruct (store_quot_mul bitwidth.second eq_refl s n) as [M2 S2];
    [discriminate | assumption..|].
  destruct (store_quot_mul bitwidth.kilogram eq_refl kg n) as [M3 S3];
    [discriminate | assumption..|].
  destruct (store_quot_mul bitwidth.ampere eq_refl a n) as [M4 S4];
    [discriminate | assumption..|].
  destruct (store_quot_mul bitwidth.kelvin eq_refl k n) as [M5 S5];
    [discriminate | assumption..|].
  destruct (store_quot_mul bitwidth.mole eq_refl mol n) as [M6 S6];
    [discriminate | assumption..|].
  destruct (store_quot_mul bitwidth.candela eq_refl cd n) as [M7 S7];
    [discriminate | assumption..|].
  unfold unit_base.pow, unit_base.make; simpl.
  rewrite M1, M2, M3, M4, M5, M6, M7. simpl.
  rewrite S1, S2, S3, S4, S5, S6, S7. reflexivity.
Qed.

(** X4 at [unit_base(-8,0,0,0,0,0,0)] and [n = -1], where the root wraps. *)
Lemma pow_undoes_root_witness :
  let d := unit_base.make (-8) 0 0 0 0 0 0 in
  unit_base.wf d /\ -1 <> 0 /\
  unit_base.root d (-1) = Ok d /\ unit_base.pow d (-1) = Ok d.
Proof.
  intros d.
  assert (Hwf : unit_base.wf d) by apply unit_base_facts.make_wf.
  assert (Hn : -1 <> 0) by discriminate.
  assert (Hroot : unit_base.root d (-1) = Ok d) by reflexivity.
  refine (conj Hwf (conj Hn (conj Hroot _))).
  exact (pow_undoes_root d d (-1) Hwf Hn Hroot).
Defined.

(* ================================================================== *)
(** * Further properties of prefixes and measurements *)

Module float_sign_facts.

Local Open Scope float_scope.

Lemma Prim2SF_zero : Prim2SF 0 = S754_zero false.
Proof. reflexivity. Qed.

Lemma opp_involutive (x : float) : - - x = x.
Proof.
  apply Prim2SF_inj. rewrite !opp_spec.
  destruct (Prim2SF x) as [s | s | | s m e]; simpl; rewrite ?negb_involutive; reflexivity.
Qed.

(** The opposite of a negative number is not negative. *)
Lemma opp_negative_not_negative (x : float) : (x <? 0) = true -> (- x <? 0) = false.
Proof.
  rewrite !FloatAxioms.ltb_spec, opp_spec, Prim2SF_zero.
  destruct (Prim2SF x) as [s | s | | s m e]; try destruct s; simpl;
    intros H; first [reflexivity | discriminate H].
Qed.

Lemma eqb_0_opp (x : float) : (- x =? 0) = (x =? 0).
Proof.
  rewrite !FloatAxioms.eqb_spec, opp_spec, Prim2SF_zero.
  destruct (Prim2SF x) as [s | s | | s m e]; try destruct s; reflexivity.
Qed.

Lemma ltb_0_opp (x : float) :
  is_nan x = false -> (x =? 0) = false -> (0 <? - x) = negb (0 <? x).
Proof.
  intros Hnan. assert (Hx : Prim2SF x <> S754_nan).
  { intros E. apply float_facts.is_nan_Prim2SF in E. congruence. }
  revert Hx.
  rewrite !FloatAxioms.eqb_spec, !FloatAxioms.ltb_spec, opp_spec, Prim2SF_zero.
  destruct (Prim2SF x) as [s | s | | s m e]; try destruct s; simpl;
    intros Hx H; first [reflexivity | discriminate H | contradiction Hx; reflexivity].
Qed.

Lemma nan_not_zero_nor_positive (x : float) :
  is_nan x = true -> (x =? 0) = false /\ (0 <? x) = false /\ (x <? 0) = false.
Proof.
  intros H. apply float_facts.is_nan_Prim2SF in H.
  rewrite FloatAxioms.eqb_spec, !FloatAxioms.ltb_spec, H. repeat split.
Qed.

End float_sign_facts.

Module prefix_facts.

Lemma noexcept_make (m : scalar) (c : ascii) :
  (forall e, noexcept (unit_prefix.make m c) <> Throw e) /\
  (forall r, noexcept (unit_prefix.make m c) = Ok r ->
     (m <=? 0)%float = false /\ r = unit_prefix.mk m c) /\
  (noexcept (unit_prefix.make m c) = Terminate <-> (m <=? 0)%float = true).
Proof.
  unfold unit_prefix.make. destruct (m <=? 0)%float; simpl.
  - split; [discriminate|]. split; [discriminate|]. split; reflexivity.
  - split; [discriminate|]. split; [|split; discriminate].
    intros r H. injection H as <-. split; reflexivity.
Qed.

End prefix_facts.

(** X5.  No operation of [unit_prefix] throws: each one builds its result
    with the checking constructor inside a [noexcept] function, so it either
    returns a prefix whose multiplier passed the test (it is not [<= 0]) and
    whose symbol is the one of the left operand, or it calls
    [std::terminate]. *)
Theorem prefix_operations_return_checked_or_terminate
  (std_pow : scalar -> scalar -> scalar) (p q : unit_prefix.t) (n : Z) :
  Forall (fun c : outcome unit_prefix.t =>
            (forall e, c <> Throw e) /\ c <> Undefined /\
            (forall r, c = Ok r ->
               (unit_prefix.multiplier_ r <=? 0)%float = false /\
               unit_prefix.symbol_ r = unit_prefix.symbol_ p))
    (unit_prefix.op_mul p q :: unit_prefix.op_div p q :: unit_prefix.inv p ::
     unit_prefix.pow std_pow p n :: unit_prefix.square std_pow p ::
     unit_prefix.cube std_pow p :: unit_prefix.root std_pow p n ::
     unit_prefix.sqrt std_pow p :: unit_prefix.cbrt std_pow p :: nil).
Proof.
  assert (H : forall m c,
             (forall e, noexcept (unit_prefix.make m c) <> Throw e) /\
             noexcept (unit_prefix.make m c) <> Undefined /\
             (forall r, noexcept (unit_prefix.make m c) = Ok r ->
                (unit_prefix.multiplier_ r <=? 0)%float = false /\
                unit_prefix.symbol_ r = c)).
  { intros m c. destruct (prefix_facts.noexcept_make m c) as (Hthrow & Hok & _).
    split; [exact Hthrow|]. split.
    - unfold unit_prefix.make. destruct (m <=? 0)%float; discriminate.
    - intros r Hr. destruct (Hok r Hr) as [Hm ->]. split; [exact Hm | reflexivity]. }
  repeat (apply Forall_cons; [apply H|]). apply Forall_nil.
Qed.

(** X5: the product of two multipliers can underflow to zero, and then
    [operator*] terminates. *)
Lemma prefix_product_underflow :
  let tiny := unit_prefix.mk 1e-200%float "t"%char in
  unit_prefix.make 1e-200%float "t"%char = Ok tiny /\
  unit_prefix.op_mul tiny tiny = Terminate /\
  unit_prefix.op_mul SI.prefixes.kilo SI.prefixes.milli = Ok (unit_prefix.mk 1%float "k"%char).
Proof. repeat split. Qed.

Module measurement_facts.

Lemma unit_op_div_cases (u v : unit.t) :
  unit.op_div u v = Terminate \/
  exists p, unit.op_div u v = Ok (unit.make p (unit_base.op_div (unit.base_ u) (unit.base_ v))).
Proof.
  unfold unit.op_div, unit_prefix.op_div, unit_prefix.make.
  destruct (_ <=? 0)%float; simpl; [left; reflexivity | right; eexists; reflexivity].
Qed.

Lemma unit_inv_cases (u : unit.t) :
  unit.inv u = Terminate \/
  exists p, unit.inv u = Ok (unit.make p (unit_base.inv (unit.base_ u))).
Proof.
  unfold unit.inv, unit_prefix.inv, unit_prefix.make.
  destruct (_ <=? 0)%float; simpl; [left; reflexivity | right; eexists; reflexivity].
Qed.

Lemma value_as_same_unit (meas : measurement.t) :
  (0 <? unit_prefix.multiplier_ (unit.prefix_ (measurement.units_ meas)))%float = true ->
  measurement.value_as meas (measurement.units_ meas) = measurement.value_ meas.
Proof.
  intros Hpos. unfold measurement.value_as.
  rewrite (unit_facts.unit_op_eq_refl _ Hpos). reflexivity.
Qed.

End measurement_facts.

(** X6.  [operator+=] and [operator-=] give the result of [operator+] and
    [operator-] whenever the left operand has a nonzero dimension or the
    default prefix; when it has dimension zero and another prefix, they add
    or subtract the two values as they are and take the unit of the right
    operand. *)
Theorem compound_assignment_versus_binary (this other : measurement.t) :
  unit_base.op_eq (unit.base_ (measurement.units_ this))
                  (unit.base_ (measurement.units_ other)) = true ->
  (unit_base.op_eq (unit.base_ (measurement.units_ this)) unit_base.default = false \/
   unit_prefix.op_eq (unit.prefix_ (measurement.units_ this)) unit_prefix.default = true ->
   measurement.op_add_assign this other = measurement.op_add this other /\
   measurement.op_sub_assign this other = measurement.op_sub this other) /\
  (unit_base.op_eq (unit.base_ (measurement.units_ this)) unit_base.default = true ->
   unit_prefix.op_eq (unit.prefix_ (measurement.units_ this)) unit_prefix.default = false ->
   measurement.op_add_assign this other =
     Ok (measurement.mk (measurement.value_ this + measurement.value_ other)%float
                        (measurement.units_ other)) /\
   measurement.op_sub_assign this other =
     Ok (measurement.mk (measurement.value_ this - measurement.value_ other)%float
                        (measurement.units_ other))).
Proof.
  intros Hb.
  unfold measurement.op_add_assign, measurement.op_sub_assign, measurement.op_add,
    measurement.op_sub.
  rewrite unit_base_facts.op_ne_negb, Hb. simpl.
  unfold unit.op_ne.
  change (unit.base_ SI.unitless) with unit_base.default.
  change (unit.prefix_ SI.unitless) with unit_prefix.default.
  split.
  - intros [Hd | Hp].
    + rewrite Hd. split; reflexivity.
    + destruct (unit_base.op_eq _ unit_base.default); rewrite ?Hp; split; reflexivity.
  - intros Hd Hp. rewrite Hd, Hp. split; reflexivity.
Qed.

(** X6 at [5 km += 3 m] (nonzero dimension) and at a left operand in
    thousandths, of dimension zero. *)
Lemma compound_assignment_versus_binary_witness :
  let permille := unit.make SI.prefixes.milli SI.basis.default_type in
  measurement.op_add_assign (measurement.mk 5%float SI.km) (measurement.mk 3%float SI.m) =
    measurement.op_add (measurement.mk 5%float SI.km) (measurement.mk 3%float SI.m) /\
  measurement.op_add_assign (measurement.mk 5%float permille)
                            (measurement.mk 3%float SI.unitless) =
    Ok (measurement.mk (5 + 3)%float SI.unitless).
Proof.
  intros permille. split.
  - apply (proj1 (compound_assignment_versus_binary
                    (measurement.mk 5%float SI.km) (measurement.mk 3%float SI.m) eq_refl)).
    left. reflexivity.
  - apply (proj2 (compound_assignment_versus_binary
                    (measurement.mk 5%float permille)
                    (measurement.mk 3%float SI.unitless) eq_refl)); reflexivity.
Defined.

(** X7.  Between two measurements of one and the same unit (of positive
    multiplier) nothing is converted: the sum and the difference are those of
    the values, in that unit, and the comparisons are those of the values. *)
Theorem same_unit_operations_act_on_values (u : unit.t) (v w : scalar) :
  (0 <? unit_prefix.multiplier_ (unit.prefix_ u))%float = true ->
  let a := measurement.mk v u in
  let b := measurement.mk w u in
  measurement.op_add a b = Ok (measurement.mk (v + w)%float u) /\
  measurement.op_sub a b = Ok (measurement.mk (v - w)%float u) /\
  measurement.op_add_assign a b = Ok (measurement.mk (v + w)%float u) /\
  measurement.op_eq a b = (v =? w)%float /\
  measurement.op_ne a b = negb (v =? w)%float /\
  measurement.op_lt a b = (v <? w)%float /\
  measurement.op_gt a b = (w <? v)%float.
Proof.
  intros Hpos a b.
  assert (Hsame : measurement.value_as b u = w)
    by (apply (measurement_facts.value_as_same_unit b), Hpos).
  unfold measurement.op_add, measurement.op_sub, measurement.op_add_assign,
    measurement.op_eq, measurement.op_ne, measurement.op_lt, measurement.op_gt.
  simpl. rewrite unit_base_facts.op_ne_negb, unit_base_facts.op_eq_refl, Hsame. simpl.
  repeat split; try reflexivity.
  destruct (unit.op_ne u SI.unitless); reflexivity.
Qed.

(** X7 at [2 km + 3 km]. *)
Lemma same_unit_operations_act_on_values_witness :
  (0 <? unit_prefix.multiplier_ (unit.prefix_ SI.km))%float = true /\
  measurement.op_add (measurement.mk 2%float SI.km) (measurement.mk 3%float SI.km) =
    Ok (measurement.mk 5%float SI.km).
Proof.
  split; [reflexivity|].
  apply (proj1 (same_unit_operations_act_on_values SI.km 2%float 3%float eq_refl)).
Defined.

(** X8.  A division by a measurement throws only [std::runtime_error], and
    exactly when the value of the divisor is zero: that holds of
    [operator/(const measurement&)], of [scalar / measurement] and of [inv],
    which is [1 / measurement].  When [a / b] returns, its value is the
    quotient of the values and its dimension the quotient of the dimensions;
    the dimension of [a / a] is zero. *)
Theorem measurement_division_throws_on_zero_divisor :
  (forall (a b : measurement.t) (e : exn),
     measurement.op_div a b = Throw e <->
     e = runtime_error /\ (measurement.value_ b =? 0)%float = true) /\
  (forall (x : scalar) (b : measurement.t) (e : exn),
     measurement.scalar_div x b = Throw e <->
     e = runtime_error /\ (measurement.value_ b =? 0)%float = true) /\
  (forall b : measurement.t, measurement.inv b = measurement.scalar_div 1%float b) /\
  (forall a b r : measurement.t,
     measurement.op_div a b = Ok r ->
     measurement.value_ r = (measurement.value_ a / measurement.value_ b)%float /\
     unit.base_ (measurement.units_ r) =
       unit_base.op_div (unit.base_ (measurement.units_ a))
                        (unit.base_ (measurement.units_ b))) /\
  (forall a r : measurement.t,
     measurement.op_div a a = Ok r ->
     unit.base_ (measurement.units_ r) = unit_base.default).
Proof.
  assert (Hdiv : forall a b r : measurement.t,
             measurement.op_div a b = Ok r ->
             measurement.value_ r = (measurement.value_ a / measurement.value_ b)%float /\
             unit.base_ (measurement.units_ r) =
               unit_base.op_div (unit.base_ (measurement.units_ a))
                                (unit.base_ (measurement.units_ b))).
  { intros a b r. unfold measurement.op_div.
    destruct (measurement.value_ b =? 0)%float; [discriminate|].
    destruct (measurement_facts.unit_op_div_cases (measurement.units_ a) (measurement.units_ b))
      as [-> | [p ->]]; simpl; [discriminate|].
    intros H. injection H as <-. split; reflexivity. }
  split; [|split; [|split; [reflexivity | split; [exact Hdiv|]]]].
  - intros a b e. unfold measurement.op_div.
    destruct (measurement.value_ b =? 0)%float.
    + split; [intros H; injection H as <-; split; reflexivity | intros [-> _]; reflexivity].
    + destruct (measurement_facts.unit_op_div_cases (measurement.units_ a)
                  (measurement.units_ b)) as [-> | [p ->]]; simpl;
        (split; [discriminate | intros [_ H]; discriminate H]).
  - intros x b e. unfold measurement.scalar_div.
    destruct (measurement.value_ b =? 0)%float.
    + split; [intros H; injection H as <-; split; reflexivity | intros [-> _]; reflexivity].
    + destruct (measurement_facts.unit_inv_cases (measurement.units_ b)) as [-> | [p ->]];
        simpl; (split; [discriminate | intros [_ H]; discriminate H]).
  - intros a r H. destruct (Hdiv a a r H) as [_ ->].
    rewrite dimension_laws.op_div_as_mul. apply dimension_laws.op_mul_inv_r.
Qed.

(** X8 at [6 m / 2 s] and [6 m / 0 s]. *)
Lemma measurement_division_throws_on_zero_divisor_witness :
  let six_m := measurement.mk 6%float SI.m in
  measurement.op_div six_m (measurement.mk 0%float SI.s) = Throw runtime_error /\
  exists r, measurement.op_div six_m (measurement.mk 2%float SI.s) = Ok r /\
            measurement.value_ r = 3%float /\
            unit.base_ (measurement.units_ r) = unit_base.make 1 (-1) 0 0 0 0 0.
Proof.
  intros six_m.
  destruct measurement_division_throws_on_zero_divisor as (Hthrow & _ & _ & Hok & _).
  split.
  - apply Hthrow. split; reflexivity.
  - eexists. split; [reflexivity|].
    apply (Hok six_m (measurement.mk 2%float SI.s)). reflexivity.
Defined.

(** X9.  [abs] never returns a negative value, keeps the unit and is
    idempotent; the unary minus is an involution. *)
Theorem abs_is_not_negative (meas : measurement.t) :
  (measurement.value_ (measurement.abs meas) <? 0)%float = false /\
  measurement.units_ (measurement.abs meas) = measurement.units_ meas /\
  measurement.abs (measurement.abs meas) = measurement.abs meas /\
  measurement.op_neg (measurement.op_neg meas) = meas.
Proof.
  assert (Hneg : (measurement.value_ (measurement.abs meas) <? 0)%float = false).
  { unfold measurement.abs.
    destruct (measurement.value_ meas <? 0)%float eqn:E; simpl.
    - apply float_sign_facts.opp_negative_not_negative, E.
    - exact E. }
  split; [exact Hneg|]. split; [|split].
  - clear Hneg. unfold measurement.abs.
    destruct (measurement.value_ meas <? 0)%float; reflexivity.
  - unfold measurement.abs at 1. rewrite Hneg. reflexivity.
  - destruct meas as [v u]. unfold measurement.op_neg; simpl.
    rewrite float_sign_facts.opp_involutive. reflexivity.
Qed.

(** X10.  [sign] is 0 exactly on a zero value (of either sign), it is -1 on
    NaN, and otherwise it is 1 or -1 and changes with the unary minus. *)
Theorem sign_of_a_measurement (meas : measurement.t) :
  (measurement.sign meas = 0 <-> (measurement.value_ meas =? 0)%float = true) /\
  (is_nan (measurement.value_ meas) = true -> measurement.sign meas = -1) /\
  (is_nan (measurement.value_ meas) = false ->
   measurement.sign (measurement.op_neg meas) = - measurement.sign meas) /\
  (measurement.sign meas = -1 \/ measurement.sign meas = 0 \/ measurement.sign meas = 1).
Proof.
  destruct meas as [v u]. unfold measurement.sign, measurement.op_neg; simpl.
  split; [|split; [|split]].
  - destruct (v =? 0)%float; [split; reflexivity|].
    destruct (0 <? v)%float; split; discriminate.
  - intros Hnan.
    destruct (float_sign_facts.nan_not_zero_nor_positive v Hnan) as (-> & -> & _).
    reflexivity.
  - intros Hnan. rewrite float_sign_facts.eqb_0_opp.
    destruct (v =? 0)%float eqn:E; [reflexivity|].
    rewrite (float_sign_facts.ltb_0_opp v Hnan E).
    destruct (0 <? v)%float; reflexivity.
  - destruct (v =? 0)%float; [right; left; reflexivity|].
    destruct (0 <? v)%float; [right; right | left]; reflexivity.
Qed.

(** X10 at [-2 m] (a number) and at a NaN value. *)
Lemma sign_of_a_measurement_witness :
  let minus_two := measurement.mk (-2)%float SI.m in
  is_nan (measurement.value_ minus_two) = false /\
  measurement.sign (measurement.op_neg minus_two) = 1 /\
  is_nan (measurement.value_ (measurement.mk nan SI.m)) = true /\
  measurement.sign (measurement.mk nan SI.m) = -1.
Proof.
  intros minus_two.
  refine (conj eq_refl (conj _ (conj eq_refl _))).
  - rewrite (proj1 (proj2 (proj2 (sign_of_a_measurement minus_two))) eq_refl). reflexivity.
  - apply (proj1 (proj2 (sign_of_a_measurement (measurement.mk nan SI.m))) eq_refl).
Defined.

(** X11.  The ten functions that require a unitless operand ([exp], [log],
    [exp10], [log10], [asin], [acos], [atan], [asinh], [acosh], [atanh])
    test [meas.units_ != unitless]: they throw [std::runtime_error] on every
    measurement of nonzero dimension and on every measurement in [unitless]
    itself, and they return on the units of dimension zero whose prefix
    differs from the default one. *)
Theorem unitless_functions_throw_on_unitless
  (std_pow : scalar -> scalar -> scalar)
  (std_exp std_log std_log10 std_asin std_acos std_atan
   std_asinh std_acosh std_atanh : scalar -> scalar)
  (meas : measurement.t) :
  (measurement.units_ meas = SI.unitless \/
   unit_base.op_eq (unit.base_ (measurement.units_ meas)) unit_base.default = false ->
   Forall (fun c : outcome measurement.t => c = Throw runtime_error)
     (measurement.exp std_exp meas :: measurement.log std_log meas ::
      measurement.exp10 std_pow meas :: measurement.log10 std_log10 meas ::
      measurement.asin std_asin meas :: measurement.acos std_acos meas ::
      measurement.atan std_atan meas :: measurement.asinh std_asinh meas ::
      measurement.acosh std_acosh meas :: measurement.atanh std_atanh meas :: nil)) /\
  (unit_base.op_eq (unit.base_ (measurement.units_ meas)) unit_base.default = true ->
   unit_prefix.op_eq (unit.prefix_ (measurement.units_ meas)) unit_prefix.default = false ->
   measurement.exp std_exp meas =
     Ok (measurement.mk (std_exp (measurement.value_ meas)) SI.unitless) /\
   measurement.exp10 std_pow meas =
     Ok (measurement.mk (std_pow 10%float (measurement.value_ meas)) SI.unitless) /\
   measurement.asin std_asin meas =
     Ok (measurement.mk (std_asin (measurement.value_ meas)) SI.rad)).
Proof.
  split.
  - intros Hunit.
    assert (Hguard : unit.op_ne (measurement.units_ meas) SI.unitless = true).
    { destruct Hunit as [-> | Hd]; [reflexivity|].
      unfold unit.op_ne. change (unit.base_ SI.unitless) with unit_base.default.
      rewrite Hd. reflexivity. }
    unfold measurement.exp, measurement.log, measurement.exp10, measurement.log10,
      measurement.asin, measurement.acos, measurement.atan, measurement.asinh,
      measurement.acosh, measurement.atanh.
    rewrite Hguard. repeat (apply Forall_cons; [reflexivity|]). apply Forall_nil.
  - intros Hd Hp.
    assert (Hguard : unit.op_ne (measurement.units_ meas) SI.unitless = false).
    { unfold unit.op_ne. change (unit.base_ SI.unitless) with unit_base.default.
      change (unit.prefix_ SI.unitless) with unit_prefix.default.
      rewrite Hd. exact Hp. }
    unfold measurement.exp, measurement.exp10, measurement.asin.
    rewrite Hguard. repeat split.
Qed.

(** X11 at [exp(0 unitless)], [exp(0 m)] and [exp] of 0 thousandths. *)
Lemma unitless_functions_throw_on_unitless_witness :
  let id := fun x : scalar => x in
  let pw := fun x y : scalar => x in
  measurement.exp id (measurement.mk 0%float SI.unitless) = Throw runtime_error /\
  measurement.exp id (measurement.mk 0%float SI.m) = Throw runtime_error /\
  measurement.exp id
    (measurement.mk 0%float (unit.make SI.prefixes.milli SI.basis.default_type)) =
  Ok (measurement.mk 0%float SI.unitless).
Proof.
  intros id pw.
  pose proof (fun meas => unitless_functions_throw_on_unitless pw id id id id id id id id id meas)
    as H.
  split; [|split].
  - destruct (H (measurement.mk 0%float SI.unitless)) as [Hthrow _].
    apply (Forall_inv (Hthrow (or_introl eq_refl))).
  - destruct (H (measurement.mk 0%float SI.m)) as [Hthrow _].
    apply (Forall_inv (Hthrow (or_intror eq_refl))).
  - destruct (H (measurement.mk 0%float (unit.make SI.prefixes.milli SI.basis.default_type)))
      as [_ Hok].
    apply (proj1 (Hok eq_refl eq_refl)).
Defined.

(** X12.  [sqrt] of a measurement tests the value first and the dimension
    second: a negative value throws [std::runtime_error]; otherwise (the
    square root of the multiplier being positive) a dimension with an odd
    exponent throws [std::invalid_argument], and a dimension of even
    exponents gives the IEEE square root of the value with the halved
    exponents. *)
Theorem sqrt_checks_value_then_dimension
  (std_pow : scalar -> scalar -> scalar) (meas : measurement.t) :
  let u := measurement.units_ meas in
  let root_multiplier := std_pow (unit_prefix.multiplier_ (unit.prefix_ u)) 0.5%float in
  ((measurement.value_ meas <? 0)%float = true ->
   measurement.sqrt std_pow meas = Throw runtime_error) /\
  ((measurement.value_ meas <? 0)%float = false ->
   (root_multiplier <=? 0)%float = false ->
   (Exists (fun e => ~ (2 | e)) (unit_base.exponents (unit.base_ u)) ->
    measurement.sqrt std_pow meas = Throw invalid_argument) /\
   (unit_base.wf (unit.base_ u) ->
    Forall (Z.divide 2) (unit_base.exponents (unit.base_ u)) ->
    exists r, measurement.sqrt std_pow meas = Ok r /\
              measurement.value_ r = PrimFloat.sqrt (measurement.value_ meas) /\
              unit_prefix.multiplier_ (unit.prefix_ (measurement.units_ r)) = root_multiplier /\
              Forall2 (fun e q => e = 2 * q)
                      (unit_base.exponents (unit.base_ u))
                      (unit_base.exponents (unit.base_ (measurement.units_ r))))).
Proof.
  intros u root_multiplier. unfold measurement.sqrt. split.
  - intros ->. reflexivity.
  - intros -> Hpos.
    unfold unit.sqrt, unit_prefix.sqrt, unit_prefix.make.
    fold u. change (1 / 2)%float with 0.5%float. fold root_multiplier.
    rewrite Hpos. simpl. unfold unit_base.sqrt. split.
    + intros Hodd.
      apply (Exists_Forall_neg (Z.divide 2)) in Hodd;
        [|intros e; apply unit_base_facts.divide_dec].
      rewrite (unit_base_facts.root_throws _ 2) by (discriminate || assumption).
      reflexivity.
    + intros Hwf Heven.
      destruct (root_exact (unit.base_ u) 2 Hwf) as (r & Hr & Hexact);
        [discriminate | assumption | intros [H _]; discriminate H|].
      rewrite Hr. simpl. eexists. split; [reflexivity|]. repeat split. exact Hexact.
Qed.

(** X12 at [sqrt(4 m)], which throws, and [sqrt(4 m²)], with a [std::pow]
    that returns its base. *)
Lemma sqrt_checks_value_then_dimension_witness :
  let pw := fun x y : scalar => x in
  let m2 := unit.make SI.prefixes.default_type (unit_base.make 2 0 0 0 0 0 0) in
  measurement.sqrt pw (measurement.mk 4%float SI.m) = Throw invalid_argument /\
  measurement.sqrt pw (measurement.mk (-4)%float m2) = Throw runtime_error /\
  exists r, measurement.sqrt pw (measurement.mk 4%float m2) = Ok r /\
            measurement.value_ r = 2%float /\
            unit.base_ (measurement.units_ r) = SI.basis.metre.
Proof.
  intros pw m2. split; [|split].
  - refine (proj1 (proj2 (sqrt_checks_value_then_dimension pw (measurement.mk 4%float SI.m))
                    eq_refl eq_refl) _).
    apply Exists_cons_hd. intros [q Hq]. change (1 = q * 2) in Hq. lia.
  - apply (proj1 (sqrt_checks_value_then_dimension pw (measurement.mk (-4)%float m2)) eq_refl).
  - eexists. split; [reflexivity|]. split; reflexivity.
Defined.



(* ================================================================== *)
(** * Further properties of uncertain quantities *)

Module umeasurement_facts.

Lemma checked_make (v u : scalar) (un : unit.t) : returns_checked (umeasurement.make v u un).
Proof.
  unfold returns_checked, umeasurement.make. intros r.
  destruct (u <? 0)%float eqn:E; [discriminate|].
  intros H. injection H as <-. exact E.
Qed.

Lemma checked_throw (e : exn) : returns_checked (Throw e).
Proof. intros r H. discriminate H. Qed.

Lemma checked_noexcept (c : outcome umeasurement.t) :
  returns_checked c -> returns_checked (noexcept c).
Proof. intros Hc r. destruct c; simpl; try discriminate. apply Hc. Qed.

Lemma checked_bind {A : Type} (c : outcome A) (k : A -> outcome umeasurement.t) :
  (forall a, returns_checked (k a)) -> returns_checked (bind c k).
Proof. intros Hk r. destruct c; simpl; try discriminate. apply Hk. Qed.

Lemma checked_if (b : bool) (c1 c2 : outcome umeasurement.t) :
  returns_checked c1 -> returns_checked c2 -> returns_checked (if b then c1 else c2).
Proof. destruct b; auto. Qed.

Lemma uncertain_value_as_nan (umeas : umeasurement.t) (desired_units : unit.t) :
  unit_base.op_eq (unit.base_ (umeasurement.units_ umeas)) (unit.base_ desired_units) = false ->
  is_nan (umeasurement.value_as umeas desired_units) = true.
Proof.
  intros Hne. unfold umeasurement.value_as, unit.op_eq.
  rewrite unit_base_facts.op_ne_negb, Hne. simpl.
  apply float_facts.mul_nan_r, unit_facts.convertion_factor_nan, Hne.
Qed.

Lemma base_op_eq_sym (a b : unit_base.t) : unit_base.op_eq a b = unit_base.op_eq b a.
Proof.
  destruct (unit_base.op_eq a b) eqn:E1, (unit_base.op_eq b a) eqn:E2; try reflexivity.
  - apply unit_base_facts.op_eq_true_iff in E1. subst b.
    rewrite unit_base_facts.op_eq_refl in E2. discriminate E2.
  - apply unit_base_facts.op_eq_true_iff in E2. subst b.
    rewrite unit_base_facts.op_eq_refl in E1. discriminate E1.
Qed.

Lemma leb_nan_r (x y : float) : is_nan y = true -> (x <=? y)%float = false.
Proof.
  rewrite float_facts.is_nan_Prim2SF, FloatAxioms.leb_spec. intros ->.
  unfold SFleb. rewrite float_facts.SFcompare_nan_r. reflexivity.
Qed.

Lemma leb_nan_l (x y : float) : is_nan y = true -> (y <=? x)%float = false.
Proof.
  rewrite float_facts.is_nan_Prim2SF, FloatAxioms.leb_spec. intros ->. reflexivity.
Qed.

End umeasurement_facts.

(** X14.  Each of the following operations of a umeasurement builds its
    result with the checking constructor, so whenever it returns, the
    uncertainty of the result is not negative: the products, quotients, sums
    and differences (statistical and simple, with a umeasurement, a
    measurement or a scalar on either side), the unary minus, [inv],
    [convert_to], the twelve trigonometric and hyperbolic functions and the
    constructors from scalars and from a measurement.  [abs] is not one of
    them: it returns the uncertainty of its operand, and on a value that is
    not negative the operand as it is, unchecked. *)
Theorem operations_return_checked_uncertainty
  (std_pow : scalar -> scalar -> scalar)
  (std_sin std_cos std_tan std_asin std_acos std_atan : scalar -> scalar)
  (std_sinh std_cosh std_tanh std_asinh std_acosh std_atanh : scalar -> scalar)
  (this other : umeasurement.t) (meas : measurement.t) (x : scalar) (u : unit.t) :
  Forall returns_checked
    (umeasurement.op_mul std_pow this other :: umeasurement.simple_product this other ::
     umeasurement.op_mul_measurement this meas :: umeasurement.op_mul_scalar this x ::
     umeasurement.op_div std_pow this other :: umeasurement.simple_divide this other ::
     umeasurement.op_div_measurement this meas :: umeasurement.op_div_scalar this x ::
     umeasurement.op_add std_pow this other :: umeasurement.simple_add this other ::
     umeasurement.op_add_measurement this meas ::
     umeasurement.op_sub std_pow this other :: umeasurement.simple_subtract this other ::
     umeasurement.op_sub_measurement this meas ::
     umeasurement.op_neg this ::
     umeasurement.measurement_div meas this :: umeasurement.scalar_div x this ::
     umeasurement.measurement_add meas this :: umeasurement.measurement_sub meas this ::
     umeasurement.inv std_pow this :: umeasurement.convert_to this u ::
     umeasurement.of_measurement meas x :: umeasurement.make x x u ::
     umeasurement.sin std_sin std_cos this :: umeasurement.cos std_sin std_cos this ::
     umeasurement.tan std_pow std_tan this ::
     umeasurement.asin std_pow std_asin this :: umeasurement.acos std_pow std_acos this ::
     umeasurement.atan std_pow std_atan this ::
     umeasurement.sinh std_sinh std_cosh this :: umeasurement.cosh std_sinh std_cosh this ::
     umeasurement.tanh std_pow std_tanh this ::
     umeasurement.asinh std_pow std_asinh this ::
     umeasurement.acosh std_pow std_acosh this ::
     umeasurement.atanh std_pow std_atanh this :: nil) /\
  (forall r, umeasurement.abs this = Ok r ->
             umeasurement.uncertainty_ r = umeasurement.uncertainty_ this) /\
  ((umeasurement.value_ this <? 0)%float = false -> umeasurement.abs this = Ok this).
Proof.
  assert (Hof : returns_checked (umeasurement.of_measurement meas x)).
  { unfold returns_checked, umeasurement.of_measurement. intros r.
    destruct (x <? 0)%float eqn:E; [discriminate|].
    intros H. injection H as <-. exact E. }
  refine (conj _ (conj _ _)).
  - repeat (apply Forall_cons;
          [first [exact Hof |
                  unfold umeasurement.op_mul, umeasurement.simple_product,
                    umeasurement.op_mul_measurement, umeasurement.op_mul_scalar,
                    umeasurement.op_div, umeasurement.simple_divide,
                    umeasurement.op_div_measurement, umeasurement.op_div_scalar,
                    umeasurement.op_add, umeasurement.simple_add,
                    umeasurement.op_add_measurement, umeasurement.op_sub,
                    umeasurement.simple_subtract, umeasurement.op_sub_measurement,
                    umeasurement.op_neg, umeasurement.measurement_div,
                    umeasurement.scalar_div, umeasurement.measurement_add,
                    umeasurement.measurement_sub, umeasurement.inv,
                    umeasurement.convert_to,
                    umeasurement.sin, umeasurement.cos, umeasurement.tan,
                    umeasurement.asin, umeasurement.acos, umeasurement.atan,
                    umeasurement.sinh, umeasurement.cosh, umeasurement.tanh,
                    umeasurement.asinh, umeasurement.acosh, umeasurement.atanh; cbv zeta;
                  repeat first [apply umeasurement_facts.checked_make
                               | apply umeasurement_facts.checked_throw
                               | apply umeasurement_facts.checked_noexcept
                               | apply umeasurement_facts.checked_if
                               | apply umeasurement_facts.checked_bind; intros ?]]|]).
    apply Forall_nil.
  - intros r. unfold umeasurement.abs, umeasurement.op_neg, umeasurement.make.
    destruct (umeasurement.value_ this <? 0)%float.
    + destruct (umeasurement.uncertainty_ this <? 0)%float; simpl; [discriminate|].
      intros H. injection H as <-. reflexivity.
    + simpl. intros H. injection H as <-. reflexivity.
  - intros Hv. unfold umeasurement.abs. rewrite Hv. reflexivity.
Qed.

(** X14 at [abs(1 ± (-1) m)], a umeasurement whose uncertainty was set
    through [uncertainty()]: it comes back as it is. *)
Lemma operations_return_checked_uncertainty_witness :
  let this := umeasurement.mk 1%float (-1)%float SI.m in
  (umeasurement.value_ this <? 0)%float = false /\
  umeasurement.abs this = Ok this /\
  (umeasurement.uncertainty_ this <? 0)%float = true.
Proof.
  intros this. split; [reflexivity|]. split; [|reflexivity].
  apply (proj2 (proj2 (operations_return_checked_uncertainty
                         (fun x _ => x) (fun x => x) (fun x => x) (fun x => x)
                         (fun x => x) (fun x => x) (fun x => x) (fun x => x)
                         (fun x => x) (fun x => x) (fun x => x) (fun x => x)
                         (fun x => x) this this (measurement.mk 0%float SI.m)
                         0%float SI.m)) eq_refl).
Defined.

(** X15.  Between two umeasurements of different dimensions, [==], [!=],
    [>=] and [<=] call [std::terminate] (the exception of [simple_subtract]
    cannot leave these [noexcept] operators), whereas [>] and [<] return
    false. *)
Theorem comparing_different_dimensions_terminates (this other : umeasurement.t) :
  unit_base.op_eq (unit.base_ (umeasurement.units_ this))
                  (unit.base_ (umeasurement.units_ other)) = false ->
  umeasurement.op_eq this other = Terminate /\
  umeasurement.op_ne this other = Terminate /\
  umeasurement.op_ge this other = Terminate /\
  umeasurement.op_le this other = Terminate /\
  umeasurement.op_gt this other = false /\
  umeasurement.op_lt this other = false.
Proof.
  intros Hne.
  assert (Hsub : umeasurement.simple_subtract this other = Throw invalid_argument).
  { unfold umeasurement.simple_subtract.
    rewrite unit_base_facts.op_ne_negb, Hne. reflexivity. }
  assert (Hnan : is_nan (umeasurement.value_as other (umeasurement.units_ this)) = true).
  { apply umeasurement_facts.uncertain_value_as_nan.
    rewrite umeasurement_facts.base_op_eq_sym. exact Hne. }
  unfold umeasurement.op_ne, umeasurement.op_eq, umeasurement.op_ge, umeasurement.op_le,
    umeasurement.op_gt, umeasurement.op_lt.
  rewrite Hsub, (float_facts.ltb_nan_r _ _ Hnan), (float_facts.ltb_nan_l _ _ Hnan).
  repeat split.
Qed.

(** X15 at [1 ± 0.1 m] and [1 ± 0.1 s]. *)
Lemma comparing_different_dimensions_terminates_witness :
  let a := umeasurement.mk 1%float 0.1%float SI.m in
  let b := umeasurement.mk 1%float 0.1%float SI.s in
  umeasurement.op_eq a b = Terminate /\ umeasurement.op_lt a b = false.
Proof.
  intros a b.
  destruct (comparing_different_dimensions_terminates a b eq_refl)
    as (Heq & _ & _ & _ & _ & Hlt).
  split; assumption.
Defined.

(** X16.  An exact umeasurement (uncertainty zero) equals a measurement
    exactly when the measurement it was built from does; and against a
    measurement of another dimension, [==], [>], [<], [>=] and [<=] are
    false and [!=] is true, whatever the uncertainty. *)
Theorem comparison_with_a_measurement (m other : measurement.t) (this : umeasurement.t) :
  (forall exact : umeasurement.t,
     umeasurement.of_measurement m 0%float = Ok exact ->
     umeasurement.as_measurement exact = m /\
     umeasurement.op_eq_measurement exact other = measurement.op_eq m other) /\
  (unit_base.op_eq (unit.base_ (umeasurement.units_ this))
                   (unit.base_ (measurement.units_ other)) = false ->
   umeasurement.op_eq_measurement this other = false /\
   umeasurement.op_ne_measurement this other = true /\
   umeasurement.op_gt_measurement this other = false /\
   umeasurement.op_lt_measurement this other = false /\
   umeasurement.op_ge_measurement this other = false /\
   umeasurement.op_le_measurement this other = false).
Proof.
  split.
  - intros exact H. unfold umeasurement.of_measurement in H. simpl in H.
    injection H as <-. destruct m as [v u]. split; reflexivity.
  - intros Hne.
    assert (Hnan : is_nan (measurement.value_as other (umeasurement.units_ this)) = true).
    { apply unit_facts.value_as_nan.
      rewrite umeasurement_facts.base_op_eq_sym. exact Hne. }
    unfold umeasurement.op_ne_measurement, umeasurement.op_eq_measurement,
      umeasurement.op_gt_measurement, umeasurement.op_lt_measurement,
      umeasurement.op_ge_measurement, umeasurement.op_le_measurement.
    rewrite (float_facts.eqb_nan_r _ _ Hnan), (float_facts.ltb_nan_r _ _ Hnan),
      (float_facts.ltb_nan_l _ _ Hnan), !(umeasurement_facts.leb_nan_r _ _ Hnan),
      !(umeasurement_facts.leb_nan_l _ _ Hnan).
    destruct (umeasurement.uncertainty_ this =? 0)%float; repeat split.
Qed.

(** X16 at the exact [3 m] against [3000 mm], and at [3 ± 1 m] against
    [3 s]. *)
Lemma comparison_with_a_measurement_witness :
  let three_m := measurement.mk 3%float SI.m in
  umeasurement.of_measurement three_m 0%float = Ok (umeasurement.mk 3%float 0%float SI.m) /\
  umeasurement.op_eq_measurement (umeasurement.mk 3%float 0%float SI.m)
                                 (measurement.mk 3000%float SI.mm) =
    measurement.op_eq three_m (measurement.mk 3000%float SI.mm) /\
  umeasurement.op_eq_measurement (umeasurement.mk 3%float 1%float SI.m)
                                 (measurement.mk 3%float SI.s) = false.
Proof.
  intros three_m.
  split; [reflexivity|]. split.
  - apply (proj1 (comparison_with_a_measurement three_m (measurement.mk 3000%float SI.mm)
                    (umeasurement.mk 3%float 1%float SI.m))
             (umeasurement.mk 3%float 0%float SI.m) eq_refl).
  - apply (proj2 (comparison_with_a_measurement three_m (measurement.mk 3%float SI.s)
                    (umeasurement.mk 3%float 1%float SI.m)) eq_refl).
Defined.

Module zero_value_facts.

Local Open Scope float_scope.

Lemma eqb_0_zero (x : float) : (x =? 0) = true -> exists s, Prim2SF x = S754_zero s.
Proof.
  rewrite FloatAxioms.eqb_spec, float_sign_facts.Prim2SF_zero.
  destruct (Prim2SF x) as [s | s | | s m e]; try destruct s; simpl; intros H;
    first [discriminate H | eexists; reflexivity].
Qed.

(** [u / |0|] is an infinity or NaN. *)
Lemma div_abs_zero (u x : float) :
  (x =? 0) = true -> inf_or_nan (Prim2SF (u / abs x)).
Proof.
  intros Hx. destruct (eqb_0_zero x Hx) as [s Hs].
  rewrite div_spec, abs_spec, Hs. simpl.
  destruct (Prim2SF u); exact I.
Qed.

Lemma add_inf_or_nan_l (x y : float) :
  inf_or_nan (Prim2SF x) -> inf_or_nan (Prim2SF (x + y)).
Proof.
  rewrite add_spec. destruct (Prim2SF x) as [s | s | | s m e]; simpl; try contradiction;
    intros _; destruct (Prim2SF y) as [s' | s' | | s' m' e']; simpl;
    try destruct s; try destruct s'; exact I.
Qed.

Lemma add_inf_or_nan_r (x y : float) :
  inf_or_nan (Prim2SF y) -> inf_or_nan (Prim2SF (x + y)).
Proof.
  rewrite add_spec. destruct (Prim2SF y) as [s | s | | s m e]; simpl; try contradiction;
    intros _; destruct (Prim2SF x) as [s' | s' | | s' m' e']; simpl;
    try destruct s; try destruct s'; exact I.
Qed.

Lemma mul_zero_l (x y : float) : (x =? 0) = true -> zero_or_nan (Prim2SF (abs (x * y))).
Proof.
  intros Hx. destruct (eqb_0_zero x Hx) as [s Hs].
  rewrite abs_spec, FloatAxioms.mul_spec, Hs.
  destruct (Prim2SF y); exact I.
Qed.

Lemma mul_zero_r (x y : float) : (y =? 0) = true -> zero_or_nan (Prim2SF (abs (x * y))).
Proof.
  intros Hy. destruct (eqb_0_zero y Hy) as [s Hs].
  rewrite abs_spec, FloatAxioms.mul_spec, Hs.
  destruct (Prim2SF x); exact I.
Qed.

Lemma div_zero_l (x y : float) : (x =? 0) = true -> zero_or_nan (Prim2SF (abs (x / y))).
Proof.
  intros Hx. destruct (eqb_0_zero x Hx) as [s Hs].
  rewrite abs_spec, div_spec, Hs.
  destruct (Prim2SF y); exact I.
Qed.

(** Zero times infinity is NaN. *)
Lemma mul_zero_inf (x y : float) :
  zero_or_nan (Prim2SF x) -> inf_or_nan (Prim2SF y) -> is_nan (x * y) = true.
Proof.
  rewrite float_facts.is_nan_Prim2SF, FloatAxioms.mul_spec.
  destruct (Prim2SF x), (Prim2SF y); simpl; intros Hx Hy;
    first [contradiction | reflexivity].
Qed.

End zero_value_facts.

(** X17.  The simple (linear) propagation divides each uncertainty by the
    magnitude of its value: when a factor of [simple_product] has the value
    zero, or the dividend of [simple_divide] has, the call returns, and the
    uncertainty of the result is NaN. *)
Theorem simple_propagation_of_a_zero_value (this other r : umeasurement.t) :
  ((umeasurement.value_ this =? 0)%float = true \/
   (umeasurement.value_ other =? 0)%float = true ->
   umeasurement.simple_product this other = Ok r ->
   is_nan (umeasurement.uncertainty_ r) = true) /\
  ((umeasurement.value_ this =? 0)%float = true ->
   umeasurement.simple_divide this other = Ok r ->
   is_nan (umeasurement.uncertainty_ r) = true).
Proof.
  split.
  - intros Hzero. unfold umeasurement.simple_product, umeasurement.make.
    destruct (unit.op_mul _ _); simpl; try discriminate.
    destruct (_ <? 0)%float; simpl; [discriminate|].
    intros H. injection H as <-. simpl.
    destruct Hzero as [Hz | Hz].
    + apply zero_value_facts.mul_zero_inf; [apply zero_value_facts.mul_zero_l, Hz|].
      apply zero_value_facts.add_inf_or_nan_l, zero_value_facts.div_abs_zero, Hz.
    + apply zero_value_facts.mul_zero_inf; [apply zero_value_facts.mul_zero_r, Hz|].
      apply zero_value_facts.add_inf_or_nan_r, zero_value_facts.div_abs_zero, Hz.
  - intros Hz. unfold umeasurement.simple_divide, umeasurement.make.
    destruct (umeasurement.value_ other =? 0)%float; [discriminate|].
    destruct (unit.op_div _ _); simpl; try discriminate.
    destruct (_ <? 0)%float; simpl; [discriminate|].
    intros H. injection H as <-. simpl.
    apply zero_value_facts.mul_zero_inf; [apply zero_value_facts.div_zero_l, Hz|].
    apply zero_value_facts.add_inf_or_nan_l, zero_value_facts.div_abs_zero, Hz.
Qed.

(** X17 at [(0 ± 0.1 m).simple_product(2 ± 0.1 m)]. *)
Lemma simple_propagation_of_a_zero_value_witness :
  let a := umeasurement.mk 0%float 0.1%float SI.m in
  let b := umeasurement.mk 2%float 0.1%float SI.m in
  exists r, umeasurement.simple_product a b = Ok r /\
            umeasurement.value_ r = 0%float /\
            is_nan (umeasurement.uncertainty_ r) = true.
Proof.
  intros a b. eexists. split; [reflexivity|]. split; [reflexivity|].
  apply (proj1 (simple_propagation_of_a_zero_value a b _) (or_introl eq_refl) eq_refl).
Defined.

Module guard_facts.

(** The guard [units_ != unitless] (and [units_ != rad], the same unit)
    lets through only a unit of zero dimension whose prefix is not the
    default one. *)
Lemma ne_unitless_true (u : unit.t) :
  unit_base.op_eq (unit.base_ u) unit_base.default = false \/
  unit_prefix.op_eq (unit.prefix_ u) unit_prefix.default = true ->
  unit.op_ne u SI.unitless = true /\ unit.op_ne u SI.rad = true.
Proof.
  unfold unit.op_ne.
  change (unit.base_ SI.unitless) with unit_base.default.
  change (unit.base_ SI.rad) with unit_base.default.
  change (unit.prefix_ SI.unitless) with unit_prefix.default.
  change (unit.prefix_ SI.rad) with unit_prefix.default.
  intros [H | H]; rewrite H.
  - split; reflexivity.
  - destruct (unit_base.op_eq _ _); split; reflexivity.
Qed.

Lemma mul_nan_l (x y : float) : is_nan x = true -> is_nan (x * y)%float = true.
Proof.
  rewrite !float_facts.is_nan_Prim2SF, FloatAxioms.mul_spec. intros ->. reflexivity.
Qed.

End guard_facts.

(** X18.  The twelve trigonometric and hyperbolic functions of a
    umeasurement, direct and inverse, throw [std::runtime_error] on every
    umeasurement whose unit has a nonzero dimension or carries the default
    prefix: on an angle in [rad] and on a [unitless] number as well as on a
    length. *)
Theorem uncertain_trigonometry_throws
  (std_pow : scalar -> scalar -> scalar)
  (std_sin std_cos std_tan std_asin std_acos std_atan : scalar -> scalar)
  (std_sinh std_cosh std_tanh std_asinh std_acosh std_atanh : scalar -> scalar)
  (umeas : umeasurement.t) :
  unit_base.op_eq (unit.base_ (umeasurement.units_ umeas)) unit_base.default = false \/
  unit_prefix.op_eq (unit.prefix_ (umeasurement.units_ umeas)) unit_prefix.default = true ->
  Forall (fun c : outcome umeasurement.t => c = Throw runtime_error)
    (umeasurement.sin std_sin std_cos umeas ::
      umeasurement.cos std_sin std_cos umeas ::
      umeasurement.tan std_pow std_tan umeas ::
      umeasurement.asin std_pow std_asin umeas ::
      umeasurement.acos std_pow std_acos umeas ::
      umeasurement.atan std_pow std_atan umeas ::
      umeasurement.sinh std_sinh std_cosh umeas ::
      umeasurement.cosh std_sinh std_cosh umeas ::
      umeasurement.tanh std_pow std_tanh umeas ::
      umeasurement.asinh std_pow std_asinh umeas ::
      umeasurement.acosh std_pow std_acosh umeas ::
      umeasurement.atanh std_pow std_atanh umeas :: nil).
Proof.
  intros H. destruct (guard_facts.ne_unitless_true _ H) as [Hu Hr].
  unfold umeasurement.sin, umeasurement.cos, umeasurement.tan, umeasurement.asin,
    umeasurement.acos, umeasurement.atan, umeasurement.sinh, umeasurement.cosh,
    umeasurement.tanh, umeasurement.asinh, umeasurement.acosh, umeasurement.atanh.
  rewrite Hu, Hr.
  repeat (apply Forall_cons; [reflexivity|]). apply Forall_nil.
Qed.

(** X18 at [sin(1.0 ± 0.1 rad)], with every function of the C library
    taken to be the identity. *)
Lemma uncertain_trigonometry_throws_witness :
  umeasurement.sin (fun x => x) (fun x => x) (umeasurement.mk 1%float 0.1%float SI.rad)
  = Throw runtime_error.
Proof.
  pose proof (uncertain_trigonometry_throws (fun x _ => x)
                (fun x => x) (fun x => x) (fun x => x) (fun x => x) (fun x => x) (fun x => x)
                (fun x => x) (fun x => x) (fun x => x) (fun x => x) (fun x => x) (fun x => x)
                (umeasurement.mk 1%float 0.1%float SI.rad) (or_intror eq_refl)) as H.
  exact (Forall_inv H).
Defined.

(** X19.  Converting a umeasurement to a unit of another dimension is not
    an error: [convert_to] returns a umeasurement in the new unit whose
    value and uncertainty are both NaN (the check of the constructor passes,
    NaN not being negative), and [value_as] and [uncertainty_as] return
    NaN. *)
Theorem converting_across_dimensions_gives_nan (this : umeasurement.t) (newUnits : unit.t) :
  unit_base.op_eq (unit.base_ (umeasurement.units_ this)) (unit.base_ newUnits) = false ->
  (exists r, umeasurement.convert_to this newUnits = Ok r /\
             umeasurement.units_ r = newUnits /\
             is_nan (umeasurement.value_ r) = true /\
             is_nan (umeasurement.uncertainty_ r) = true) /\
  is_nan (umeasurement.value_as this newUnits) = true /\
  is_nan (umeasurement.uncertainty_as this newUnits) = true.
Proof.
  intros Hne.
  pose proof (unit_facts.convertion_factor_nan _ _ Hne) as Hnan.
  split; [|split].
  - unfold umeasurement.convert_to, umeasurement.make.
    rewrite (float_facts.ltb_nan_l _ _ (float_facts.mul_nan_r _ _ Hnan)). simpl.
    eexists. split; [reflexivity|]. simpl.
    split; [reflexivity|]. split.
    + apply guard_facts.mul_nan_l, Hnan.
    + apply float_facts.mul_nan_r, Hnan.
  - apply umeasurement_facts.uncertain_value_as_nan, Hne.
  - unfold umeasurement.uncertainty_as, unit.op_eq.
    rewrite unit_base_facts.op_ne_negb, Hne. simpl.
    apply float_facts.mul_nan_r, Hnan.
Qed.

(** X19 at [3 ± 1 m] converted to seconds. *)
Lemma converting_across_dimensions_gives_nan_witness :
  exists r, umeasurement.convert_to (umeasurement.mk 3%float 1%float SI.m) SI.s = Ok r /\
            umeasurement.units_ r = SI.s /\
            is_nan (umeasurement.value_ r) = true /\
            is_nan (umeasurement.uncertainty_ r) = true.
Proof.
  exact (proj1 (converting_across_dimensions_gives_nan
                  (umeasurement.mk 3%float 1%float SI.m) SI.s eq_refl)).
Defined.

(* ================================================================== *)
(** * Measurements of one dimension *)

Module typed_facts.

(** What a dimension test of a constructor lets through. *)
Lemma base_test (b expected : unit_base.t) :
  unit_base.op_ne b expected = false <-> b = expected.
Proof.
  rewrite unit_base_facts.op_ne_negb, negb_false_iff.
  apply unit_base_facts.op_eq_true_iff.
Qed.

Lemma length_accepts (other r : measurement.t) :
  length_measurement.of_measurement other = Ok r ->
  r = other /\ unit.base_ (measurement.units_ other) = SI.basis.metre.
Proof.
  unfold length_measurement.of_measurement. simpl.
  destruct (unit_base.op_ne _ _) eqn:E; [discriminate|].
  intros H. injection H as <-. split; [destruct other; reflexivity | apply base_test, E].
Qed.

Lemma time_accepts (other r : measurement.t) :
  time_measurement.of_measurement other = Ok r ->
  r = other /\ unit.base_ (measurement.units_ other) = SI.basis.second.
Proof.
  unfold time_measurement.of_measurement. simpl.
  destruct (_ <? _)%float; [discriminate|].
  destruct (unit_base.op_ne _ _) eqn:E; [discriminate|].
  intros H. injection H as <-. split; [destruct other; reflexivity | apply base_test, E].
Qed.

Lemma speed_accepts (other r : measurement.t) :
  speed_measurement.of_measurement other = Ok r ->
  r = other /\ unit.base_ (measurement.units_ other) = speed_measurement.base.
Proof.
  unfold speed_measurement.of_measurement. simpl.
  destruct (unit_base.op_ne _ _) eqn:E; [discriminate|].
  intros H. injection H as <-. split; [destruct other; reflexivity | apply base_test, E].
Qed.

Lemma acceleration_accepts (other r : measurement.t) :
  acceleration_measurement.of_measurement other = Ok r ->
  r = other /\ unit.base_ (measurement.units_ other) = acceleration_measurement.base.
Proof.
  unfold acceleration_measurement.of_measurement. simpl.
  destruct (unit_base.op_ne _ _) eqn:E; [discriminate|].
  intros H. injection H as <-. split; [destruct other; reflexivity | apply base_test, E].
Qed.

Lemma mass_accepts (other r : measurement.t) :
  mass_measurement.of_measurement other = Ok r ->
  r = other /\ unit.base_ (measurement.units_ other) = SI.basis.kilogram.
Proof.
  unfold mass_measurement.of_measurement. simpl.
  destruct (_ <? _)%float; [discriminate|].
  destruct (unit_base.op_ne _ _) eqn:E; [discriminate|].
  intros H. injection H as <-. split; [destruct other; reflexivity | apply base_test, E].
Qed.

(** The dimension of a quotient and of a product that returned. *)
Lemma op_div_base (a b q : measurement.t) :
  measurement.op_div a b = Ok q ->
  unit.base_ (measurement.units_ q) =
  unit_base.op_div (unit.base_ (measurement.units_ a)) (unit.base_ (measurement.units_ b)).
Proof.
  unfold measurement.op_div, unit.op_div.
  destruct (_ =? _)%float; [discriminate|].
  destruct (unit_prefix.op_div _ _); simpl; try discriminate.
  intros H. injection H as <-. reflexivity.
Qed.

Lemma op_mul_base (a b q : measurement.t) :
  measurement.op_mul a b = Ok q ->
  unit.base_ (measurement.units_ q) =
  unit_base.op_mul (unit.base_ (measurement.units_ a)) (unit.base_ (measurement.units_ b)).
Proof.
  unfold measurement.op_mul, unit.op_mul.
  destruct (unit_prefix.op_mul _ _); simpl; try discriminate.
  intros H. injection H as <-. reflexivity.
Qed.

Lemma accepts_base_of (b expected : unit_base.t) : b = expected -> unit_base.op_ne b expected = false.
Proof. apply base_test. Qed.

End typed_facts.

(** X20.  The constructors of the measurements of one dimension agree with
    the arithmetic of [measurement]: a length divided by a time is accepted
    as a speed, a speed divided by a time as an acceleration, and a mass
    times an acceleration (in either order) as a force, each unchanged. *)
Theorem typed_measurements_compose (l t v a m q : measurement.t) :
  length_measurement.of_measurement l = Ok l ->
  time_measurement.of_measurement t = Ok t ->
  speed_measurement.of_measurement v = Ok v ->
  acceleration_measurement.of_measurement a = Ok a ->
  mass_measurement.of_measurement m = Ok m ->
  (measurement.op_div l t = Ok q -> speed_measurement.of_measurement q = Ok q) /\
  (measurement.op_div v t = Ok q -> acceleration_measurement.of_measurement q = Ok q) /\
  (measurement.op_mul m a = Ok q -> force_measurement.of_measurement q = Ok q) /\
  (measurement.op_mul a m = Ok q -> force_measurement.of_measurement q = Ok q).
Proof.
  intros Hl Ht Hv Ha Hm.
  apply typed_facts.length_accepts in Hl. destruct Hl as [_ Hl].
  apply typed_facts.time_accepts in Ht. destruct Ht as [_ Ht].
  apply typed_facts.speed_accepts in Hv. destruct Hv as [_ Hv].
  apply typed_facts.acceleration_accepts in Ha. destruct Ha as [_ Ha].
  apply typed_facts.mass_accepts in Hm. destruct Hm as [_ Hm].
  refine (conj _ (conj _ (conj _ _))); intros Hq.
  - apply typed_facts.op_div_base in Hq. rewrite Hl, Ht in Hq.
    change (unit.base_ (measurement.units_ q) = speed_measurement.base) in Hq.
    unfold speed_measurement.of_measurement. cbv zeta.
    rewrite (typed_facts.accepts_base_of _ _ Hq). destruct q; reflexivity.
  - apply typed_facts.op_div_base in Hq. rewrite Hv, Ht in Hq.
    change (unit.base_ (measurement.units_ q) = acceleration_measurement.base) in Hq.
    unfold acceleration_measurement.of_measurement. cbv zeta.
    rewrite (typed_facts.accepts_base_of _ _ Hq). destruct q; reflexivity.
  - apply typed_facts.op_mul_base in Hq. rewrite Hm, Ha in Hq.
    change (unit.base_ (measurement.units_ q) = force_measurement.base) in Hq.
    unfold force_measurement.of_measurement. cbv zeta.
    rewrite (typed_facts.accepts_base_of _ _ Hq). destruct q; reflexivity.
  - apply typed_facts.op_mul_base in Hq. rewrite Hm, Ha in Hq.
    change (unit.base_ (measurement.units_ q) = force_measurement.base) in Hq.
    unfold force_measurement.of_measurement. cbv zeta.
    rewrite (typed_facts.accepts_base_of _ _ Hq). destruct q; reflexivity.
Qed.

(** X20 at [6 m / 2 s]. *)
Lemma typed_measurements_compose_witness :
  let q := measurement.mk 3%float (unit.make SI.prefixes.default_type speed_measurement.base) in
  measurement.op_div (measurement.mk 6%float SI.m) (measurement.mk 2%float SI.s) = Ok q /\
  speed_measurement.of_measurement q = Ok q.
Proof.
  intros q. split; [reflexivity|].
  apply (proj1 (typed_measurements_compose
                  (measurement.mk 6%float SI.m) (measurement.mk 2%float SI.s)
                  (measurement.mk 1%float (unit.make SI.prefixes.default_type speed_measurement.base))
                  (measurement.mk 1%float
                     (unit.make SI.prefixes.default_type acceleration_measurement.base))
                  (measurement.mk 1%float SI.kg) q
                  eq_refl eq_refl eq_refl eq_refl eq_refl) eq_refl).
Defined.

(** X21.  [mass_measurement(value, units)] does not store its value: for
    every value it accepts (not negative) in a unit of mass, the object holds
    [0.0], while [mass_measurement(measurement(value, units))] holds the
    value. *)
Theorem mass_measurement_drops_its_value (value : scalar) (units : unit.t) :
  (value <? 0)%float = false ->
  unit.base_ units = SI.basis.kilogram ->
  mass_measurement.make value units = Ok (measurement.mk 0%float units) /\
  mass_measurement.of_measurement (measurement.mk value units) =
    Ok (measurement.mk value units).
Proof.
  intros Hv Hb.
  unfold mass_measurement.make, mass_measurement.of_measurement. simpl.
  rewrite Hv, (typed_facts.accepts_base_of _ _ Hb). split; reflexivity.
Qed.

(** X21 at [mass_measurement(5.0, kg)]. *)
Lemma mass_measurement_drops_its_value_witness :
  mass_measurement.make 5%float SI.kg = Ok (measurement.mk 0%float SI.kg) /\
  mass_measurement.of_measurement (measurement.mk 5%float SI.kg) =
    Ok (measurement.mk 5%float SI.kg).
Proof. exact (mass_measurement_drops_its_value 5%float SI.kg eq_refl eq_refl). Defined.

(** X22.  [angle_measurement(value, units)] returns exactly for the units of
    zero dimension whose prefix differs from the default one, and then holds
    the value and the unit; with its default argument [rad], and with
    [unitless], it throws [std::invalid_argument] for every value. *)
Theorem angle_measurement_accepts (value : scalar) (angle_units : unit.t) (r : measurement.t) :
  (angle_measurement.make value angle_units = Ok r <->
   unit.base_ angle_units = unit_base.default /\
   unit_prefix.op_eq (unit.prefix_ angle_units) unit_prefix.default = false /\
   r = measurement.mk value angle_units) /\
  angle_measurement.make value SI.rad = Throw invalid_argument /\
  angle_measurement.make value SI.unitless = Throw invalid_argument.
Proof.
  refine (conj _ (conj _ _)).
  - unfold angle_measurement.make, unit.op_ne. simpl.
    change SI.basis.default_type with unit_base.default.
    change SI.prefixes.default_type with unit_prefix.default.
    destruct (unit_base.op_eq (unit.base_ angle_units) unit_base.default) eqn:Eb.
    + apply unit_base_facts.op_eq_true_iff in Eb.
      destruct (unit_prefix.op_eq _ _) eqn:Ep; split.
      * discriminate.
      * intros (_ & Hp & _). discriminate Hp.
      * intros H. injection H as <-. repeat split; assumption.
      * intros (_ & _ & ->). reflexivity.
    + split; [discriminate|]. intros (Hb & _). rewrite Hb in Eb.
      rewrite unit_base_facts.op_eq_refl in Eb. discriminate Eb.
  - reflexivity.
  - reflexivity.
Qed.

(** X23.  [angle_measurement::convert_to] throws [std::invalid_argument]
    for every angle and every desired unit: a unit equal to [degrees()] (or
    to [radians()], the same unit) is refused by the constructor that
    converts the returned measurement, and any other unit by [convert_to]
    itself. *)
Theorem angle_convert_to_always_throws (this : measurement.t) (desired_units : unit.t) :
  angle_measurement.convert_to this desired_units = Throw invalid_argument.
Proof.
  unfold angle_measurement.convert_to.
  destruct (unit.op_eq desired_units angle_measurement.degrees) eqn:E.
  - unfold angle_measurement.of_measurement. cbv zeta.
    change (measurement.units_ (measurement.mk _ desired_units)) with desired_units.
    unfold unit.op_eq in E. rewrite unit_base_facts.op_ne_negb in E.
    change (unit.base_ angle_measurement.degrees) with unit_base.default in E.
    change (unit.prefix_ angle_measurement.degrees) with unit_prefix.default in E.
    destruct (unit_base.op_eq (unit.base_ desired_units) unit_base.default) eqn:Eb;
      [|discriminate E].
    simpl in E.
    rewrite (proj1 (guard_facts.ne_unitless_true desired_units (or_intror E))).
    reflexivity.
  - change angle_measurement.radians with angle_measurement.degrees. rewrite E.
    reflexivity.
Qed.

(* ================================================================== *)
(** * Compound assignment of units *)

Module assign_facts.

(** The checked product of two prefixes returns the unchecked one, or the
    unchecked multiplier is not positive. *)
Lemma checked_prefix (x : scalar) (c : ascii) :
  (unit_prefix.make x c = Ok (unit_prefix.mk x c) /\ (x <=? 0)%float = false) \/
  (unit_prefix.make x c = Throw invalid_argument /\ (x <=? 0)%float = true).
Proof.
  unfold unit_prefix.make. destruct (x <=? 0)%float; [right | left]; split; reflexivity.
Qed.

Lemma unit_op_mul_cases (a b : unit.t) :
  (unit.op_mul a b = Ok (unit.op_mul_assign a b) /\
   (unit_prefix.multiplier_ (unit.prefix_ (unit.op_mul_assign a b)) <=? 0)%float = false) \/
  (unit.op_mul a b = Terminate /\
   (unit_prefix.multiplier_ (unit.prefix_ (unit.op_mul_assign a b)) <=? 0)%float = true).
Proof.
  unfold unit.op_mul, unit.op_mul_assign, unit_prefix.op_mul, unit_prefix.op_mul_assign.
  cbv zeta. simpl unit.prefix_. simpl unit.base_.
  destruct (checked_prefix
              (unit_prefix.multiplier_ (unit.prefix_ a) *
               unit_prefix.multiplier_ (unit.prefix_ b))%float
              (unit_prefix.symbol_ (unit.prefix_ a))) as [[-> H] | [-> H]];
    [left | right]; split; first [reflexivity | exact H].
Qed.

Lemma unit_op_div_assign_cases (a b : unit.t) :
  (unit.op_div a b = Ok (unit.op_div_assign a b) /\
   (unit_prefix.multiplier_ (unit.prefix_ (unit.op_div_assign a b)) <=? 0)%float = false) \/
  (unit.op_div a b = Terminate /\
   (unit_prefix.multiplier_ (unit.prefix_ (unit.op_div_assign a b)) <=? 0)%float = true).
Proof.
  unfold unit.op_div, unit.op_div_assign, unit_prefix.op_div, unit_prefix.op_div_assign.
  cbv zeta. simpl unit.prefix_. simpl unit.base_.
  destruct (checked_prefix
              (unit_prefix.multiplier_ (unit.prefix_ a) /
               unit_prefix.multiplier_ (unit.prefix_ b))%float
              (unit_prefix.symbol_ (unit.prefix_ a))) as [[-> H] | [-> H]];
    [left | right]; split; first [reflexivity | exact H].
Qed.

End assign_facts.

(** X24.  [operator*=] and [operator/=] of a measurement build no prefix
    through its checking constructor.  Where [operator*] and [operator/]
    return, the compound assignment leaves the same measurement in [*this];
    where they end the program (the multiplier of the prefix of the result is
    not positive), the compound assignment returns all the same, and leaves
    in [*this] a unit whose multiplier is not positive.  A division by a
    zero-valued measurement throws [std::runtime_error] in both. *)
Theorem compound_product_skips_the_prefix_check (this other : measurement.t) :
  let stored_mul :=
    unit_prefix.multiplier_
      (unit.prefix_ (measurement.units_ (measurement.op_mul_assign this other))) in
  (measurement.op_mul this other = Ok (measurement.op_mul_assign this other) /\
   (stored_mul <=? 0)%float = false \/
   measurement.op_mul this other = Terminate /\ (stored_mul <=? 0)%float = true) /\
  ((measurement.value_ other =? 0)%float = true /\
   measurement.op_div this other = Throw runtime_error /\
   measurement.op_div_assign this other = Throw runtime_error \/
   exists r, measurement.op_div_assign this other = Ok r /\
     (measurement.op_div this other = Ok r /\
      (unit_prefix.multiplier_ (unit.prefix_ (measurement.units_ r)) <=? 0)%float = false \/
      measurement.op_div this other = Terminate /\
      (unit_prefix.multiplier_ (unit.prefix_ (measurement.units_ r)) <=? 0)%float = true)).
Proof.
  intros stored_mul. subst stored_mul. split.
  - unfold measurement.op_mul, measurement.op_mul_assign. cbv zeta.
    simpl measurement.units_. simpl measurement.value_.
    destruct (assign_facts.unit_op_mul_cases (measurement.units_ this)
                (measurement.units_ other)) as [[-> H] | [-> H]];
      [left | right]; split; first [reflexivity | exact H].
  - unfold measurement.op_div, measurement.op_div_assign. cbv zeta.
    destruct (measurement.value_ other =? 0)%float.
    + left. repeat split.
    + right. eexists. split; [reflexivity|].
      simpl measurement.units_. simpl measurement.value_.
      destruct (assign_facts.unit_op_div_assign_cases (measurement.units_ this)
                  (measurement.units_ other)) as [[-> H] | [-> H]];
        [left | right]; split; first [reflexivity | exact H].
Qed.

(* ================================================================== *)
(** * Operations that cannot make an uncertainty negative *)

Module float_nonneg_facts.

Local Open Scope float_scope.

Lemma ltb_0_sign_clear (x : float) : (x <? 0) = false <-> sign_clear (Prim2SF x).
Proof.
  rewrite FloatAxioms.ltb_spec, float_sign_facts.Prim2SF_zero.
  destruct (Prim2SF x) as [s | s | | s m e]; simpl; try destruct s; simpl;
    split; intros H; first [reflexivity | exact I | discriminate H].
Qed.

Lemma round_aux_sign_clear (prec emax mx ex : Z) (lx : location) :
  sign_clear (binary_round_aux prec emax false mx ex lx).
Proof.
  unfold binary_round_aux.
  destruct (shr_fexp prec emax mx ex lx) as [mrs' e'].
  destruct (shr_fexp prec emax _ e' loc_Exact) as [mrs'' e''].
  destruct (shr_m mrs''); simpl; [exact I | | exact I].
  destruct (e'' <=? emax - prec)%Z; reflexivity.
Qed.

Lemma round_sign_clear (prec emax : Z) (mx : positive) (ex : Z) :
  sign_clear (binary_round prec emax false mx ex).
Proof.
  unfold binary_round. destruct (shl_align mx ex _) as [mz ez].
  apply round_aux_sign_clear.
Qed.

Lemma SFmul_sign_clear (x y : spec_float) :
  sign_clear x -> sign_clear y -> sign_clear (SFmul prec emax x y).
Proof.
  destruct x as [sx | sx | | sx mx ex], y as [sy | sy | | sy my ey]; simpl;
    intros Hx Hy; subst; simpl; try exact I; try reflexivity.
  apply round_aux_sign_clear.
Qed.

Lemma SFdiv_sign_clear (x y : spec_float) :
  sign_clear x -> no_sign y -> sign_clear (SFdiv prec emax x y).
Proof.
  destruct x as [sx | sx | | sx mx ex], y as [sy | sy | | sy my ey]; simpl;
    intros Hx Hy; subst; simpl; try exact I; try reflexivity.
  destruct (SFdiv_core_binary prec emax (Z.pos mx) ex (Z.pos my) ey) as [[mz ez] lz].
  apply round_aux_sign_clear.
Qed.

Lemma SFabs_no_sign (x : spec_float) : no_sign (SFabs x).
Proof. destruct x; simpl; first [exact I | reflexivity]. Qed.

Lemma positive_no_sign (x : float) : (0 <? x) = true -> no_sign (Prim2SF x).
Proof.
  rewrite FloatAxioms.ltb_spec, float_sign_facts.Prim2SF_zero.
  destruct (Prim2SF x) as [s | s | | s m e]; simpl; try destruct s; simpl;
    intros H; first [reflexivity | exact I | discriminate H].
Qed.

Lemma SFadd_sign_clear (x y : spec_float) :
  sign_clear x -> sign_clear y -> sign_clear (SFadd prec emax x y).
Proof.
  destruct x as [sx | sx | | sx mx ex], y as [sy | sy | | sy my ey]; simpl;
    intros Hx Hy; subst; simpl; try exact I; try reflexivity;
    try (destruct sx; try destruct sy; simpl; first [exact I | reflexivity]).
  apply round_sign_clear.
Qed.

Lemma SFabs_sign_clear (x : spec_float) : sign_clear (SFabs x).
Proof. destruct x; simpl; first [exact I | reflexivity]. Qed.

(** The product, the quotient and the sum of two numbers that are not
    below zero are not below zero. *)
Lemma mul_not_negative (x y : float) :
  (x <? 0) = false -> (y <? 0) = false -> (x * y <? 0) = false.
Proof.
  rewrite !ltb_0_sign_clear, FloatAxioms.mul_spec. apply SFmul_sign_clear.
Qed.

Lemma div_abs_not_negative (x y : float) :
  (x <? 0) = false -> (x / abs y <? 0) = false.
Proof.
  rewrite !ltb_0_sign_clear, div_spec, abs_spec. intros Hx.
  apply SFdiv_sign_clear; [exact Hx | apply SFabs_no_sign].
Qed.

Lemma div_positive_not_negative (x y : float) :
  (0 <? x) = true -> (0 <? y) = true -> (x / y <? 0) = false.
Proof.
  intros Hx Hy. rewrite ltb_0_sign_clear, div_spec.
  apply SFdiv_sign_clear; [|apply positive_no_sign, Hy].
  apply positive_no_sign in Hx. destruct (Prim2SF x); simpl in *; first [exact I | exact Hx].
Qed.

Lemma add_not_negative (x y : float) :
  (x <? 0) = false -> (y <? 0) = false -> (x + y <? 0) = false.
Proof.
  rewrite !ltb_0_sign_clear, add_spec. apply SFadd_sign_clear.
Qed.

Lemma abs_not_negative (x : float) : (abs x <? 0) = false.
Proof. rewrite ltb_0_sign_clear, abs_spec. apply SFabs_sign_clear. Qed.

(** A positive number is not below zero. *)
Lemma positive_not_negative (x : float) : (0 <? x) = true -> (x <? 0) = false.
Proof.
  rewrite ltb_0_sign_clear, FloatAxioms.ltb_spec, float_sign_facts.Prim2SF_zero.
  destruct (Prim2SF x) as [s | s | | s m e]; simpl; try destruct s; simpl;
    intros H; first [reflexivity | exact I | discriminate H].
Qed.

End float_nonneg_facts.

(** X25.  On a umeasurement whose uncertainty is not negative, as the
    constructors leave it, the [noexcept] operators [* scalar], unary [-] and
    [abs] return (the uncertainty they pass to the constructor cannot be
    negative, so the program is not ended), and [/ scalar] returns unless the
    scalar is zero, where it throws [std::invalid_argument]. *)
Theorem scalar_operations_return (this : umeasurement.t) (val : scalar) :
  (umeasurement.uncertainty_ this <? 0)%float = false ->
  umeasurement.op_mul_scalar this val =
    Ok (umeasurement.mk (val * umeasurement.value_ this)%float
                        (abs val * umeasurement.uncertainty_ this)%float
                        (umeasurement.units_ this)) /\
  umeasurement.op_neg this =
    Ok (umeasurement.mk (- umeasurement.value_ this)%float
                        (umeasurement.uncertainty_ this) (umeasurement.units_ this)) /\
  (exists r, umeasurement.abs this = Ok r /\
             umeasurement.uncertainty_ r = umeasurement.uncertainty_ this) /\
  umeasurement.op_div_scalar this val =
    (if (val =? 0)%float then Throw invalid_argument
     else Ok (umeasurement.mk (umeasurement.value_ this / val)%float
                              (umeasurement.uncertainty_ this / abs val)%float
                              (umeasurement.units_ this))).
Proof.
  intros Hu.
  assert (Hneg : umeasurement.op_neg this =
                 Ok (umeasurement.mk (- umeasurement.value_ this)%float
                       (umeasurement.uncertainty_ this) (umeasurement.units_ this))).
  { unfold umeasurement.op_neg, umeasurement.make. rewrite Hu. reflexivity. }
  refine (conj _ (conj Hneg (conj _ _))).
  - unfold umeasurement.op_mul_scalar, umeasurement.make.
    rewrite (float_nonneg_facts.mul_not_negative _ _
               (float_nonneg_facts.abs_not_negative val) Hu).
    reflexivity.
  - unfold umeasurement.abs.
    destruct (umeasurement.value_ this <? 0)%float.
    + rewrite Hneg. eexists. split; reflexivity.
    + eexists. split; reflexivity.
  - unfold umeasurement.op_div_scalar, umeasurement.make.
    rewrite (float_nonneg_facts.div_abs_not_negative _ val Hu).
    reflexivity.
Qed.

(** X25 at [(3 ± 1 m) * (-2)]. *)
Lemma scalar_operations_return_witness :
  umeasurement.op_mul_scalar (umeasurement.mk 3%float 1%float SI.m) (-2)%float =
    Ok (umeasurement.mk (-6)%float 2%float SI.m).
Proof.
  exact (proj1 (scalar_operations_return (umeasurement.mk 3%float 1%float SI.m)
                  (-2)%float eq_refl)).
Defined.

(** X26.  Two umeasurements of equal dimension, with uncertainties that are
    not negative and units whose multipliers are positive, can be compared:
    [simple_subtract] and [simple_add] return, and [==], [!=], [>=] and [<=]
    return the value of their test on the difference instead of ending the
    program. *)
Theorem comparing_equal_dimensions_returns (this other : umeasurement.t) :
  (umeasurement.uncertainty_ this <? 0)%float = false ->
  (umeasurement.uncertainty_ other <? 0)%float = false ->
  (0 <? unit_prefix.multiplier_ (unit.prefix_ (umeasurement.units_ this)))%float = true ->
  (0 <? unit_prefix.multiplier_ (unit.prefix_ (umeasurement.units_ other)))%float = true ->
  unit_base.op_eq (unit.base_ (umeasurement.units_ this))
                  (unit.base_ (umeasurement.units_ other)) = true ->
  (exists a, umeasurement.simple_add this other = Ok a) /\
  exists d, umeasurement.simple_subtract this other = Ok d /\
    umeasurement.op_eq this other =
      Ok (umeasurement.op_eq_measurement d
            (measurement.mk 0%float (umeasurement.units_ this))) /\
    umeasurement.op_ne this other =
      Ok (negb (umeasurement.op_eq_measurement d
                  (measurement.mk 0%float (umeasurement.units_ this)))) /\
    umeasurement.op_ge this other = Ok (0 <=? umeasurement.value_ d)%float /\
    umeasurement.op_le this other = Ok (umeasurement.value_ d <=? 0)%float.
Proof.
  intros Hu Ho Hm Hm' Hb.
  assert (Htol : (umeasurement.uncertainty_ this +
                  umeasurement.uncertainty_ other *
                  unit.convertion_factor (umeasurement.units_ other)
                    (umeasurement.units_ this) <? 0)%float = false).
  { apply float_nonneg_facts.add_not_negative; [exact Hu|].
    apply float_nonneg_facts.mul_not_negative; [exact Ho|].
    unfold unit.convertion_factor.
    rewrite umeasurement_facts.base_op_eq_sym, Hb.
    apply float_nonneg_facts.div_positive_not_negative; assumption. }
  split.
  - unfold umeasurement.simple_add, umeasurement.make.
    rewrite unit_base_facts.op_ne_negb, Hb. cbv zeta. simpl negb. cbv iota.
    rewrite Htol. eexists. reflexivity.
  - unfold umeasurement.op_eq, umeasurement.op_ne, umeasurement.op_ge, umeasurement.op_le,
      umeasurement.op_eq, umeasurement.simple_subtract, umeasurement.make.
    rewrite unit_base_facts.op_ne_negb, Hb. cbv zeta. simpl negb. cbv iota.
    rewrite Htol. eexists. repeat split.
Qed.

(** X26 at [10 ± 1 m] and [10500 ± 1000 mm]. *)
Lemma comparing_equal_dimensions_returns_witness :
  exists b, umeasurement.op_eq (umeasurement.mk 10%float 1%float SI.m)
                               (umeasurement.mk 10500%float 1000%float SI.mm) = Ok b.
Proof.
  destruct (comparing_equal_dimensions_returns
              (umeasurement.mk 10%float 1%float SI.m)
              (umeasurement.mk 10500%float 1000%float SI.mm)
              eq_refl eq_refl eq_refl eq_refl eq_refl) as [_ [d [_ [H _]]]].
  eexists. exact H.
Defined.

Module sqrt_facts.

Local Open Scope float_scope.

(** A square root is never below zero. *)
Lemma sqrt_not_negative (x : float) : (PrimFloat.sqrt x <? 0) = false.
Proof.
  rewrite float_nonneg_facts.ltb_0_sign_clear, sqrt_spec.
  unfold SF64sqrt, SFsqrt.
  destruct (Prim2SF x) as [s | s | | s m e]; try destruct s; simpl;
    try first [exact I | reflexivity].
  destruct (SFsqrt_core_binary prec emax (Z.pos m) e) as [[mz ez] lz].
  apply float_nonneg_facts.round_aux_sign_clear.
Qed.

End sqrt_facts.

(** X27.  The statistical propagation cannot fail on the uncertainty: the
    uncertainty that [operator+] and [operator-] pass to the constructor is
    a square root, so for operands of equal dimension both return, with the
    left operand's unit, whatever the operands hold and whatever [std::pow]
    returns; and [add_uncertainty] leaves an uncertainty that is not
    negative. *)
Theorem statistical_sum_returns
  (std_pow : scalar -> scalar -> scalar) (this other : umeasurement.t) (u : scalar) :
  unit_base.op_eq (unit.base_ (umeasurement.units_ this))
                  (unit.base_ (umeasurement.units_ other)) = true ->
  (exists r, umeasurement.op_add std_pow this other = Ok r /\
             umeasurement.units_ r = umeasurement.units_ this /\
             (umeasurement.uncertainty_ r <? 0)%float = false) /\
  (exists r, umeasurement.op_sub std_pow this other = Ok r /\
             umeasurement.units_ r = umeasurement.units_ this /\
             (umeasurement.uncertainty_ r <? 0)%float = false) /\
  (umeasurement.uncertainty_ (umeasurement.add_uncertainty std_pow this u) <? 0)%float
    = false.
Proof.
  intros Hb. refine (conj _ (conj _ _)).
  - unfold umeasurement.op_add, umeasurement.make.
    rewrite unit_base_facts.op_ne_negb, Hb. cbv zeta. simpl negb. cbv iota.
    rewrite sqrt_facts.sqrt_not_negative.
    eexists. split; [reflexivity|]. split; [reflexivity|].
    apply sqrt_facts.sqrt_not_negative.
  - unfold umeasurement.op_sub, umeasurement.make.
    rewrite unit_base_facts.op_ne_negb, Hb. cbv zeta. simpl negb. cbv iota.
    rewrite sqrt_facts.sqrt_not_negative.
    eexists. split; [reflexivity|]. split; [reflexivity|].
    apply sqrt_facts.sqrt_not_negative.
  - apply sqrt_facts.sqrt_not_negative.
Qed.

(** X27 at [(10 ± 1 m) + (2 ± 0.1 m)], with [std::pow(x, y)] taken to be
    [x * x]. *)
Lemma statistical_sum_returns_witness :
  exists r, umeasurement.op_add (fun x _ => x * x)%float
              (umeasurement.mk 10%float 1%float SI.m)
              (umeasurement.mk 2%float 0.1%float SI.m) = Ok r /\
            umeasurement.units_ r = SI.m.
Proof.
  destruct (statistical_sum_returns (fun x _ => x * x)%float
              (umeasurement.mk 10%float 1%float SI.m)
              (umeasurement.mk 2%float 0.1%float SI.m) 0%float eq_refl)
    as [[r [H [Hu _]]] _].
  exists r. split; [exact H | exact Hu].
Defined.

(* ================================================================== *)
(** * A dimension read from a string *)

Module string_facts.

Import String.

(** Where a pattern of two characters or more is found, its second
    character follows, inside the string. *)
Lemma find_second (a b : ascii) (rest unit_string : string) (i : nat) :
  unit_base_string.find (String a (String b rest)) unit_string = Some i ->
  unit_base_string.at_ unit_string (i + 1) = Some b /\
  (i =? length unit_string - 1)%nat = false.
Proof.
  unfold unit_base_string.at_.
  revert i. induction unit_string as [|c s IH]; intros i.
  - simpl. discriminate.
  - cbn [unit_base_string.find].
    destruct (prefix (String a (String b rest)) (String c s)) eqn:Hp.
    + intros H. injection H as <-.
      simpl in Hp. destruct (ascii_dec a c) as [_|_]; [|discriminate Hp].
      destruct s as [|c' s']; simpl in Hp; [discriminate Hp|].
      destruct (ascii_dec b c') as [->|_]; [|discriminate Hp].
      split; reflexivity.
    + destruct (unit_base_string.find (String a (String b rest)) s) as [j|] eqn:Hf;
        [|discriminate].
      simpl. intros H. injection H as <-.
      destruct (IH j eq_refl) as [Hat Hlast]. split.
      * exact Hat.
      * destruct s as [|c' s']; [simpl in Hat; destruct j; discriminate Hat|].
        simpl in Hlast |- *. rewrite Nat.sub_0_r in Hlast. exact Hlast.
Qed.

(** The block after the search of such a pattern, whose second character
    is not ['^'], stores 1 or leaves the member. *)
Lemma read_second
  (std_stoi : string -> option Z) (a b : ascii) (rest unit_string : string) (w member : Z) :
  Ascii.eqb b "^" = false ->
  unit_base_string.read std_stoi unit_string
    (unit_base_string.find (String a (String b rest)) unit_string) w member =
  Ok (match unit_base_string.find (String a (String b rest)) unit_string with
      | Some _ => store_bits w 1
      | None => member
      end).
Proof.
  intros Hb. unfold unit_base_string.read.
  destruct (unit_base_string.find _ unit_string) as [i|] eqn:Hf; [|reflexivity].
  destruct (find_second _ _ _ _ _ Hf) as [-> ->]. rewrite Hb. reflexivity.
Qed.

End string_facts.

(** X28.  The constructor of a dimension from a string never reads an
    exponent of kilogram, mole or candela: whenever it returns, each of these
    three members is 1 if its symbol ([kg], [mol], [cd]) occurs in the string
    and 0 otherwise, whatever follows the symbol (the character tested for
    ['^'] is the second character of the symbol itself).  So no string gives
    a dimension whose kilogram exponent is 2. *)
Theorem string_constructor_ignores_exponents
  (std_stoi : String.string -> option Z) (unit_string : String.string) (b : unit_base.t) :
  unit_base_string.of_string std_stoi unit_string = Ok b ->
  let occurs (symbol : String.string) : Z :=
    match unit_base_string.find symbol unit_string with Some _ => 1 | None => 0 end in
  unit_base.kilogram_ b = occurs (String.String "k" (String.String "g" String.EmptyString)) /\
  unit_base.mole_ b =
    occurs (String.String "m" (String.String "o" (String.String "l" String.EmptyString))) /\
  unit_base.candela_ b = occurs (String.String "c" (String.String "d" String.EmptyString)) /\
  unit_base.kilogram_ b <> 2.
Proof.
  intros H occurs.
  assert (Hthree :
    unit_base.kilogram_ b = occurs (String.String "k" (String.String "g" String.EmptyString)) /\
    unit_base.mole_ b =
      occurs (String.String "m" (String.String "o" (String.String "l" String.EmptyString))) /\
    unit_base.candela_ b = occurs (String.String "c" (String.String "d" String.EmptyString))).
  { unfold unit_base_string.of_string in H.
    destruct (String.length unit_string =? 0)%nat eqn:He.
    - injection H as <-. subst occurs. simpl.
      destruct unit_string; [repeat split | discriminate He].
    - rewrite !(string_facts.read_second std_stoi) in H by reflexivity.
      destruct (unit_base_string.read std_stoi unit_string _ bitwidth.metre 0);
        simpl in H; try discriminate H.
      destruct (unit_base_string.read std_stoi unit_string _ bitwidth.second 0);
        simpl in H; try discriminate H.
      destruct (unit_base_string.read std_stoi unit_string _ bitwidth.ampere 0);
        simpl in H; try discriminate H.
      destruct (unit_base_string.read std_stoi unit_string _ bitwidth.kelvin 0);
        simpl in H; try discriminate H.
      injection H as <-. subst occurs. simpl.
      repeat split;
        match goal with
        | |- context [unit_base_string.find ?p ?s] =>
            destruct (unit_base_string.find p s); reflexivity
        end. }
  destruct Hthree as (Hkg & Hmol & Hcd). refine (conj Hkg (conj Hmol (conj Hcd _))).
  rewrite Hkg. subst occurs. simpl.
  destruct (unit_base_string.find _ unit_string); discriminate.
Qed.

(** X28 at the string [kg^2], with a [std::stoi] that reads nothing. *)
Lemma string_constructor_ignores_exponents_witness :
  let kg2 := String.String "k" (String.String "g" (String.String "^"
               (String.String "2" String.EmptyString))) in
  unit_base_string.of_string (fun _ => None) kg2 = Ok (unit_base.mk 0 0 1 0 0 0 0) /\
  unit_base.kilogram_ (unit_base.mk 0 0 1 0 0 0 0) <> 2.
Proof.
  intros kg2. split; [reflexivity|].
  apply (string_constructor_ignores_exponents (fun _ => None) kg2
           (unit_base.mk 0 0 1 0 0 0 0) eq_refl).
Defined.

Module weight_facts.

Lemma unit_square_cases (std_pow : scalar -> scalar -> scalar) (u : unit.t) :
  unit.square std_pow u = Terminate \/ exists r, unit.square std_pow u = Ok r.
Proof.
  unfold unit.square, unit_prefix.square, unit_prefix.make.
  destruct (_ <=? 0)%float; simpl; [left; reflexivity | right; eexists; reflexivity].
Qed.

End weight_facts.

(** X29.  The weight of a umeasurement, the square of the inverse of its
    uncertainty, throws [std::runtime_error] exactly when the uncertainty is
    zero (an exact umeasurement has no weight, not an infinite one);
    otherwise the call ends the program or returns
    [std::pow(1 / uncertainty, 2)]. *)
Theorem weight_of_an_exact_umeasurement
  (std_pow : scalar -> scalar -> scalar) (this : umeasurement.t) :
  (umeasurement.weight std_pow this = Throw runtime_error <->
   (umeasurement.uncertainty_ this =? 0)%float = true) /\
  ((umeasurement.uncertainty_ this =? 0)%float = false ->
   umeasurement.weight std_pow this = Terminate \/
   exists u, umeasurement.weight std_pow this =
             Ok (measurement.mk
                   (std_pow (1 / umeasurement.uncertainty_ this)%float (double_of_int 2)) u)).
Proof.
  unfold umeasurement.weight, umeasurement.uncertainty_as_measurement, measurement.inv,
    measurement.square.
  simpl measurement.value_. simpl measurement.units_.
  destruct (umeasurement.uncertainty_ this =? 0)%float.
  - split; [split; reflexivity | discriminate].
  - destruct (measurement_facts.unit_inv_cases (umeasurement.units_ this)) as [-> | [p ->]];
      simpl.
    + split; [split; discriminate | left; reflexivity].
    + destruct (weight_facts.unit_square_cases std_pow
                  (unit.make p (unit_base.inv (unit.base_ (umeasurement.units_ this)))))
        as [-> | [r ->]]; simpl.
      * split; [split; discriminate | left; reflexivity].
      * split; [split; discriminate | right; eexists; reflexivity].
Qed.
